(** * cleanfollow-bsky: relationship reconciliation and batch cleanup

    A shallow embedding of the reconciliation engine of the two versions of
    the application kept in this repository, [src/src/App.tsx] and
    [src/unnamed/part_000], followed by the properties established for it.

    Conventions of the embedding:
    - a JavaScript value that may be [undefined] is an [option];
    - [RepoStatus] values are numbers, embedded as [Z], with the 32-bit
      behaviour of the bit operators written out;
    - a [Set] of identifiers is a [gset string], the toggle stores are
      [gmap Z bool];
    - asynchronous functions are run to completion against a description of
      the remote services, a [World]; they run in the [Async] monad, which
      carries the stores, the requests sent, the exceptions, and the fuel of
      the loops whose end is decided by the server;
    - the probes of follow mode are answered in any order: a run is driven
      by a schedule of launches and answers;
    - timers only delay and are not represented. *)

From Stdlib Require Import ZArith Ascii String Lia.
From stdpp Require Import base option list sets gmap strings pretty.

Local Open Scope string_scope.
Local Open Scope list_scope.
Local Open Scope Z_scope.
Local Open Scope nat_scope.

(** ** JavaScript values *)

(** Truthiness of a [string | undefined]. *)
Definition truthy_str (s : option string) : bool :=
  match s with
  | Some EmptyString => false
  | Some _ => true
  | None => false
  end.

(** [s || d] on strings. *)
Definition or_str (s : option string) (d : string) : string :=
  match s with
  | Some EmptyString => d
  | Some x => x
  | None => d
  end.

(** Truthiness of a [boolean | undefined]. *)
Definition truthy_bool (b : option bool) : bool :=
  match b with
  | Some true => true
  | _ => false
  end.

(** Truthiness of an object reference that may be [undefined]. *)
Definition truthy_obj {A : Type} (o : option A) : bool :=
  match o with
  | Some _ => true
  | None => false
  end.

(** [ToInt32], applied by the bit operators to their operands. *)
Definition to_int32 (x : Z) : Z :=
  ((x + 2 ^ 31) mod 2 ^ 32 - 2 ^ 31)%Z.

(** [a | b] and [a & b]. *)
Definition js_or (a b : Z) : Z := Z.lor (to_int32 a) (to_int32 b).
Definition js_and (a b : Z) : Z := Z.land (to_int32 a) (to_int32 b).

(** Truthiness of a number. *)
Definition truthy_num (x : Z) : bool := negb (x =? 0)%Z.

(** [p] is a prefix of [s] ([s.startsWith(p)]). *)
Fixpoint startsWith (p s : string) : bool :=
  match p, s with
  | EmptyString, _ => true
  | String a p', String b s' => if Ascii.eqb a b then startsWith p' s' else false
  | String _ _, EmptyString => false
  end.

(** [hay.includes(needle)]. *)
Fixpoint includes (needle hay : string) : bool :=
  startsWith needle hay
  || match hay with
     | EmptyString => false
     | String _ t => includes needle t
     end.

(** [s.split(sep)] for a non-empty separator: [skip] counts the characters
    of a separator that was just matched and still has to be consumed,
    [cur] is the piece being read. *)
Fixpoint split_go (sep : string) (skip : nat) (cur s : string) : list string :=
  match s with
  | EmptyString => [cur]
  | String c t =>
      match skip with
      | S k => split_go sep k cur t
      | O =>
          if startsWith sep s
          then cur :: split_go sep (String.length sep - 1) EmptyString t
          else split_go sep 0 (cur +:+ String c EmptyString) t
      end
  end.

Definition split (sep s : string) : list string := split_go sep 0 EmptyString s.

(** [a.pop()] as far as its result goes: the last element, [undefined] on an
    empty array. *)
Definition pop {A : Type} (a : list A) : option A := last a.

(** [s.substring(0, n)]. *)
Definition substring0 (n : nat) (s : string) : string := String.substring 0 n s.

(** A template literal prints [undefined] for a missing value. *)
Definition render (s : option string) : string := default "undefined" s.

(** ** Status taxonomy *)

Module RepoStatus.
Definition BLOCKEDBY : Z := Z.shiftl 1 0.
Definition BLOCKING : Z := Z.shiftl 1 1.
Definition DELETED : Z := Z.shiftl 1 2.
Definition DEACTIVATED : Z := Z.shiftl 1 3.
Definition SUSPENDED : Z := Z.shiftl 1 4.
Definition HIDDEN : Z := Z.shiftl 1 5.
Definition YOURSELF : Z := Z.shiftl 1 6.
Definition UNKNOWN : Z := Z.shiftl 1 7.
End RepoStatus.

Record AccountRecord := {
  ar_did : string;
  ar_handle : string;
  ar_uri : string;
  ar_status : Z;
  ar_status_label : string;
  ar_toDelete : bool;
  ar_visible : bool;
}.

Inductive ViewMode := FOLLOWS | BLOCKS.

(** ** Remote services *)

Record Label := { val : string }.

Record ListViewBasic := { list_uri : string; list_name : string }.

(** [viewer] of a profile view: how the authenticated user and the subject
    relate. *)
Record ViewerState := {
  blockedBy : option bool;
  blocking : option string;
  blockingByList : option ListViewBasic;
}.

(** The payload of [app.bsky.actor.getProfile], as far as it is read. *)
Record ProfileViewDetailed := {
  pv_did : option string;
  pv_handle : option string;
  pv_labels : option (list Label);
  pv_viewer : option ViewerState;
}.

(** An error body, [{ error, message }]. *)
Record ErrorData := { ed_error : option string; ed_message : option string }.

(** A value caught by [catch (e: any)], as far as it is read. *)
Record Thrown := {
  e_message : option string;
  e_status : option Z;
  e_data : option ErrorData;
}.

(** Fetching and parsing an identity document. *)
Inductive DidDocFetch :=
  | FetchRejected
  | JsonRejected
  | DidDoc (alsoKnownAs : option (list string)).

(** One page of a listing. *)
Record Page (A : Type) := { items : list A; cursor : option string }.
Arguments items {A} p.
Arguments cursor {A} p.

Inductive ListResponse (A : Type) :=
  | ListOk (p : Page A)
  | ListFails (error : string).
Arguments ListOk {A} p.
Arguments ListFails {A} error.

(** An entry of [app.bsky.graph.getBlocks]. *)
Record BlockView := { bv_did : string }.

(** An entry of [com.atproto.repo.listRecords]: [record.uri] and
    [record.value.subject]. *)
Record RepoRecord := { rec_uri : string; rec_subject : string }.

(** A delete operation of [com.atproto.repo.applyWrites]. *)
Record Delete := {
  del_type : string;
  del_collection : string;
  del_rkey : option string;
}.

(** The remote services the engine talks to; [P] is what a profile request
    gives, which the two clients present differently. The listing requests
    take the page limit and the cursor; a listing request that fails is
    answered with [ok] false by the newer client and thrown by the older
    one. [applyWrites] says whether the request succeeds. *)
Record World (P : Type) := {
  agentDID : string;
  getProfile : string -> P;
  getBlocks : nat -> option string -> ListResponse BlockView;
  listRecords : string -> string -> nat -> option string -> ListResponse RepoRecord;
  fetchDidDoc : string -> DidDocFetch;
  applyWrites : string -> list Delete -> bool;
}.
Arguments agentDID {P} w.
Arguments getProfile {P} w actor.
Arguments getBlocks {P} w limit cursor.
Arguments listRecords {P} w repo collection limit cursor.
Arguments fetchDidDoc {P} w url.
Arguments applyWrites {P} w repo writes.

(** ** Application state and effects *)

(** A request sent to a remote service. *)
Inductive Request :=
  | GetProfile (actor : string)
  | GetBlocks (limit : nat) (cursor : option string)
  | ListRecords (repo collection : string) (limit : nat) (cursor : option string)
  | FetchDidDoc (url : string)
  | ApplyWrites (repo : string) (writes : list Delete).

(** The module-level stores and signals, the two signals of the [Fetch]
    component, and the requests sent so far, oldest first. *)
Record State := {
  followToggleStates : gmap Z bool;
  blockToggleStates : gmap Z bool;
  followRecords : list AccountRecord;
  blockRecords : list AccountRecord;
  currentMode : ViewMode;
  globalNotice : string;
  progress : nat;
  itemCount : nat;
  sent : list Request;
}.

Definition setFollowToggleStates (f : gmap Z bool -> gmap Z bool) (st : State) : State :=
  {| followToggleStates := f (followToggleStates st);
     blockToggleStates := blockToggleStates st;
     followRecords := followRecords st; blockRecords := blockRecords st;
     currentMode := currentMode st; globalNotice := globalNotice st;
     progress := progress st; itemCount := itemCount st; sent := sent st |}.

Definition setBlockToggleStates (f : gmap Z bool -> gmap Z bool) (st : State) : State :=
  {| followToggleStates := followToggleStates st;
     blockToggleStates := f (blockToggleStates st);
     followRecords := followRecords st; blockRecords := blockRecords st;
     currentMode := currentMode st; globalNotice := globalNotice st;
     progress := progress st; itemCount := itemCount st; sent := sent st |}.

Definition setFollowRecords (f : list AccountRecord -> list AccountRecord) (st : State) : State :=
  {| followToggleStates := followToggleStates st;
     blockToggleStates := blockToggleStates st;
     followRecords := f (followRecords st); blockRecords := blockRecords st;
     currentMode := currentMode st; globalNotice := globalNotice st;
     progress := progress st; itemCount := itemCount st; sent := sent st |}.

Definition setBlockRecords (f : list AccountRecord -> list AccountRecord) (st : State) : State :=
  {| followToggleStates := followToggleStates st;
     blockToggleStates := blockToggleStates st;
     followRecords := followRecords st; blockRecords := f (blockRecords st);
     currentMode := currentMode st; globalNotice := globalNotice st;
     progress := progress st; itemCount := itemCount st; sent := sent st |}.

Definition setCurrentMode (mode : ViewMode) (st : State) : State :=
  {| followToggleStates := followToggleStates st;
     blockToggleStates := blockToggleStates st;
     followRecords := followRecords st; blockRecords := blockRecords st;
     currentMode := mode; globalNotice := globalNotice st;
     progress := progress st; itemCount := itemCount st; sent := sent st |}.

Definition setGlobalNotice (notice : string) (st : State) : State :=
  {| followToggleStates := followToggleStates st;
     blockToggleStates := blockToggleStates st;
     followRecords := followRecords st; blockRecords := blockRecords st;
     currentMode := currentMode st; globalNotice := notice;
     progress := progress st; itemCount := itemCount st; sent := sent st |}.

Definition setProgress (n : nat) (st : State) : State :=
  {| followToggleStates := followToggleStates st;
     blockToggleStates := blockToggleStates st;
     followRecords := followRecords st; blockRecords := blockRecords st;
     currentMode := currentMode st; globalNotice := globalNotice st;
     progress := n; itemCount := itemCount st; sent := sent st |}.

Definition setItemCount (n : nat) (st : State) : State :=
  {| followToggleStates := followToggleStates st;
     blockToggleStates := blockToggleStates st;
     followRecords := followRecords st; blockRecords := blockRecords st;
     currentMode := currentMode st; globalNotice := globalNotice st;
     progress := progress st; itemCount := n; sent := sent st |}.

Definition send (reqs : list Request) (st : State) : State :=
  {| followToggleStates := followToggleStates st;
     blockToggleStates := blockToggleStates st;
     followRecords := followRecords st; blockRecords := blockRecords st;
     currentMode := currentMode st; globalNotice := globalNotice st;
     progress := progress st; itemCount := itemCount st;
     sent := sent st ++ reqs |}.

(** What running an asynchronous function gives: its result, an exception
    that leaves it, or no answer within the number of requests allowed to
    a loop whose end is decided by the server. *)
Inductive Outcome (A : Type) :=
  | Returns (a : A)
  | Throws (msg : string)
  | OutOfFuel.
Arguments Returns {A} a.
Arguments Throws {A} msg.
Arguments OutOfFuel {A}.

(** Asynchronous code: it reads and writes the state, and may throw. *)
Definition Async (A : Type) : Type := State -> Outcome A * State.

#[global] Instance Async_ret : MRet Async := fun A a st => (Returns a, st).
#[global] Instance Async_bind : MBind Async := fun A B f m st =>
  match m st with
  | (Returns a, st') => f a st'
  | (Throws msg, st') => (Throws msg, st')
  | (OutOfFuel, st') => (OutOfFuel, st')
  end.

Definition throw {A : Type} (msg : string) : Async A := fun st => (Throws msg, st).
Definition outOfFuel {A : Type} : Async A := fun st => (OutOfFuel, st).

(** Sending [req] and awaiting its response [resp]. *)
Definition await {A : Type} (req : Request) (resp : A) : Async A :=
  fun st => (Returns resp, send [req] st).

(** Reading and writing the state. *)
Definition get {A : Type} (f : State -> A) : Async A := fun st => (Returns (f st), st).
Definition update (f : State -> State) : Async unit := fun st => (Returns tt, f st).

(** ** Profile status classifier *)

Inductive ErrorType := network | validation | api | unknown.

Inductive ErrorDetails :=
  | InvalidData
  | MissingFields (hasHandle hasDid : bool)
  | ApiFailure (httpStatus : option Z) (errorCode : option string) (originalError : Thrown).

Record ProfileError := {
  err_type : ErrorType;
  err_message : string;
  err_details : option ErrorDetails;
}.

Record ProfileCheckResult := {
  res_handle : option string;
  res_status : option Z;
  res_error : option ProfileError;
}.

(** Where the identity document of [did] is found. *)
Definition didDocUrl (did : string) : string :=
  if startsWith "did:web" did
  then "https://" +:+ render (split ":" did !! 2) +:+ "/.well-known/did.json"
  else "https://plc.directory/" +:+ did.

(** The loop over [doc.alsoKnownAs]: [Some r] when it returns [r], [None]
    when it falls through. *)
Fixpoint firstAtAlias (aliases : list string) : option (option string) :=
  match aliases with
  | [] => None
  | alias :: rest =>
      if includes "at://" alias then Some (split "//" alias !! 1)
      else firstAtAlias rest
  end.

(** [res.data.labels?.some((label) => label.val === "!hide")]. *)
Definition hasHideLabel (labels : option (list Label)) : bool :=
  match labels with
  | Some ls => existsb (fun label => String.eqb (val label) "!hide") ls
  | None => false
  end.

(** [viewer.blocking || viewer.blockingByList]. *)
Definition viewerBlocks (viewer : ViewerState) : bool :=
  truthy_str (blocking viewer) || truthy_obj (blockingByList viewer).

(** [app.bsky.actor.getProfile] through the client of [src/src/App.tsx]:
    the promise rejects, or resolves to a response whose [ok] says whether
    [data] is the profile or an error body. *)
Inductive ClientResponse :=
  | Rejected
  | NotOk (httpStatus : Z) (data : ErrorData)
  | Ok (data : ProfileViewDetailed).

(** The same request through the client of [src/unnamed/part_000]: it
    throws on failure, and otherwise gives a response whose [data] may fail
    to be an object. *)
Inductive XrpcResponse :=
  | XrpcThrows (e : Thrown)
  | XrpcResolves (data : option ProfileViewDetailed).

Module App.

Definition resolveDid {P : Type} (w : World P) (did : string) : Async (option string) :=
  res ← await (FetchDidDoc (didDocUrl did)) (fetchDidDoc w (didDocUrl did));
  match res with
  | FetchRejected => mret (Some "")
  | JsonRejected => mret (Some "")
  | DidDoc None => mret (Some "")
  | DidDoc (Some aliases) =>
      match firstAtAlias aliases with
      | Some alias => mret alias
      | None => mret None
      end
  end.

(** [e.message?.includes(needle)]. *)
Definition messageIncludes (needle : string) (e : ErrorData) : bool :=
  match ed_message e with
  | Some m => includes needle m
  | None => false
  end.

Definition checkProfileStatus (w : World ClientResponse) (did : string)
  : Async ProfileCheckResult :=
  res ← await (GetProfile did) (getProfile w did);
  match res with
  | Rejected => throw "app.bsky.actor.getProfile: request failed"
  | NotOk _ e =>
      handle ← resolveDid w did;
      let status :=
        if messageIncludes "not found" e then RepoStatus.DELETED
        else if messageIncludes "deactivated" e then RepoStatus.DEACTIVATED
        else if messageIncludes "suspended" e then RepoStatus.SUSPENDED
        else RepoStatus.UNKNOWN in
      mret {| res_handle := handle; res_status := Some status; res_error := None |}
  | Ok data =>
      let handle := pv_handle data in
      if hasHideLabel (pv_labels data) then
        mret {| res_handle := handle; res_status := Some RepoStatus.HIDDEN;
                res_error := None |}
      else
        match pv_viewer data with
        | None => throw "TypeError: viewer is undefined"
        | Some viewer =>
            if truthy_bool (blockedBy viewer) then
              mret {| res_handle := handle;
                      res_status :=
                        Some (if viewerBlocks viewer
                              then js_or RepoStatus.BLOCKEDBY RepoStatus.BLOCKING
                              else RepoStatus.BLOCKEDBY);
                      res_error := None |}
            else
              match pv_did data with
              | None => throw "TypeError: did is undefined"
              | Some d =>
                  if includes (agentDID w) d then
                    mret {| res_handle := handle;
                            res_status := Some RepoStatus.YOURSELF;
                            res_error := None |}
                  else if viewerBlocks viewer then
                    mret {| res_handle := handle;
                            res_status := Some RepoStatus.BLOCKING;
                            res_error := None |}
                  else
                    mret {| res_handle := handle; res_status := None;
                            res_error := None |}
              end
        end
  end.

End App.

Module Part000.

Definition resolveDid {P : Type} (w : World P) (did : string) : Async (option string) :=
  res ← await (FetchDidDoc (didDocUrl did)) (fetchDidDoc w (didDocUrl did));
  match res with
  | FetchRejected =>
      mret (Some ("[Failed to resolve: " +:+ substring0 15 did +:+ "...]"))
  | JsonRejected =>
      mret (Some ("[Parse error: " +:+ substring0 15 did +:+ "...]"))
  | DidDoc None =>
      mret (Some ("[Parse error: " +:+ substring0 15 did +:+ "...]"))
  | DidDoc (Some aliases) =>
      match firstAtAlias aliases with
      | Some alias => mret alias
      | None => mret (Some "[No handle found]")
      end
  end.

(** The branches of the [catch] block. *)
Definition isDeactivated (errorData : ErrorData) (errorMessage : string) : bool :=
  bool_decide (ed_error errorData = Some "AccountDeactivated")
  || includes "AccountDeactivated" errorMessage.

Definition isSuspended (errorData : ErrorData) (errorMessage : string) : bool :=
  bool_decide (ed_error errorData = Some "AccountSuspended")
  || includes "AccountSuspended" errorMessage.

Definition isDeleted (errorData : ErrorData) (errorStatus : option Z) : bool :=
  bool_decide (ed_error errorData = Some "AccountDeleted")
  || bool_decide (ed_error errorData = Some "ActorNotFound")
  || bool_decide (errorStatus = Some 400%Z).

Definition checkProfileStatus (w : World XrpcResponse) (did : string)
  : Async ProfileCheckResult :=
  res ← await (GetProfile did) (getProfile w did);
  match res with
  | XrpcResolves None =>
      mret {| res_handle := Some "[Invalid Response]";
              res_status := Some RepoStatus.UNKNOWN;
              res_error :=
                Some {| err_type := validation;
                        err_message := "API returned invalid response structure";
                        err_details := Some InvalidData |} |}
  | XrpcResolves (Some data) =>
      if negb (truthy_str (pv_did data)) || negb (truthy_str (pv_handle data)) then
        mret {| res_handle := Some (or_str (pv_handle data) "[Missing Handle]");
                res_status := Some RepoStatus.UNKNOWN;
                res_error :=
                  Some {| err_type := validation;
                          err_message := "Profile response missing essential fields";
                          err_details :=
                            Some (MissingFields (truthy_str (pv_handle data))
                                                (truthy_str (pv_did data))) |} |}
      else
        let handle := pv_handle data in
        let status :=
          match pv_viewer data with
          | None => None
          | Some viewer =>
              if hasHideLabel (pv_labels data) then Some RepoStatus.HIDDEN
              else if truthy_bool (blockedBy viewer) then
                Some (if viewerBlocks viewer
                      then js_or RepoStatus.BLOCKEDBY RepoStatus.BLOCKING
                      else RepoStatus.BLOCKEDBY)
              else if bool_decide (pv_did data = Some (agentDID w)) then
                Some RepoStatus.YOURSELF
              else if viewerBlocks viewer then Some RepoStatus.BLOCKING
              else None
          end in
        mret {| res_handle := handle; res_status := status; res_error := None |}
  | XrpcThrows e =>
      handle ← resolveDid w did;
      let errorMessage := or_str (e_message e) "" in
      let errorStatus := e_status e in
      let errorData := default {| ed_error := None; ed_message := None |} (e_data e) in
      let status :=
        if isDeactivated errorData errorMessage then RepoStatus.DEACTIVATED
        else if isSuspended errorData errorMessage then RepoStatus.SUSPENDED
        else if isDeleted errorData errorStatus then RepoStatus.DELETED
        else RepoStatus.UNKNOWN in
      mret {| res_handle := handle;
              res_status := Some status;
              res_error :=
                Some {| err_type := api;
                        err_message :=
                          or_str (Some (or_str (ed_message errorData) errorMessage))
                                 "Profile not accessible";
                        err_details :=
                          Some (ApiFailure errorStatus (ed_error errorData) e) |} |}
  end.

End Part000.

(** ** Status labels and account records *)

(** [status == k] for a status that may be [undefined]. *)
Definition loose_eq (status : option Z) (k : Z) : bool :=
  match status with
  | Some s => (s =? k)%Z
  | None => false
  end.

(** The label chain of follow mode. *)
Definition followStatusLabel (status : option Z) : string :=
  if loose_eq status RepoStatus.DELETED then "Deleted"
  else if loose_eq status RepoStatus.DEACTIVATED then "Deactivated"
  else if loose_eq status RepoStatus.SUSPENDED then "Suspended"
  else if loose_eq status RepoStatus.YOURSELF then "Literally Yourself"
  else if loose_eq status RepoStatus.BLOCKING then "Blocking"
  else if loose_eq status RepoStatus.BLOCKEDBY then "Blocked by"
  else if loose_eq status RepoStatus.HIDDEN then "Hidden by moderation service"
  else if loose_eq status (js_or RepoStatus.BLOCKEDBY RepoStatus.BLOCKING) then "Mutual Block"
  else if loose_eq status RepoStatus.UNKNOWN then "Unknown Status"
  else "".

(** The record pushed by a follow-mode probe; none when the status is
    [undefined]. *)
Definition followRecordOf (currentToggleStates : gmap Z bool) (record : RepoRecord)
    (result : ProfileCheckResult) : option AccountRecord :=
  let status_label := followStatusLabel (res_status result) in
  match res_status result with
  | Some status =>
      Some {| ar_did := rec_subject record;
              ar_handle := or_str (res_handle result) "[Unknown Handle]";
              ar_uri := rec_uri record;
              ar_status := status;
              ar_status_label := status_label;
              ar_toDelete := false;
              ar_visible := default true (currentToggleStates !! status) |}
  | None => None
  end.

(** An entry of the block listings of block mode, [{ did, uri }]. *)
Record BlockRef := { br_did : string; br_uri : string }.

(** The label chain of block mode, the same in both versions. *)
Definition blockStatusLabel (status : option Z) : string :=
  if bool_decide (status = Some RepoStatus.DELETED) then "Deleted"
  else if bool_decide (status = Some RepoStatus.DEACTIVATED) then "Deactivated"
  else if bool_decide (status = Some RepoStatus.SUSPENDED) then "Suspended"
  else "Unknown".

Module AppRecords.
(** [status || RepoStatus.UNKNOWN]. *)
Definition actualStatus (status : option Z) : Z :=
  match status with
  | Some s => if truthy_num s then s else RepoStatus.UNKNOWN
  | None => RepoStatus.UNKNOWN
  end.

Definition blockRecordOf (currentToggleStates : gmap Z bool) (block : BlockRef)
    (result : ProfileCheckResult) : AccountRecord :=
  {| ar_did := br_did block;
     ar_handle := or_str (res_handle result) "[Unknown Handle]";
     ar_uri := br_uri block;
     ar_status := actualStatus (res_status result);
     ar_status_label := blockStatusLabel (res_status result);
     ar_toDelete := false;
     ar_visible := default true (currentToggleStates !! actualStatus (res_status result)) |}.
End AppRecords.

Module Part000Records.
Definition actualStatus (status : option Z) : Z :=
  if bool_decide (status = Some RepoStatus.DELETED) then RepoStatus.DELETED
  else if bool_decide (status = Some RepoStatus.DEACTIVATED) then RepoStatus.DEACTIVATED
  else if bool_decide (status = Some RepoStatus.SUSPENDED) then RepoStatus.SUSPENDED
  else RepoStatus.UNKNOWN.

Definition blockRecordOf (currentToggleStates : gmap Z bool) (block : BlockRef)
    (result : ProfileCheckResult) : AccountRecord :=
  {| ar_did := br_did block;
     ar_handle := or_str (res_handle result) "[Unknown Handle]";
     ar_uri := br_uri block;
     ar_status := actualStatus (res_status result);
     ar_status_label := blockStatusLabel (res_status result);
     ar_toDelete := false;
     ar_visible := default true (currentToggleStates !! actualStatus (res_status result)) |}.
End Part000Records.

(** ** Paginated listings *)

(** [a.slice(i, j)] for [i <= j]. *)
Definition slice {A : Type} (i j : nat) (a : list A) : list A := take (j - i) (drop i a).

Section Listings.
Context {P : Type} (w : World P).

(** The first loop of [fetchBlocks]: the live block list, read until a
    page comes without cursor. [fuel] bounds the requests after the
    first one. *)
Fixpoint fetchBlocks_pages (PAGE_LIMIT fuel : nat) (res : Page BlockView)
    (blocks : list BlockView) : Async (list BlockView) :=
  if truthy_str (cursor res) then
    match fuel with
    | O => outOfFuel
    | S fuel' =>
        r ← await (GetBlocks PAGE_LIMIT (cursor res)) (getBlocks w PAGE_LIMIT (cursor res));
        match r with
        | ListFails error => throw error
        | ListOk res' => fetchBlocks_pages PAGE_LIMIT fuel' res' (blocks ++ items res')
        end
    end
  else mret blocks.

Definition fetchBlocks_active (PAGE_LIMIT fuel : nat) : Async (list BlockView) :=
  r ← await (GetBlocks PAGE_LIMIT None) (getBlocks w PAGE_LIMIT None);
  match r with
  | ListFails error => throw error
  | ListOk res => fetchBlocks_pages PAGE_LIMIT fuel res (items res)
  end.

(** The body of the loop over the records of a page in [fetchBlocks]. *)
Definition matchBlockRecord (acc : gset string * list BlockRef) (record : RepoRecord)
  : gset string * list BlockRef :=
  let '(blockedDids, blockUris) := acc in
  if bool_decide (rec_subject record ∈ blockedDids) then
    (blockedDids ∖ {[rec_subject record]},
     blockUris ++ [{| br_did := rec_subject record; br_uri := rec_uri record |}])
  else (blockedDids, blockUris).

(** The second loop of [fetchBlocks], a do-while that stops at the first
    request that fails. [fuel] bounds its requests. *)
Fixpoint fetchBlocks_records (fuel : nat) (recordsCursor : option string)
    (blockedDids : gset string) (blockUris : list BlockRef) : Async (list BlockRef) :=
  match fuel with
  | O => outOfFuel
  | S fuel' =>
      recordsRes ←
        await (ListRecords (agentDID w) "app.bsky.graph.block" 100 recordsCursor)
              (listRecords w (agentDID w) "app.bsky.graph.block" 100 recordsCursor);
      match recordsRes with
      | ListFails _ => mret blockUris
      | ListOk page =>
          let '(blockedDids', blockUris') :=
            foldl matchBlockRecord (blockedDids, blockUris) (items page) in
          if truthy_str (cursor page)
          then fetchBlocks_records fuel' (cursor page) blockedDids' blockUris'
          else mret blockUris'
      end
  end.

Definition fetchBlocks (fuel : nat) : Async (list BlockRef) :=
  blocks ← fetchBlocks_active 50 fuel;
  let blockedDids : gset string := list_to_set (bv_did <$> blocks) in
  fetchBlocks_records fuel None blockedDids [].

(** [fetchFollows]: the follow records, read until a page comes without
    cursor or shorter than the limit. *)
Fixpoint fetchFollows_pages (PAGE_LIMIT fuel : nat) (res : Page RepoRecord)
    (follows : list RepoRecord) : Async (list RepoRecord) :=
  if truthy_str (cursor res) && (PAGE_LIMIT <=? length (items res)) then
    match fuel with
    | O => outOfFuel
    | S fuel' =>
        r ← await (ListRecords (agentDID w) "app.bsky.graph.follow" PAGE_LIMIT (cursor res))
                  (listRecords w (agentDID w) "app.bsky.graph.follow" PAGE_LIMIT (cursor res));
        match r with
        | ListFails error => throw error
        | ListOk res' => fetchFollows_pages PAGE_LIMIT fuel' res' (follows ++ items res')
        end
    end
  else mret follows.

Definition fetchFollows_limit (PAGE_LIMIT fuel : nat) : Async (list RepoRecord) :=
  r ← await (ListRecords (agentDID w) "app.bsky.graph.follow" PAGE_LIMIT None)
            (listRecords w (agentDID w) "app.bsky.graph.follow" PAGE_LIMIT None);
  match r with
  | ListFails error => throw error
  | ListOk res => fetchFollows_pages PAGE_LIMIT fuel res (items res)
  end.

Definition fetchFollows (fuel : nat) : Async (list RepoRecord) :=
  fetchFollows_limit 100 fuel.

(** The listing of all block records that opens block mode, a do-while.
    A failing request ends the loop in [src/src/App.tsx]
    ([breakOnFailure]) and throws in [src/unnamed/part_000]. *)
Fixpoint listBlockRecords (breakOnFailure : bool) (fuel : nat) (cursor0 : option string)
    (allBlockRecords : list BlockRef) : Async (list BlockRef) :=
  match fuel with
  | O => outOfFuel
  | S fuel' =>
      res ←
        await (ListRecords (agentDID w) "app.bsky.graph.block" 100 cursor0)
              (listRecords w (agentDID w) "app.bsky.graph.block" 100 cursor0);
      match res with
      | ListFails error =>
          if breakOnFailure then mret allBlockRecords else throw error
      | ListOk page =>
          let allBlockRecords' :=
            allBlockRecords
            ++ ((fun record =>
                   {| br_did := rec_subject record; br_uri := rec_uri record |})
                  <$> items page) in
          if truthy_str (cursor page)
          then listBlockRecords breakOnFailure fuel' (cursor page) allBlockRecords'
          else mret allBlockRecords'
      end
  end.

(** [allBlockRecords.filter(record => !activeDids.has(record.did))]. *)
Definition blocksToDelete (allBlockRecords activeBlocks : list BlockRef) : list BlockRef :=
  let activeDids : gset string := list_to_set (br_did <$> activeBlocks) in
  filter (fun record => br_did record ∉ activeDids) allBlockRecords.

End Listings.

(** ** Cleanup orchestrator *)

Section Orchestrator.
Context {P : Type} (w : World P).
(** What differs between the two versions: the classifier, whether the
    opening listing of block mode survives a failing request, how a block
    record is built, and how [applyWrites] is called. *)
Context (checkProfileStatus : string -> Async ProfileCheckResult).
Context (breakOnFailure : bool).
Context (blockRecordOf : gmap Z bool -> BlockRef -> ProfileCheckResult -> AccountRecord).
Context (post : list Delete -> Async unit).

(** The probing loop of block mode, strictly sequential; [i] is the loop
    index of the first element of [blocks]. The toggles are read from the
    block store when the record is built. *)
Fixpoint analyzeBlocks (i : nat) (blocks : list BlockRef) (tmpBlocks : list AccountRecord)
  : Async (list AccountRecord) :=
  match blocks with
  | [] => mret tmpBlocks
  | block :: rest =>
      update (setProgress (i + 1));;
      result ← checkProfileStatus (br_did block);
      currentToggleStates ← get blockToggleStates;
      analyzeBlocks (S i) rest
        (tmpBlocks ++ [blockRecordOf currentToggleStates block result])
  end.

(** Block mode up to the candidates handed to classification. *)
Definition blockCandidates (fuel : nat) : Async (list BlockRef) :=
  update (setGlobalNotice "Fetching blocked accounts...");;
  allBlockRecords ← listBlockRecords w breakOnFailure fuel None [];
  activeBlocks ← fetchBlocks w fuel;
  mret (blocksToDelete allBlockRecords activeBlocks).

(** [fetchHiddenAccounts] when the current mode is [BLOCKS]. *)
Definition fetchHiddenAccounts_blocks (fuel : nat) : Async unit :=
  update (setProgress 0);;
  blocksToDelete ← blockCandidates fuel;
  update (setItemCount (length blocksToDelete));;
  update (setGlobalNotice "Analyzing blocked accounts...");;
  tmpBlocks ← analyzeBlocks 0 blocksToDelete [];
  update (setGlobalNotice
            (if length tmpBlocks =? 0
             then "All your blocked accounts are still active" else ""));;
  update (setBlockRecords (fun _ => tmpBlocks));;
  update (setProgress 0);;
  update (setItemCount 0).

(** [fetchHiddenAccounts] when the current mode is [FOLLOWS], up to the
    launch of the probes: it gives the follow records to probe. *)
Definition fetchHiddenAccounts_follows (fuel : nat) : Async (list RepoRecord) :=
  update (setProgress 0);;
  update (setGlobalNotice "Fetching followed accounts...");;
  follows ← fetchFollows w fuel;
  update (setItemCount (length follows));;
  update (setGlobalNotice "Analyzing followed accounts...");;
  mret follows.

(** The callback given to [forEach], run from the moment its probe is
    answered; [tmpFollows] is the array shared by the callbacks of one run
    and comes back with what the callback pushed. *)
Definition followCallback (record : RepoRecord) (tmpFollows : list AccountRecord)
  : Async (list AccountRecord) :=
  result ← checkProfileStatus (rec_subject record);
  currentToggleStates ← get followToggleStates;
  let tmpFollows' :=
    match followRecordOf currentToggleStates record result with
    | Some r => tmpFollows ++ [r]
    | None => tmpFollows
    end in
  p ← get progress;
  update (setProgress (p + 1));;
  p' ← get progress;
  n ← get itemCount;
  if p' =? n then
    update (setGlobalNotice
              (if length tmpFollows' =? 0
               then "All accounts you follow are active" else ""));;
    update (setFollowRecords (fun _ => tmpFollows'));;
    update (setProgress 0);;
    update (setItemCount 0);;
    mret tmpFollows'
  else mret tmpFollows'.

(** The probes of follow mode are launched ten at a time and answered in
    any order. A run is the position [fr_i] of the launching loop, the
    launched probes not yet answered, and the shared array. *)
Record FollowRun := {
  fr_i : nat;
  fr_pending : list RepoRecord;
  fr_tmpFollows : list AccountRecord;
}.

(** What happens next: the loop launches its next ten probes, or the
    [k]-th pending probe is answered and its callback runs. *)
Inductive Choice := Launch | Complete (k : nat).

Definition followStep (follows : list RepoRecord) (c : Choice)
    (run : FollowRun) (st : State) : option (FollowRun * State) :=
  match c with
  | Launch =>
      if fr_i run <? length follows then
        Some ({| fr_i := fr_i run + 10;
                 fr_pending := fr_pending run ++ slice (fr_i run) (fr_i run + 10) follows;
                 fr_tmpFollows := fr_tmpFollows run |}, st)
      else None
  | Complete k =>
      match fr_pending run !! k with
      | Some record =>
          match followCallback record (fr_tmpFollows run) st with
          | (Returns tmpFollows', st') =>
              Some ({| fr_i := fr_i run;
                       fr_pending := delete k (fr_pending run);
                       fr_tmpFollows := tmpFollows' |}, st')
          | (_, st') =>
              Some ({| fr_i := fr_i run;
                       fr_pending := delete k (fr_pending run);
                       fr_tmpFollows := fr_tmpFollows run |}, st')
          end
      | None => None
      end
  end.

Fixpoint followSteps (follows : list RepoRecord) (schedule : list Choice)
    (run : FollowRun) (st : State) : option (FollowRun * State) :=
  match schedule with
  | [] => Some (run, st)
  | c :: rest =>
      match followStep follows c run st with
      | Some (run', st') => followSteps follows rest run' st'
      | None => None
      end
  end.

(** Nothing is left to launch or to answer. *)
Definition followDone (follows : list RepoRecord) (run : FollowRun) : Prop :=
  length follows <= fr_i run /\ fr_pending run = [].

(** ** Batched deletion *)

Definition BATCHSIZE : nat := 200.

Definition deleteOf (collection : string) (record : AccountRecord) : Delete :=
  {| del_type := "com.atproto.repo.applyWrites#delete";
     del_collection := collection;
     del_rkey := pop (split "/" (ar_uri record)) |}.

(** The loop of [removeItems]; its index grows by [BATCHSIZE] until it
    passes the length, so [fuel] is set to that length by [removeItems]. *)
Fixpoint removeItems_loop (fuel i : nat) (writes : list Delete) : Async unit :=
  if i <? length writes then
    match fuel with
    | O => outOfFuel
    | S fuel' =>
        post (slice i (i + BATCHSIZE) writes);;
        removeItems_loop fuel' (i + BATCHSIZE) writes
    end
  else mret tt.

Definition plural (n : nat) : string := if 1 <? n then "s" else "".

Definition removeItems : Async unit :=
  mode ← get currentMode;
  items ← get (match mode with BLOCKS => blockRecords | FOLLOWS => followRecords end);
  let collection :=
    match mode with
    | BLOCKS => "app.bsky.graph.block"
    | FOLLOWS => "app.bsky.graph.follow"
    end in
  let writes :=
    deleteOf collection <$> filter (fun record => ar_toDelete record = true) items in
  removeItems_loop (length writes) 0 writes;;
  mode' ← get currentMode;
  match mode' with
  | BLOCKS =>
      update (setBlockRecords (fun _ => []));;
      update (setGlobalNotice
                ("Successfully cleaned up " +:+ pretty (length writes)
                 +:+ " inactive block" +:+ plural (length writes)))
  | FOLLOWS =>
      update (setFollowRecords (fun _ => []));;
      update (setGlobalNotice
                ("Successfully unfollowed " +:+ pretty (length writes)
                 +:+ " account" +:+ plural (length writes)))
  end.

End Orchestrator.

(** ** Toggles *)

(** The two boolean fields of a record that [editRecords] writes. *)
Inductive Field := visible | toDelete.

Definition setField (field : Field) (value : bool) (record : AccountRecord) : AccountRecord :=
  match field with
  | visible =>
      {| ar_did := ar_did record; ar_handle := ar_handle record; ar_uri := ar_uri record;
         ar_status := ar_status record; ar_status_label := ar_status_label record;
         ar_toDelete := ar_toDelete record; ar_visible := value |}
  | toDelete =>
      {| ar_did := ar_did record; ar_handle := ar_handle record; ar_uri := ar_uri record;
         ar_status := ar_status record; ar_status_label := ar_status_label record;
         ar_toDelete := value; ar_visible := ar_visible record |}
  end.

Definition currentRecords (st : State) : list AccountRecord :=
  match currentMode st with
  | BLOCKS => blockRecords st
  | FOLLOWS => followRecords st
  end.

Definition setCurrentRecords (f : list AccountRecord -> list AccountRecord) (st : State) : State :=
  match currentMode st with
  | BLOCKS => setBlockRecords f st
  | FOLLOWS => setFollowRecords f st
  end.

Definition currentToggleStates (st : State) : gmap Z bool :=
  match currentMode st with
  | BLOCKS => blockToggleStates st
  | FOLLOWS => followToggleStates st
  end.

Definition setCurrentToggleStates (f : gmap Z bool -> gmap Z bool) (st : State) : State :=
  match currentMode st with
  | BLOCKS => setBlockToggleStates f st
  | FOLLOWS => setFollowToggleStates f st
  end.

(** The indices kept by the [map] and [filter] of [editRecords]. *)
Definition editRange (status : Z) (records : list AccountRecord) : list nat :=
  omap id
    (imap (fun index record =>
             if truthy_num (js_and (ar_status record) status) then Some index else None)
          records).

(** The store setter applied to a list of indices: the field is written at
    each of them in turn. *)
Definition setAt (range : list nat) (field : Field) (value : bool)
    (records : list AccountRecord) : list AccountRecord :=
  foldl (fun rs index => alter (setField field value) index rs) records range.

Definition editRecords (status : Z) (field : Field) (value : bool) (st : State) : State :=
  let range := editRange status (currentRecords st) in
  setCurrentRecords (setAt range field value) st.

Definition updateToggleState (status : Z) (value : bool) (st : State) : State :=
  let st1 := setCurrentToggleStates (<[status := value]>) st in
  let st2 := editRecords status visible value st1 in
  if negb value then editRecords status toDelete false st2 else st2.

(** ** The two versions *)

Module AppEngine.
(** [rpc.post]: the response is not inspected, so a request answered with
    an error counts as sent like the others. *)
Definition post (w : World ClientResponse) (writes : list Delete) : Async unit :=
  _ ← await (ApplyWrites (agentDID w) writes) (applyWrites w (agentDID w) writes);
  mret tt.

Definition fetchHiddenAccounts_blocks (w : World ClientResponse) (fuel : nat) : Async unit :=
  fetchHiddenAccounts_blocks w (App.checkProfileStatus w) true AppRecords.blockRecordOf fuel.

Definition blockCandidates (w : World ClientResponse) (fuel : nat) : Async (list BlockRef) :=
  blockCandidates w true fuel.

Definition followCallback (w : World ClientResponse) :=
  followCallback (App.checkProfileStatus w).

Definition followSteps (w : World ClientResponse) :=
  followSteps (App.checkProfileStatus w).

Definition removeItems (w : World ClientResponse) : Async unit :=
  removeItems (post w).
End AppEngine.

Module Part000Engine.
(** [rpc.call]: a failure is thrown. *)
Definition post (w : World XrpcResponse) (writes : list Delete) : Async unit :=
  ok ← await (ApplyWrites (agentDID w) writes) (applyWrites w (agentDID w) writes);
  if ok : bool then mret tt else throw "com.atproto.repo.applyWrites: request failed".

Definition fetchHiddenAccounts_blocks (w : World XrpcResponse) (fuel : nat) : Async unit :=
  fetchHiddenAccounts_blocks w (Part000.checkProfileStatus w) false
    Part000Records.blockRecordOf fuel.

Definition blockCandidates (w : World XrpcResponse) (fuel : nat) : Async (list BlockRef) :=
  blockCandidates w false fuel.

Definition followCallback (w : World XrpcResponse) :=
  followCallback (Part000.checkProfileStatus w).

Definition followSteps (w : World XrpcResponse) :=
  followSteps (Part000.checkProfileStatus w).

Definition removeItems (w : World XrpcResponse) : Async unit :=
  removeItems (post w).
End Part000Engine.

(** ** Interface *)

(** [s.replace(pat, rep)] for a string pattern: the first occurrence is
    replaced. *)
Fixpoint dropStr (n : nat) (s : string) : string :=
  match n, s with
  | S n', String _ t => dropStr n' t
  | _, _ => s
  end.

Fixpoint str_replace (pat rep s : string) : string :=
  if startsWith pat s then rep +:+ dropStr (String.length pat) s
  else match s with
       | EmptyString => EmptyString
       | String c t => String c (str_replace pat rep t)
       end.

(** The link to the identity document shown with a record. *)
Definition didDocLink (did : string) : string :=
  if startsWith "did:plc:" did
  then "https://web.plc.directory/did/" +:+ did
  else "https://" +:+ str_replace "did:web:" "" did +:+ "/.well-known/did.json".

(** [handleModeChange] of the mode selector. *)
Definition handleModeChange (mode : ViewMode) (st : State) : State :=
  setGlobalNotice "" (setCurrentMode mode st).

(** The count kept by the effect of the account list. *)
Definition selectedCount (st : State) : nat :=
  length (filter (fun record => ar_toDelete record && ar_visible record = true)
            (currentRecords st)).

(** The conditions under which the [Fetch] component shows its Preview
    button, its Confirm button and its progress line. *)
Definition previewShown (st : State) : bool :=
  (itemCount st =? 0) && (length (currentRecords st) =? 0).

Definition confirmShown (st : State) : bool :=
  negb (length (currentRecords st) =? 0).

Definition progressShown (st : State) : bool :=
  negb (itemCount st =? 0) && negb (progress st =? itemCount st).

(** The categories offered by the account list, [options]. *)
Definition options (st : State) : list (Z * string) :=
  match currentMode st with
  | BLOCKS =>
      [ (RepoStatus.DELETED, "Deleted"); (RepoStatus.DEACTIVATED, "Deactivated");
        (RepoStatus.SUSPENDED, "Suspended"); (RepoStatus.UNKNOWN, "Unknown") ]
  | FOLLOWS =>
      [ (RepoStatus.DELETED, "Deleted"); (RepoStatus.DEACTIVATED, "Deactivated");
        (RepoStatus.SUSPENDED, "Suspended"); (RepoStatus.BLOCKEDBY, "Blocked By");
        (RepoStatus.BLOCKING, "Blocking"); (RepoStatus.HIDDEN, "Hidden") ]
  end.

(** What the user can do in the account list: switch the toggle of a
    category, tick or untick its Select All box, and tick or untick the box
    of the record shown at an index. *)
Inductive Action :=
  | Toggle (status : Z) (checked : bool)
  | SelectAll (status : Z) (checked : bool)
  | Tick (index : nat) (checked : bool).

Definition act (a : Action) (st : State) : State :=
  match a with
  | Toggle status checked => updateToggleState status checked st
  | SelectAll status checked => editRecords status toDelete checked st
  | Tick index checked => setCurrentRecords (alter (setField toDelete checked) index) st
  end.

(** The action is one the account list offers in the state. *)
Definition offered (a : Action) (st : State) : Prop :=
  match a with
  | Toggle status _ | SelectAll status _ => status ∈ (options st).*1
  | Tick index _ =>
      exists record, currentRecords st !! index = Some record /\ ar_visible record = true
  end.

(** ** Specification vocabulary *)

(** A status contains a flag, tested the way [editRecords] tests it. *)
Definition hasFlag (status flag : Z) : Prop := js_and status flag <> 0%Z.

(** The profile carries a moderation label with value [v]. *)
Definition labelled (v : string) (data : ProfileViewDetailed) : Prop :=
  exists ls, pv_labels data = Some ls /\ {| val := v |} ∈ ls.

(** The viewer is blocked by the subject; the viewer blocks the subject,
    directly or through a list. *)
Definition viewerBlockedBy (viewer : ViewerState) : Prop := blockedBy viewer = Some true.

Definition viewerBlocking (viewer : ViewerState) : Prop :=
  (exists uri, blocking viewer = Some uri /\ uri <> "") \/ is_Some (blockingByList viewer).

(** The priority order of the classifier on a profile that was fetched. *)
Definition PriorityOrder (hide blocked blocks self : Prop) (status : option Z) : Prop :=
  (hide -> status = Some RepoStatus.HIDDEN)
  /\ (~ hide -> blocked -> blocks ->
      status = Some (js_or RepoStatus.BLOCKEDBY RepoStatus.BLOCKING))
  /\ (~ hide -> blocked -> ~ blocks -> status = Some RepoStatus.BLOCKEDBY)
  /\ (~ hide -> ~ blocked -> self -> status = Some RepoStatus.YOURSELF)
  /\ (~ hide -> ~ blocked -> ~ self -> blocks -> status = Some RepoStatus.BLOCKING)
  /\ (~ hide -> ~ blocked -> ~ self -> ~ blocks -> status = None).

(** The same order where the last two cases are stated for the subjects
    that are [apart] from the user, and nothing is said of a subject that is
    neither the user nor apart. *)
Definition PriorityOrderApart (hide blocked blocks self apart : Prop) (status : option Z)
  : Prop :=
  (hide -> status = Some RepoStatus.HIDDEN)
  /\ (~ hide -> blocked -> blocks ->
      status = Some (js_or RepoStatus.BLOCKEDBY RepoStatus.BLOCKING))
  /\ (~ hide -> blocked -> ~ blocks -> status = Some RepoStatus.BLOCKEDBY)
  /\ (~ hide -> ~ blocked -> self -> status = Some RepoStatus.YOURSELF)
  /\ (~ hide -> ~ blocked -> apart -> blocks -> status = Some RepoStatus.BLOCKING)
  /\ (~ hide -> ~ blocked -> apart -> ~ blocks -> status = None).

(** What a caught failure of the older client says: its error code, its
    message, its HTTP status. *)
Definition errorCode (e : Thrown) : option string := e_data e ≫= ed_error.
Definition errorText (e : Thrown) : string := or_str (e_message e) "".

Definition saysDeactivated (e : Thrown) : Prop :=
  errorCode e = Some "AccountDeactivated" \/ includes "AccountDeactivated" (errorText e) = true.
Definition saysSuspended (e : Thrown) : Prop :=
  errorCode e = Some "AccountSuspended" \/ includes "AccountSuspended" (errorText e) = true.
Definition saysDeleted (e : Thrown) : Prop :=
  errorCode e = Some "AccountDeleted" \/ errorCode e = Some "ActorNotFound"
  \/ e_status e = Some 400%Z.

(** What an error body of the newer client says: its message mentions
    [needle]. *)
Definition mentions (needle : string) (e : ErrorData) : Prop :=
  exists m, ed_message e = Some m /\ includes needle m = true.

(** A mapping from three signals to a status, first match first, with a
    status for the case where none matches. *)
Definition FirstMatch (c1 c2 c3 : Prop) (s1 s2 s3 s4 : Z) (status : option Z) : Prop :=
  (c1 -> status = Some s1)
  /\ (~ c1 -> c2 -> status = Some s2)
  /\ (~ c1 -> ~ c2 -> c3 -> status = Some s3)
  /\ (~ c1 -> ~ c2 -> ~ c3 -> status = Some s4).

(** The statuses a block-mode record may carry. *)
Definition blockModeStatus (status : Z) : Prop :=
  status = RepoStatus.DELETED \/ status = RepoStatus.DEACTIVATED
  \/ status = RepoStatus.SUSPENDED \/ status = RepoStatus.UNKNOWN.

(** [seg] is the trailing segment of [uri]: what follows its last slash,
    or all of it when it has none. *)
Definition TrailingSegment (uri seg : string) : Prop :=
  includes "/" seg = false
  /\ (uri = seg \/ exists pre, uri = pre +:+ "/" +:+ seg).

(** The collection a mode works on. *)
Definition collectionOf (mode : ViewMode) : string :=
  match mode with
  | BLOCKS => "app.bsky.graph.block"
  | FOLLOWS => "app.bsky.graph.follow"
  end.

(** The batches that delete the records [marked]: as many as needed with
    at most 200 operations each, whose operations taken in order are one
    delete per marked record, of the collection and keyed by the trailing
    segment of the record's locator. *)
Definition BatchPlan (collection : string) (marked : list AccountRecord)
    (batches : list (list Delete)) : Prop :=
  length batches = (length marked + 199) / 200
  /\ Forall (fun batch => length batch <= 200) batches
  /\ length (concat batches) = length marked
  /\ Forall2 (fun record d =>
                del_collection d = collection
                /\ exists seg, del_rkey d = Some seg /\ TrailingSegment (ar_uri record) seg)
       marked (concat batches).

(** The page at offset [o] of a listing of [L] served [limit] items at a
    time, where [cur] names the offsets; the final page has no cursor. *)
Definition pageAt {A : Type} (cur : nat -> string) (L : list A) (limit o : nat)
  : ListResponse A :=
  ListOk {| items := take limit (drop o L);
            cursor := if o + limit <? length L then Some (cur (o + limit)) else None |}.

(** The endpoint exposes the items [L], [limit] at a time. *)
Definition servesPages {A : Type} (endpoint : option string -> ListResponse A)
    (cur : nat -> string) (L : list A) (limit : nat) : Prop :=
  (forall o, cur o <> "")
  /\ endpoint None = pageAt cur L limit 0
  /\ forall o, endpoint (Some (cur o)) = pageAt cur L limit o.

(** The requests that reading [N] items takes, [P] at a time: [ceil(N/P)],
    and one when there is nothing to read. *)
Definition pagesNeeded (N P : nat) : nat :=
  if N =? 0 then 1 else (N + (P - 1)) / P.


(** The statuses the classifier gives. *)
Definition classifierStatus (status : Z) : Prop :=
  status ∈ [RepoStatus.BLOCKEDBY; RepoStatus.BLOCKING;
            js_or RepoStatus.BLOCKEDBY RepoStatus.BLOCKING;
            RepoStatus.DELETED; RepoStatus.DEACTIVATED; RepoStatus.SUSPENDED;
            RepoStatus.HIDDEN; RepoStatus.YOURSELF; RepoStatus.UNKNOWN].

(** The probe of [did] returns [res], whatever the state it runs in. *)
Definition probed (check : string -> Async ProfileCheckResult) (did : string)
    (res : ProfileCheckResult) : Prop :=
  forall st, exists st', check did st = (Returns res, st').

(** A follow record is present in a list of account records. *)
Definition presentIn (record : RepoRecord) (records : list AccountRecord) : Prop :=
  exists a, a ∈ records /\ ar_did a = rec_subject record /\ ar_uri a = rec_uri record.

(** What holds all along a follow-mode run over [follows] that started with
    the toggles [T0] and the published records [F0]: the probes answered so
    far, [completed], are with the pending ones the probes launched; the
    shared array holds the records of the answered probes that gave a
    status; and either the progress counts the answers and nothing was
    published, or all probes were answered and the array was published. *)
Definition FollowInv (check : string -> Async ProfileCheckResult)
    (follows : list RepoRecord) (T0 : gmap Z bool) (F0 : list AccountRecord)
    (run : FollowRun) (st : State) : Prop :=
  exists (completed : list RepoRecord) (results : list ProfileCheckResult),
    completed ++ fr_pending run ≡ₚ take (fr_i run) follows
    /\ Forall2 (fun record res => probed check (rec_subject record) res) completed results
    /\ fr_tmpFollows run
       = omap (fun p => followRecordOf T0 p.1 p.2) (zip completed results)
    /\ followToggleStates st = T0
    /\ ((length completed < length follows
         /\ progress st = length completed
         /\ itemCount st = length follows
         /\ followRecords st = F0)
        \/ (length completed = length follows
            /\ 0 < length follows
            /\ followRecords st = fr_tmpFollows run)
        \/ length follows = 0).

(** ** Scenarios *)

(** The stores as the application creates them. *)
Definition initialState : State :=
  {| followToggleStates :=
       <[RepoStatus.DELETED := true]>
         (<[RepoStatus.DEACTIVATED := true]>
            (<[RepoStatus.SUSPENDED := true]>
               (<[RepoStatus.BLOCKEDBY := true]>
                  (<[RepoStatus.BLOCKING := true]>
                     (<[RepoStatus.HIDDEN := true]> ∅)))));
     blockToggleStates :=
       <[RepoStatus.DELETED := true]>
         (<[RepoStatus.DEACTIVATED := true]>
            (<[RepoStatus.SUSPENDED := true]>
               (<[RepoStatus.UNKNOWN := true]> ∅)));
     followRecords := [];
     blockRecords := [];
     currentMode := FOLLOWS;
     globalNotice := "";
     progress := 0;
     itemCount := 0;
     sent := [] |}.

(** A listing served in one page. *)
Definition onePage {A : Type} (l : list A) : ListResponse A :=
  ListOk {| items := l; cursor := None |}.

(** A world with the given profiles, block records, live blocks and follow
    records, each listing served in one page, and no identity documents. *)
Definition smallWorld {P : Type} (profiles : string -> P)
    (blocks : list RepoRecord) (active : list BlockView) (follows : list RepoRecord)
  : World P :=
  {| agentDID := "did:plc:me";
     getProfile := profiles;
     getBlocks := fun _ _ => onePage active;
     listRecords := fun _ collection _ _ =>
       if String.eqb collection "app.bsky.graph.block" then onePage blocks
       else onePage follows;
     fetchDidDoc := fun _ => FetchRejected;
     applyWrites := fun _ _ => true |}.

Definition noViewer : ViewerState :=
  {| blockedBy := None; blocking := None; blockingByList := None |}.

(** A healthy profile whose only label has the value [hide]. *)
Definition profileLabelledHide : ProfileViewDetailed :=
  {| pv_did := Some "did:plc:alice";
     pv_handle := Some "alice.test";
     pv_labels := Some [ {| val := "hide" |} ];
     pv_viewer := Some noViewer |}.

(** The user's own profile. *)
Definition profileMe : ProfileViewDetailed :=
  {| pv_did := Some "did:plc:me";
     pv_handle := Some "me.test";
     pv_labels := None;
     pv_viewer := Some noViewer |}.

(** A bad request that names none of the known reasons. *)
Definition badRequest : ErrorData :=
  {| ed_error := Some "InvalidRequest"; ed_message := Some "Error: actor must be a valid did or a handle" |}.

(** A block record whose subject is the user, which the live block list does
    not show. *)
Definition selfBlock : RepoRecord :=
  {| rec_uri := "at://did:plc:me/app.bsky.graph.block/3kself"; rec_subject := "did:plc:me" |}.

(** A profile in a mutual block. *)
Definition profileMutual : ProfileViewDetailed :=
  {| pv_did := Some "did:plc:bob";
     pv_handle := Some "bob.test";
     pv_labels := Some [];
     pv_viewer :=
       Some {| blockedBy := Some true;
               blocking := Some "at://did:plc:me/app.bsky.graph.block/3kbob";
               blockingByList := None |} |}.

(** A failure of the older client that names a deactivated account. *)
Definition deactivatedFailure : Thrown :=
  {| e_message := Some "AccountDeactivated > Account is deactivated";
     e_status := Some 400%Z;
     e_data := None |}.

(** A follow record that was found deleted and is selected for deletion. *)
Definition selectedDeleted : AccountRecord :=
  {| ar_did := "did:plc:dave";
     ar_handle := "dave.test";
     ar_uri := "at://did:plc:me/app.bsky.graph.follow/3kdave";
     ar_status := RepoStatus.DELETED;
     ar_status_label := "Deleted";
     ar_toDelete := true;
     ar_visible := true |}.

(** The stores after a follow-mode run that found [selectedDeleted]. *)
Definition selectedState : State := setFollowRecords (fun _ => [selectedDeleted]) initialState.

(** Cursors that count in unary: the offset [o] is named by [o] dots after
    a [c]. *)
Fixpoint dots (o : nat) : string :=
  match o with
  | O => EmptyString
  | S o' => String "." (dots o')
  end.

Definition cursorOf (o : nat) : string := String "c" (dots o).

Definition offsetOf (c : option string) : nat :=
  match c with
  | Some s => String.length s - 1
  | None => 0
  end.

(** A world whose listings are served in pages of the requested size. *)
Definition pagedWorld {P : Type} (profiles : string -> P)
    (blocks : list RepoRecord) (active : list BlockView) (follows : list RepoRecord)
  : World P :=
  {| agentDID := "did:plc:me";
     getProfile := profiles;
     getBlocks := fun limit c => pageAt cursorOf active limit (offsetOf c);
     listRecords := fun _ collection limit c =>
       if String.eqb collection "app.bsky.graph.block"
       then pageAt cursorOf blocks limit (offsetOf c)
       else pageAt cursorOf follows limit (offsetOf c);
     fetchDidDoc := fun _ => FetchRejected;
     applyWrites := fun _ _ => true |}.

Definition followOf (name : string) : RepoRecord :=
  {| rec_uri := "at://did:plc:me/app.bsky.graph.follow/" +:+ name;
     rec_subject := "did:plc:" +:+ name |}.

Definition blockOf (name : string) : RepoRecord :=
  {| rec_uri := "at://did:plc:me/app.bsky.graph.block/" +:+ name;
     rec_subject := "did:plc:" +:+ name |}.

Definition threeFollows : list RepoRecord := [followOf "x"; followOf "y"; followOf "z"].

Definition threeActive : list BlockView :=
  [ {| bv_did := "did:plc:a" |}; {| bv_did := "did:plc:b" |}; {| bv_did := "did:plc:c" |} ].

(** Scenario B: block records for three accounts, of which the second only
    is in the live block list. *)
Definition threeBlocks : list RepoRecord := [blockOf "a"; blockOf "b"; blockOf "c"].

Definition worldB {P : Type} (profiles : string -> P) : World P :=
  smallWorld profiles threeBlocks [ {| bv_did := "did:plc:b" |} ] [].

(** Scenario A: three follows, of which the first has a normal profile,
    the probe of the second fails with a deactivated account, and the probe
    of the third fails with a bad request for an actor that is not found. *)
Definition healthyProfile (did handle : string) : ProfileViewDetailed :=
  {| pv_did := Some did; pv_handle := Some handle; pv_labels := Some [];
     pv_viewer := Some noViewer |}.

Definition notFoundFailure : Thrown :=
  {| e_message := Some "ActorNotFound > Profile not found";
     e_status := Some 400%Z;
     e_data := None |}.

Definition profilesA (did : string) : XrpcResponse :=
  if String.eqb did "did:plc:x" then XrpcResolves (Some (healthyProfile did "x.test"))
  else if String.eqb did "did:plc:y" then XrpcThrows deactivatedFailure
  else XrpcThrows notFoundFailure.

Definition worldA : World XrpcResponse := smallWorld profilesA [] [] threeFollows.

(** The same accounts seen through the newer client. *)
Definition profilesA' (did : string) : ClientResponse :=
  if String.eqb did "did:plc:x" then Ok (healthyProfile did "x.test")
  else if String.eqb did "did:plc:y"
  then NotOk 400 {| ed_error := Some "AccountDeactivated";
                    ed_message := Some "Account is deactivated" |}
  else NotOk 400 {| ed_error := Some "InvalidRequest";
                    ed_message := Some "Profile not found" |}.

Definition worldA' : World ClientResponse := smallWorld profilesA' [] [] threeFollows.

(** The three probes are launched together and answered last first. *)
Definition scheduleA : list Choice := [Launch; Complete 2; Complete 1; Complete 0].

Definition noRun : FollowRun := {| fr_i := 0; fr_pending := []; fr_tmpFollows := [] |}.

(** A profile with the [!hide] label and no viewer object. *)
Definition profileNoViewer : ProfileViewDetailed :=
  {| pv_did := Some "did:plc:carol";
     pv_handle := Some "carol.test";
     pv_labels := Some [ {| val := "!hide" |} ];
     pv_viewer := None |}.

(** ** Follow-mode runs with failing probes *)

(** The outcome of the probe of [did]. *)
Definition probe (check : string -> Async ProfileCheckResult) (did : string)
  : Outcome ProfileCheckResult :=
  (check did initialState).1.

(** The probe of the subject of [record] returns. *)
Definition answers (check : string -> Async ProfileCheckResult) (record : RepoRecord) : bool :=
  match probe check (rec_subject record) with
  | Returns _ => true
  | _ => false
  end.

(** The account record that the callback of [record] pushes, if any. *)
Definition pushed (check : string -> Async ProfileCheckResult) (T : gmap Z bool)
    (record : RepoRecord) : option AccountRecord :=
  match probe check (rec_subject record) with
  | Returns res => followRecordOf T record res
  | _ => None
  end.

(** The follow records in the order in which a schedule answers their
    probes, from the position [i] of the launching loop and the probes
    [pending]. *)
Fixpoint answered (follows : list RepoRecord) (schedule : list Choice) (i : nat)
    (pending : list RepoRecord) : list RepoRecord :=
  match schedule with
  | [] => []
  | Launch :: rest =>
      if i <? length follows
      then answered follows rest (i + 10) (pending ++ slice i (i + 10) follows)
      else []
  | Complete k :: rest =>
      match pending !! k with
      | Some record => record :: answered follows rest i (delete k pending)
      | None => []
      end
  end.

(** The notice that follow mode ends with. *)
Definition followNotice (tmpFollows : list AccountRecord) : string :=
  if length tmpFollows =? 0 then "All accounts you follow are active" else "".

(** The two phases of a follow-mode run over [follows] started in [st0]:
    the answered probes, [completed] in the order of their answers, are with
    the pending ones the probes launched, and the shared array holds what
    their callbacks pushed. Until as many callbacks came to their end as
    there are follow records, the progress counts them and the stores and
    the notice are those of [st0]; from then on the array is published, the
    counters are back at zero and the final notice is set. *)
Definition FollowTrace (check : string -> Async ProfileCheckResult)
    (follows : list RepoRecord) (st0 : State) (run : FollowRun) (st : State) : Prop :=
  exists completed : list RepoRecord,
    completed ++ fr_pending run ≡ₚ take (fr_i run) follows
    /\ fr_tmpFollows run = omap (pushed check (followToggleStates st0)) completed
    /\ followToggleStates st = followToggleStates st0
    /\ blockToggleStates st = blockToggleStates st0
    /\ blockRecords st = blockRecords st0
    /\ currentMode st = currentMode st0
    /\ ((length (filter (fun r => answers check r = true) completed) < length follows
         \/ length follows = 0)
        /\ progress st = length (filter (fun r => answers check r = true) completed)
        /\ itemCount st = length follows
        /\ followRecords st = followRecords st0
        /\ globalNotice st = globalNotice st0
        \/ length (filter (fun r => answers check r = true) completed) = length follows
           /\ 0 < length follows
           /\ followRecords st = fr_tmpFollows run
           /\ progress st = 0
           /\ itemCount st = 0
           /\ globalNotice st = followNotice (fr_tmpFollows run)).

(** A world of the newer client in which the profile request for the second
    of three follows is rejected. *)
Definition profilesR (did : string) : ClientResponse :=
  if String.eqb did "did:plc:y" then Rejected else Ok (healthyProfile did "x.test").

Definition worldR : World ClientResponse := smallWorld profilesR [] [] threeFollows.

(** The first ten probes are launched and the first of them is answered. *)
Definition scheduleOne : list Choice := [Launch; Complete 0].

(** ** Actions of the account list as maps over the records *)

(** What [editRecords] does to one record. *)
Definition edited (status : Z) (field : Field) (value : bool) (record : AccountRecord)
  : AccountRecord :=
  if truthy_num (js_and (ar_status record) status) then setField field value record
  else record.

(** The records of the mode that is not the active one. *)
Definition otherRecords (st : State) : list AccountRecord :=
  match currentMode st with
  | BLOCKS => followRecords st
  | FOLLOWS => blockRecords st
  end.

(** The identity of a record: everything but its two boolean fields. *)
Definition identity (record : AccountRecord) : string * string * string * Z * string :=
  (ar_did record, ar_handle record, ar_uri record, ar_status record, ar_status_label record).

(** The records that [removeItems] deletes. *)
Definition marked (st : State) : list AccountRecord :=
  filter (fun record => ar_toDelete record = true) (currentRecords st).

#[global] Instance hasFlag_dec (status flag : Z) : Decision (hasFlag status flag).
Proof. unfold hasFlag. apply _. Defined.

(** The statuses that no category of the mode covers. *)
Definition uncovered (mode : ViewMode) : list Z :=
  match mode with
  | FOLLOWS => [RepoStatus.YOURSELF; RepoStatus.UNKNOWN]
  | BLOCKS =>
      [RepoStatus.BLOCKEDBY; RepoStatus.BLOCKING;
       js_or RepoStatus.BLOCKEDBY RepoStatus.BLOCKING;
       RepoStatus.HIDDEN; RepoStatus.YOURSELF]
  end.

(** A follow record that was found to be the user's own account. *)
Definition followedSelf : AccountRecord :=
  {| ar_did := "did:plc:me";
     ar_handle := "me.test";
     ar_uri := "at://did:plc:me/app.bsky.graph.follow/3kme";
     ar_status := RepoStatus.YOURSELF;
     ar_status_label := "Literally Yourself";
     ar_toDelete := false;
     ar_visible := true |}.

(** ** Deletion outcomes *)

(** The [k]-th batch of [removeItems]. *)
Definition batch (writes : list Delete) (k : nat) : list Delete :=
  slice (k * BATCHSIZE) (k * BATCHSIZE + BATCHSIZE) writes.

(** The delete operations that [removeItems] builds in a state. *)
Definition writesOf (st : State) : list Delete :=
  deleteOf (collectionOf (currentMode st)) <$> marked st.

(** The notice that [removeItems] ends with. *)
Definition successNotice (mode : ViewMode) (n : nat) : string :=
  match mode with
  | BLOCKS => "Successfully cleaned up " +:+ pretty n +:+ " inactive block" +:+ plural n
  | FOLLOWS => "Successfully unfollowed " +:+ pretty n +:+ " account" +:+ plural n
  end.

(** A world in which every write is refused. *)
Definition refusingWorld {P : Type} (profiles : string -> P) : World P :=
  {| agentDID := "did:plc:me";
     getProfile := profiles;
     getBlocks := fun _ _ => onePage [];
     listRecords := fun _ _ _ _ => onePage [];
     fetchDidDoc := fun _ => FetchRejected;
     applyWrites := fun _ _ => false |}.

(** ** Listings served by any server *)

(** The conditions under which the loops ask for one more page. *)
Definition moreFollows {A : Type} (limit : nat) (res : Page A) : bool :=
  truthy_str (cursor res) && (limit <=? length (items res)).

Definition moreCursor {A : Type} (res : Page A) : bool := truthy_str (cursor res).

(** The pages that follow [res] when the loop asks for more: each is the
    answer to the cursor of the one before, and each but the last asks for
    more. *)
Fixpoint pageChain {A : Type} (more : Page A -> bool)
    (endpoint : option string -> ListResponse A) (res : Page A) (rest : list (Page A))
  : Prop :=
  match rest with
  | [] => True
  | q :: rest' =>
      more res = true /\ endpoint (cursor res) = ListOk q /\ pageChain more endpoint q rest'
  end.

(** Short pages that all carry a cursor. *)
Definition shortPages (c : option string) : ListResponse RepoRecord :=
  ListOk {| items := [followOf (or_str c "first")]; cursor := Some "next" |}.

Definition shortWorld : World XrpcResponse :=
  {| agentDID := "did:plc:me";
     getProfile := profilesA;
     getBlocks := fun _ _ => onePage [];
     listRecords := fun _ _ _ c => shortPages c;
     fetchDidDoc := fun _ => FetchRejected;
     applyWrites := fun _ _ => true |}.

(** A listing whose second page fails. *)
Definition failingWorld : World XrpcResponse :=
  {| agentDID := "did:plc:me";
     getProfile := profilesA;
     getBlocks := fun _ _ => onePage [];
     listRecords := fun _ _ limit c =>
       match c with
       | None => ListOk {| items := replicate limit (followOf "x"); cursor := Some "c1" |}
       | Some _ => ListFails "InternalServerError"
       end;
     fetchDidDoc := fun _ => FetchRejected;
     applyWrites := fun _ _ => true |}.

(** A server that puts a cursor on every page of the live block list. *)
Definition endlessWorld : World XrpcResponse :=
  {| agentDID := "did:plc:me";
     getProfile := profilesA;
     getBlocks := fun _ _ => ListOk {| items := []; cursor := Some "again" |};
     listRecords := fun _ _ _ _ => onePage [];
     fetchDidDoc := fun _ => FetchRejected;
     applyWrites := fun _ _ => true |}.

(** A server whose record listings fail. *)
Definition brokenWorld : World XrpcResponse :=
  {| agentDID := "did:plc:me";
     getProfile := profilesA;
     getBlocks := fun _ _ => onePage [];
     listRecords := fun _ _ _ _ => ListFails "InternalServerError";
     fetchDidDoc := fun _ => FetchRejected;
     applyWrites := fun _ _ => true |}.

(** ** Block-mode runs *)

(** The probe of [did] returns. *)
Definition returns (check : string -> Async ProfileCheckResult) (did : string) : bool :=
  match probe check did with
  | Returns _ => true
  | _ => false
  end.

(** The requests that the probe of [did] sends. *)
Definition probeRequests (check : string -> Async ProfileCheckResult) (did : string)
  : list Request :=
  sent (check did initialState).2.

(** The account record that block mode pushes for a candidate, if its
    probe returns. *)
Definition blockPushed (check : string -> Async ProfileCheckResult)
    (blockRecordOf : gmap Z bool -> BlockRef -> ProfileCheckResult -> AccountRecord)
    (T : gmap Z bool) (block : BlockRef) : option AccountRecord :=
  match probe check (br_did block) with
  | Returns res => Some (blockRecordOf T block res)
  | _ => None
  end.

(** The notice that block mode ends with. *)
Definition blockNotice (tmpBlocks : list AccountRecord) : string :=
  if length tmpBlocks =? 0 then "All your blocked accounts are still active" else "".

(** Block records for three accounts none of which is in the live block
    list, seen through the newer client; the profile request for the second
    is rejected. *)
Definition profilesR' (did : string) : ClientResponse :=
  if String.eqb did "did:plc:b" then Rejected else Ok (healthyProfile did "x.test").

Definition worldR' : World ClientResponse := smallWorld profilesR' threeBlocks [] [].

(** ** Theme *)

(** What the [App] component reads and writes outside its signals: the
    [theme] entry of the local storage, the colour scheme the system
    prefers, and the [dark] class of the document. *)
Record Browser := {
  storedTheme : option string;
  prefersDark : bool;
  darkClass : bool;
}.

(** The initial value of the [theme] signal. *)
Definition initTheme (b : Browser) : string :=
  if bool_decide (storedTheme b = Some "dark")
     || (bool_decide (storedTheme b = None) && prefersDark b)
  then "dark" else "light".

(** The [onclick] handler of the theme switch. *)
Definition clickTheme (theme : string) (b : Browser) : string * Browser :=
  let theme' := if String.eqb theme "light" then "dark" else "light" in
  (theme',
   {| storedTheme := Some theme';
      prefersDark := prefersDark b;
      darkClass := String.eqb theme' "dark" |}).

(** A profile that came without a handle. *)
Definition profileNoHandle : ProfileViewDetailed :=
  {| pv_did := Some "did:plc:x";
     pv_handle := None;
     pv_labels := Some [ {| val := "!hide" |} ];
     pv_viewer := Some noViewer |}.

(** A profile that the user blocks and whose identifier begins with the
    identifier of the user. *)
Definition profileMe2 : ProfileViewDetailed :=
  {| pv_did := Some "did:plc:me2";
     pv_handle := Some "me2.test";
     pv_labels := Some [];
     pv_viewer :=
       Some {| blockedBy := None;
               blocking := Some "at://did:plc:me/app.bsky.graph.block/3kme2";
               blockingByList := None |} |}.

(** The accounts of scenario A seen through the newer client when the
    profile request for the second is rejected: the first is healthy and the
    third is not found. *)
Definition profilesF (did : string) : ClientResponse :=
  if String.eqb did "did:plc:x" then Ok (healthyProfile did "x.test")
  else if String.eqb did "did:plc:y" then Rejected
  else NotOk 400 {| ed_error := Some "InvalidRequest";
                    ed_message := Some "Profile not found" |}.

Definition worldF : World ClientResponse := smallWorld profilesF [] [] threeFollows.




(** * Properties *)

(** ** JavaScript helpers *)

Example split_uri :
  split "/" "at://did:plc:abc/app.bsky.graph.follow/3kabc"
  = ["at:"; ""; "did:plc:abc"; "app.bsky.graph.follow"; "3kabc"].
Proof. reflexivity. Qed.

Example split_alias : split "//" "at://alice.test" = ["at:"; "alice.test"].
Proof. reflexivity. Qed.

Example split_empty : split "/" "" = [""].
Proof. reflexivity. Qed.

Lemma startsWith_refl (s : string) : startsWith s s = true.
Proof.
  induction s as [|c s IH]; simpl; [reflexivity|].
  rewrite Ascii.eqb_refl. exact IH.
Qed.

Lemma includes_refl (s : string) : includes s s = true.
Proof. destruct s; simpl; [reflexivity|]. rewrite Ascii.eqb_refl, startsWith_refl. reflexivity. Qed.

(** ** Status labels *)

(** A status that contains both block flags is none of the single flags. *)
Lemma both_flags_not_single (s : Z) :
  hasFlag s RepoStatus.BLOCKEDBY -> hasFlag s RepoStatus.BLOCKING ->
  s <> RepoStatus.DELETED /\ s <> RepoStatus.DEACTIVATED /\ s <> RepoStatus.SUSPENDED
  /\ s <> RepoStatus.YOURSELF /\ s <> RepoStatus.BLOCKING /\ s <> RepoStatus.BLOCKEDBY
  /\ s <> RepoStatus.HIDDEN /\ s <> RepoStatus.UNKNOWN.
Proof.
  unfold hasFlag. intros H1 H2.
  repeat split; intros ->; first [ apply H1; reflexivity | apply H2; reflexivity ].
Qed.

(** ** Profile status classifier *)

Ltac run :=
  unfold mbind, Async_bind, mret, Async_ret, await, update, get, throw, outOfFuel; simpl.

Lemma hasHideLabel_spec (data : ProfileViewDetailed) :
  hasHideLabel (pv_labels data) = true <-> labelled "!hide" data.
Proof.
  unfold hasHideLabel, labelled. destruct (pv_labels data) as [ls|].
  - rewrite existsb_exists. split.
    + intros ([v] & Hin & Hv). simpl in Hv. apply String.eqb_eq in Hv. subst v.
      exists ls. split; [reflexivity|]. apply list_elem_of_In, Hin.
    + intros (ls' & [= <-] & Hin). exists {| val := "!hide" |}.
      split; [apply list_elem_of_In, Hin | reflexivity].
  - split; [discriminate|]. intros (ls & [=] & _).
Qed.

Lemma truthy_bool_spec (viewer : ViewerState) :
  truthy_bool (blockedBy viewer) = true <-> viewerBlockedBy viewer.
Proof.
  unfold viewerBlockedBy. destruct (blockedBy viewer) as [[|]|]; simpl; split; congruence.
Qed.

Lemma viewerBlocks_spec (viewer : ViewerState) :
  viewerBlocks viewer = true <-> viewerBlocking viewer.
Proof.
  unfold viewerBlocks, viewerBlocking.
  destruct (blocking viewer) as [[|c s]|], (blockingByList viewer) as [l|]; simpl; split;
    try discriminate; try (intros _; right; eexists; reflexivity);
    try (intros _; left; eexists; split; [reflexivity|discriminate]);
    try reflexivity.
  - intros [(uri & [= <-] & Hne)|[x [=]]]. contradiction.
  - intros [(uri & [=] & _)|[x [=]]].
Qed.

(** The chain of tests of the classifier follows the priority order. *)
Lemma PriorityOrder_chain (hide blocked blocks self : Prop) (h b k s : bool) :
  (h = true <-> hide) -> (b = true <-> blocked) -> (k = true <-> blocks) ->
  (s = true <-> self) ->
  PriorityOrder hide blocked blocks self
    (if h then Some RepoStatus.HIDDEN
     else if b then
       Some (if k then js_or RepoStatus.BLOCKEDBY RepoStatus.BLOCKING
             else RepoStatus.BLOCKEDBY)
     else if s then Some RepoStatus.YOURSELF
     else if k then Some RepoStatus.BLOCKING
     else None).
Proof.
  intros Hh Hb Hk Hs. unfold PriorityOrder.
  destruct h, b, k, s; repeat split; intros;
    first [ reflexivity
          | exfalso; intuition congruence ].
Qed.

(** The older classifier on a well-formed profile. *)
Lemma Part000_checkProfileStatus_ok (w : World XrpcResponse) (did : string) (st : State)
    (data : ProfileViewDetailed) (viewer : ViewerState) :
  getProfile w did = XrpcResolves (Some data) ->
  truthy_str (pv_did data) = true -> truthy_str (pv_handle data) = true ->
  pv_viewer data = Some viewer ->
  Part000.checkProfileStatus w did st
  = (Returns {| res_handle := pv_handle data;
                res_status :=
                  if hasHideLabel (pv_labels data) then Some RepoStatus.HIDDEN
                  else if truthy_bool (blockedBy viewer) then
                    Some (if viewerBlocks viewer
                          then js_or RepoStatus.BLOCKEDBY RepoStatus.BLOCKING
                          else RepoStatus.BLOCKEDBY)
                  else if bool_decide (pv_did data = Some (agentDID w)) then
                    Some RepoStatus.YOURSELF
                  else if viewerBlocks viewer then Some RepoStatus.BLOCKING
                  else None;
                res_error := None |},
     send [GetProfile did] st).
Proof.
  intros Hp Hd Hh Hv. unfold Part000.checkProfileStatus. run.
  rewrite Hp, Hd, Hh, Hv. reflexivity.
Qed.

(** The newer classifier on a well-formed profile. *)
Lemma App_checkProfileStatus_ok (w : World ClientResponse) (did : string) (st : State)
    (data : ProfileViewDetailed) (viewer : ViewerState) (d : string) :
  getProfile w did = Ok data -> pv_did data = Some d -> pv_viewer data = Some viewer ->
  App.checkProfileStatus w did st
  = (Returns {| res_handle := pv_handle data;
                res_status :=
                  if hasHideLabel (pv_labels data) then Some RepoStatus.HIDDEN
                  else if truthy_bool (blockedBy viewer) then
                    Some (if viewerBlocks viewer
                          then js_or RepoStatus.BLOCKEDBY RepoStatus.BLOCKING
                          else RepoStatus.BLOCKEDBY)
                  else if includes (agentDID w) d then Some RepoStatus.YOURSELF
                  else if viewerBlocks viewer then Some RepoStatus.BLOCKING
                  else None;
                res_error := None |},
     send [GetProfile did] st).
Proof.
  intros Hp Hd Hv. unfold App.checkProfileStatus. run.
  rewrite Hp, Hd, Hv.
  destruct (hasHideLabel (pv_labels data)); [reflexivity|].
  destruct (truthy_bool (blockedBy viewer)); [reflexivity|].
  destruct (includes (agentDID w) d); [reflexivity|].
  destruct (viewerBlocks viewer); reflexivity.
Qed.

(** C3, as the code has it: on a profile that was fetched and is well
    formed, both classifiers follow the priority order, where the moderation
    label that hides has the value [!hide], and the viewer blocks the subject
    directly or through a list. In [src/src/App.tsx] the last two cases,
    [BLOCKING] and no status, are stated for the subject identifiers that do
    not contain the identifier of the user. *)
Theorem classifier_priority_order :
  (forall (w : World XrpcResponse) (did : string) (st : State)
          (data : ProfileViewDetailed) (viewer : ViewerState),
      getProfile w did = XrpcResolves (Some data) ->
      truthy_str (pv_did data) = true -> truthy_str (pv_handle data) = true ->
      pv_viewer data = Some viewer ->
      exists r st',
        Part000.checkProfileStatus w did st = (Returns r, st')
        /\ PriorityOrder (labelled "!hide" data) (viewerBlockedBy viewer)
             (viewerBlocking viewer) (pv_did data = Some (agentDID w)) (res_status r))
  /\ (forall (w : World ClientResponse) (did : string) (st : State)
             (data : ProfileViewDetailed) (viewer : ViewerState) (d : string),
         getProfile w did = Ok data ->
         pv_did data = Some d -> pv_viewer data = Some viewer ->
         exists r st',
           App.checkProfileStatus w did st = (Returns r, st')
           /\ PriorityOrderApart (labelled "!hide" data) (viewerBlockedBy viewer)
                (viewerBlocking viewer) (d = agentDID w)
                (includes (agentDID w) d = false) (res_status r)).
Proof.
  split.
  - intros w did st data viewer Hp Hd Hh Hv.
    eexists _, _. split; [apply Part000_checkProfileStatus_ok; eassumption|]. simpl.
    apply PriorityOrder_chain.
    + apply hasHideLabel_spec.
    + apply truthy_bool_spec.
    + apply viewerBlocks_spec.
    + apply bool_decide_eq_true.
  - intros w did st data viewer d Hp Hd Hv.
    eexists _, _. split; [eapply App_checkProfileStatus_ok; eassumption|]. simpl.
    pose proof (hasHideLabel_spec data) as Hh.
    pose proof (truthy_bool_spec viewer) as Hb.
    pose proof (viewerBlocks_spec viewer) as Hk.
    unfold PriorityOrderApart.
    destruct (hasHideLabel (pv_labels data)), (truthy_bool (blockedBy viewer)),
      (viewerBlocks viewer), (includes (agentDID w) d) eqn:Hi;
      repeat split; intros;
      first [ reflexivity
            | discriminate
            | exfalso; subst d; rewrite includes_refl in Hi; discriminate
            | exfalso; intuition congruence ].
Qed.

Lemma classifier_priority_order_witness :
  (exists r st',
      Part000.checkProfileStatus
        (smallWorld (fun _ => XrpcResolves (Some profileMutual)) [] [] [])
        "did:plc:bob" initialState = (Returns r, st')
      /\ res_status r = Some (js_or RepoStatus.BLOCKEDBY RepoStatus.BLOCKING))
  /\ (exists r st',
         App.checkProfileStatus (smallWorld (fun _ => Ok profileMe) [] [] [])
           "did:plc:me" initialState = (Returns r, st')
         /\ res_status r = Some RepoStatus.YOURSELF)
  /\ (exists r st',
         App.checkProfileStatus (smallWorld (fun _ => Ok profileMutual) [] [] [])
           "did:plc:bob" initialState = (Returns r, st')
         /\ res_status r = Some (js_or RepoStatus.BLOCKEDBY RepoStatus.BLOCKING)).
Proof.
  split; [|split].
  - destruct (proj1 classifier_priority_order
                (smallWorld (fun _ => XrpcResolves (Some profileMutual)) [] [] [])
                "did:plc:bob" initialState profileMutual
                {| blockedBy := Some true;
                   blocking := Some "at://did:plc:me/app.bsky.graph.block/3kbob";
                   blockingByList := None |}
                eq_refl eq_refl eq_refl eq_refl) as (r & st' & Hrun & Hprio).
    exists r, st'. split; [exact Hrun|].
    apply Hprio.
    + intros (ls & [= <-] & Hin). inversion Hin.
    + reflexivity.
    + left. eexists. split; [reflexivity|discriminate].
  - destruct (proj2 classifier_priority_order
                (smallWorld (fun _ => Ok profileMe) [] [] [])
                "did:plc:me" initialState profileMe noViewer "did:plc:me"
                eq_refl eq_refl eq_refl) as (r & st' & Hrun & Hprio).
    exists r, st'. split; [exact Hrun|].
    apply Hprio.
    + intros (ls & [=] & _).
    + discriminate.
    + reflexivity.
  - destruct (proj2 classifier_priority_order
                (smallWorld (fun _ => Ok profileMutual) [] [] [])
                "did:plc:bob" initialState profileMutual
                {| blockedBy := Some true;
                   blocking := Some "at://did:plc:me/app.bsky.graph.block/3kbob";
                   blockingByList := None |}
                "did:plc:bob" eq_refl eq_refl eq_refl) as (r & st' & Hrun & Hprio).
    exists r, st'. split; [exact Hrun|].
    apply Hprio.
    + intros (ls & [= <-] & Hin). inversion Hin.
    + reflexivity.
    + left. eexists. split; [reflexivity|discriminate].
Defined.

(** C3 as stated fails, in two places. A label with the value [hide] does
    not make the status [HIDDEN]: the profile is classified as healthy by
    both versions. And in [src/src/App.tsx] a subject that the user blocks,
    whose identifier is not the user's but contains it, is classified
    [YOURSELF] and not [BLOCKING]. *)
Lemma classifier_priority_order_counterexample :
  labelled "hide" profileLabelledHide
  /\ (exists r st',
         Part000.checkProfileStatus
           (smallWorld (fun _ => XrpcResolves (Some profileLabelledHide)) [] [] [])
           "did:plc:alice" initialState = (Returns r, st')
         /\ res_status r = None)
  /\ (exists r st',
         App.checkProfileStatus (smallWorld (fun _ => Ok profileLabelledHide) [] [] [])
           "did:plc:alice" initialState = (Returns r, st')
         /\ res_status r = None)
  /\ (exists viewer r st',
         pv_viewer profileMe2 = Some viewer
         /\ ~ labelled "hide" profileMe2 /\ ~ viewerBlockedBy viewer
         /\ pv_did profileMe2 <> Some (agentDID (smallWorld (fun _ => Ok profileMe2) [] [] []))
         /\ viewerBlocking viewer
         /\ App.checkProfileStatus (smallWorld (fun _ => Ok profileMe2) [] [] [])
              "did:plc:me2" initialState = (Returns r, st')
         /\ res_status r = Some RepoStatus.YOURSELF
         /\ res_status r <> Some RepoStatus.BLOCKING).
Proof.
  split; [|split; [|split]].
  - eexists. split; [reflexivity|]. apply list_elem_of_here.
  - eexists _, _. split; reflexivity.
  - eexists _, _. split; reflexivity.
  - eexists _, _, _. split; [reflexivity|]. split.
    { intros (ls & [= <-] & Hin). inversion Hin. }
    split; [discriminate|]. split; [discriminate|]. split.
    { left. eexists. split; [reflexivity|discriminate]. }
    split; [reflexivity|]. split; [reflexivity|discriminate].
Qed.

(** ** Failed probes *)

Lemma Part000_resolveDid_returns {P : Type} (w : World P) (did : string) (st : State) :
  exists h, Part000.resolveDid w did st = (Returns h, send [FetchDidDoc (didDocUrl did)] st).
Proof.
  unfold Part000.resolveDid. run.
  destruct (fetchDidDoc w (didDocUrl did)) as [| |[aliases|]]; try (eexists; reflexivity).
  destruct (firstAtAlias aliases); eexists; reflexivity.
Qed.

Lemma App_resolveDid_returns {P : Type} (w : World P) (did : string) (st : State) :
  exists h, App.resolveDid w did st = (Returns h, send [FetchDidDoc (didDocUrl did)] st).
Proof.
  unfold App.resolveDid. run.
  destruct (fetchDidDoc w (didDocUrl did)) as [| |[aliases|]]; try (eexists; reflexivity).
  destruct (firstAtAlias aliases); eexists; reflexivity.
Qed.

Lemma FirstMatch_chain (c1 c2 c3 : Prop) (b1 b2 b3 : bool) (s1 s2 s3 s4 : Z) :
  (b1 = true <-> c1) -> (b2 = true <-> c2) -> (b3 = true <-> c3) ->
  FirstMatch c1 c2 c3 s1 s2 s3 s4
    (Some (if b1 then s1 else if b2 then s2 else if b3 then s3 else s4)).
Proof.
  intros H1 H2 H3. unfold FirstMatch.
  destruct b1, b2, b3; repeat split; intros;
    first [ reflexivity | exfalso; intuition congruence ].
Qed.

Lemma errorCode_spec (e : Thrown) (code : string) :
  bool_decide
    (ed_error (default {| ed_error := None; ed_message := None |} (e_data e)) = Some code)
  = true <-> errorCode e = Some code.
Proof.
  rewrite bool_decide_eq_true. unfold errorCode. destruct (e_data e); simpl; tauto.
Qed.

Lemma isDeactivated_spec (e : Thrown) :
  Part000.isDeactivated (default {| ed_error := None; ed_message := None |} (e_data e))
    (or_str (e_message e) "") = true <-> saysDeactivated e.
Proof.
  unfold Part000.isDeactivated, saysDeactivated, errorText.
  rewrite orb_true_iff, errorCode_spec. tauto.
Qed.

Lemma isSuspended_spec (e : Thrown) :
  Part000.isSuspended (default {| ed_error := None; ed_message := None |} (e_data e))
    (or_str (e_message e) "") = true <-> saysSuspended e.
Proof.
  unfold Part000.isSuspended, saysSuspended, errorText.
  rewrite orb_true_iff, errorCode_spec. tauto.
Qed.

Lemma isDeleted_spec (e : Thrown) :
  Part000.isDeleted (default {| ed_error := None; ed_message := None |} (e_data e))
    (e_status e) = true <-> saysDeleted e.
Proof.
  unfold Part000.isDeleted, saysDeleted.
  rewrite !orb_true_iff, !errorCode_spec, bool_decide_eq_true. tauto.
Qed.

Lemma messageIncludes_spec (needle : string) (e : ErrorData) :
  App.messageIncludes needle e = true <-> mentions needle e.
Proof.
  unfold App.messageIncludes, mentions. destruct (ed_message e) as [m|].
  - split; [intros H; eexists; split; [reflexivity|exact H]|]. intros (m' & [= <-] & H). exact H.
  - split; [discriminate|]. intros (m' & [=] & _).
Qed.

(** C4, as the code has it. The older classifier, on a probe that throws,
    returns a status mapped from what was caught (deactivated, then
    suspended, then deleted, not found or bad request, else unknown), the
    handle read from the identity document, and an error object of type
    [api] with a message and details. The newer classifier, on a response
    that is not ok, returns a status mapped from the words of the message
    (not found, then deactivated, then suspended, else unknown) and the
    handle read from the identity document, without an error object. *)
Theorem failed_probe_classified :
  (forall (w : World XrpcResponse) (did : string) (st : State) (e : Thrown),
      getProfile w did = XrpcThrows e ->
      exists r st' err,
        Part000.checkProfileStatus w did st = (Returns r, st')
        /\ FirstMatch (saysDeactivated e) (saysSuspended e) (saysDeleted e)
             RepoStatus.DEACTIVATED RepoStatus.SUSPENDED RepoStatus.DELETED
             RepoStatus.UNKNOWN (res_status r)
        /\ Part000.resolveDid w did (send [GetProfile did] st) = (Returns (res_handle r), st')
        /\ res_error r = Some err
        /\ err_type err = api /\ err_message err <> "" /\ is_Some (err_details err))
  /\ (forall (w : World ClientResponse) (did : string) (st : State)
             (httpStatus : Z) (e : ErrorData),
         getProfile w did = NotOk httpStatus e ->
         exists r st',
           App.checkProfileStatus w did st = (Returns r, st')
           /\ FirstMatch (mentions "not found" e) (mentions "deactivated" e)
                (mentions "suspended" e)
                RepoStatus.DELETED RepoStatus.DEACTIVATED RepoStatus.SUSPENDED
                RepoStatus.UNKNOWN (res_status r)
           /\ App.resolveDid w did (send [GetProfile did] st) = (Returns (res_handle r), st')
           /\ res_error r = None).
Proof.
  split.
  - intros w did st e Hp.
    destruct (Part000_resolveDid_returns w did (send [GetProfile did] st)) as [h Hh].
    unfold Part000.checkProfileStatus. run. rewrite Hp, Hh.
    eexists _, _, _. split; [reflexivity|].
    cbn [res_status res_error res_handle err_type err_message err_details].
    split; [|split; [reflexivity|split; [reflexivity|split; [reflexivity|split]]]].
    + apply FirstMatch_chain;
        [apply isDeactivated_spec | apply isSuspended_spec | apply isDeleted_spec].
    + simpl. destruct (or_str _ _); discriminate.
    + eexists. reflexivity.
  - intros w did st httpStatus e Hp.
    destruct (App_resolveDid_returns w did (send [GetProfile did] st)) as [h Hh].
    unfold App.checkProfileStatus. run. rewrite Hp, Hh.
    eexists _, _. split; [reflexivity|]. simpl.
    split; [|split; reflexivity].
    apply FirstMatch_chain; apply messageIncludes_spec.
Qed.

Lemma failed_probe_classified_witness :
  (exists r st',
      Part000.checkProfileStatus
        (smallWorld (fun _ => XrpcThrows deactivatedFailure) [] [] [])
        "did:plc:carol" initialState = (Returns r, st')
      /\ res_status r = Some RepoStatus.DEACTIVATED)
  /\ (exists r st',
         App.checkProfileStatus
           (smallWorld (fun _ => NotOk 400 badRequest) [] [] [])
           "did:plc:carol" initialState = (Returns r, st')
         /\ res_error r = None).
Proof.
  split.
  - destruct (proj1 failed_probe_classified
                (smallWorld (fun _ => XrpcThrows deactivatedFailure) [] [] [])
                "did:plc:carol" initialState deactivatedFailure eq_refl)
      as (r & st' & err & Hrun & Hmap & _).
    exists r, st'. split; [exact Hrun|].
    apply Hmap. right. reflexivity.
  - destruct (proj2 failed_probe_classified
                (smallWorld (fun _ => NotOk 400 badRequest) [] [] [])
                "did:plc:carol" initialState 400%Z badRequest eq_refl)
      as (r & st' & Hrun & _ & _ & Herr).
    exists r, st'. split; [exact Hrun|exact Herr].
Defined.

(** C4 as stated fails on the newer classifier: a bad request (HTTP 400)
    whose message names no known reason is classified [UNKNOWN], not
    [DELETED], and no error object comes with the result. *)
Lemma failed_probe_classified_counterexample :
  exists r st',
    App.checkProfileStatus (smallWorld (fun _ => NotOk 400 badRequest) [] [] [])
      "did:plc:gone" initialState = (Returns r, st')
    /\ res_status r = Some RepoStatus.UNKNOWN
    /\ res_status r <> Some RepoStatus.DELETED
    /\ res_error r = None.
Proof.
  eexists _, _. split; [reflexivity|]. simpl. repeat split. discriminate.
Qed.

(** ** Block-mode records *)

Lemma blockModeStatus_Part000 (status : option Z) :
  blockModeStatus (Part000Records.actualStatus status).
Proof.
  unfold Part000Records.actualStatus, blockModeStatus.
  repeat case_bool_decide; auto.
Qed.

(** Where the two constructions of a block record agree: on a status that
    is absent or one of the four statuses of block mode. The labels agree on
    every status. *)
Lemma blockRecordOf_agree (toggles : gmap Z bool) (block : BlockRef)
    (result : ProfileCheckResult) :
  (res_status result = None
   \/ exists s, res_status result = Some s /\ blockModeStatus s) ->
  AppRecords.blockRecordOf toggles block result
  = Part000Records.blockRecordOf toggles block result.
Proof.
  intros H.
  assert (E : AppRecords.actualStatus (res_status result)
              = Part000Records.actualStatus (res_status result)).
  { destruct H as [-> | (s & -> & [-> | [-> | [-> | ->]]])]; reflexivity. }
  unfold AppRecords.blockRecordOf, Part000Records.blockRecordOf. rewrite E. reflexivity.
Qed.

Lemma blockRecordOf_label (toggles : gmap Z bool) (block : BlockRef)
    (result : ProfileCheckResult) :
  ar_status_label (AppRecords.blockRecordOf toggles block result)
  = ar_status_label (Part000Records.blockRecordOf toggles block result).
Proof. reflexivity. Qed.

(** C10 at a classification the two versions store differently: for the
    status [YOURSELF], [src/src/App.tsx] stores [YOURSELF] and
    [src/unnamed/part_000] stores [UNKNOWN], both under the label "Unknown". *)
Theorem blockRecordOf_versions_differ :
  let result := {| res_handle := Some "me.test";
                   res_status := Some RepoStatus.YOURSELF;
                   res_error := None |} in
  let block := {| br_did := rec_subject selfBlock; br_uri := rec_uri selfBlock |} in
  ar_status (AppRecords.blockRecordOf (blockToggleStates initialState) block result)
  = RepoStatus.YOURSELF
  /\ ar_status (Part000Records.blockRecordOf (blockToggleStates initialState) block result)
     = RepoStatus.UNKNOWN
  /\ ar_status_label (AppRecords.blockRecordOf (blockToggleStates initialState) block result)
     = "Unknown"
  /\ ar_status_label
       (Part000Records.blockRecordOf (blockToggleStates initialState) block result)
     = "Unknown".
Proof. repeat split. Qed.

(** C5 at a run of block mode of [src/src/App.tsx] that stores a status
    outside the four of block mode: the repository holds a block record whose
    subject is the user, the live block list is empty, and the record comes
    out with the status [YOURSELF] under the label "Unknown". *)
Theorem block_mode_stores_yourself :
  let w := smallWorld (fun _ => Ok profileMe) [selfBlock] [] [] in
  exists st',
    AppEngine.fetchHiddenAccounts_blocks w 1 (setCurrentMode BLOCKS initialState)
    = (Returns tt, st')
    /\ blockRecords st'
       = [ {| ar_did := "did:plc:me";
              ar_handle := "me.test";
              ar_uri := "at://did:plc:me/app.bsky.graph.block/3kself";
              ar_status := RepoStatus.YOURSELF;
              ar_status_label := "Unknown";
              ar_toDelete := false;
              ar_visible := true |} ]
    /\ ~ blockModeStatus RepoStatus.YOURSELF.
Proof.
  eexists. split; [vm_compute; reflexivity|]. split; [reflexivity|].
  unfold blockModeStatus. intros [H|[H|[H|H]]]; discriminate H.
Qed.

(** ** Toggles *)

Lemma setField_idemp (field : Field) (value : bool) (record : AccountRecord) :
  setField field value (setField field value record) = setField field value record.
Proof. destruct field; reflexivity. Qed.

Lemma setField_status (field : Field) (value : bool) (record : AccountRecord) :
  ar_status (setField field value record) = ar_status record.
Proof. destruct field; reflexivity. Qed.

(** Writing a field at a list of indices rewrites exactly the records at
    those indices. *)
Lemma lookup_setAt (range : list nat) (field : Field) (value : bool)
    (records : list AccountRecord) (i : nat) :
  setAt range field value records !! i
  = if decide (i ∈ range) then setField field value <$> records !! i else records !! i.
Proof.
  unfold setAt. revert records.
  induction range as [|j range IH]; intros records.
  - case_decide as Hin; [inversion Hin|reflexivity].
  - cbn [foldl]. rewrite IH. destruct (decide (i = j)) as [->|Hne].
    + rewrite list_lookup_alter_eq.
      case_decide as H1; case_decide as H2; try reflexivity.
      * destruct (records !! j); simpl; [|reflexivity].
        rewrite setField_idemp. reflexivity.
      * exfalso. apply H2, list_elem_of_here.
      * exfalso. apply H2, list_elem_of_here.
    + rewrite list_lookup_alter_ne by congruence.
      case_decide as H1; case_decide as H2; try reflexivity.
      * exfalso. apply H2, list_elem_of_further, H1.
      * exfalso. apply elem_of_cons in H2 as [->|H2]; contradiction.
Qed.

Lemma elem_of_editRange (status : Z) (records : list AccountRecord) (i : nat) :
  i ∈ editRange status records
  <-> exists r, records !! i = Some r /\ truthy_num (js_and (ar_status r) status) = true.
Proof.
  unfold editRange. rewrite list_elem_of_omap. split.
  - intros (x & Hx & Hid). simpl in Hid. subst x.
    apply list_elem_of_lookup in Hx as [k Hk].
    rewrite list_lookup_imap in Hk.
    destruct (records !! k) as [r|] eqn:Hr; simpl in Hk; [|discriminate].
    destruct (truthy_num (js_and (ar_status r) status)) eqn:Ht; [|discriminate].
    injection Hk as <-. exists r. split; [exact Hr|exact Ht].
  - intros (r & Hr & Ht). exists (Some i). split; [|reflexivity].
    apply list_elem_of_lookup. exists i.
    rewrite list_lookup_imap, Hr. simpl. rewrite Ht. reflexivity.
Qed.

Lemma truthy_num_hasFlag (a b : Z) : truthy_num (js_and a b) = true <-> hasFlag a b.
Proof.
  unfold truthy_num, hasFlag. rewrite negb_true_iff. apply Z.eqb_neq.
Qed.

Lemma currentRecords_setCurrentRecords (f : list AccountRecord -> list AccountRecord)
    (st : State) :
  currentRecords (setCurrentRecords f st) = f (currentRecords st).
Proof.
  unfold currentRecords, setCurrentRecords. destruct (currentMode st) eqn:E; simpl; rewrite E; reflexivity.
Qed.

Lemma currentRecords_setCurrentToggleStates (f : gmap Z bool -> gmap Z bool) (st : State) :
  currentRecords (setCurrentToggleStates f st) = currentRecords st.
Proof.
  unfold currentRecords, setCurrentToggleStates. destruct (currentMode st) eqn:E; simpl; rewrite E; reflexivity.
Qed.

Lemma currentToggleStates_setCurrentToggleStates (f : gmap Z bool -> gmap Z bool)
    (st : State) :
  currentToggleStates (setCurrentToggleStates f st) = f (currentToggleStates st).
Proof.
  unfold currentToggleStates, setCurrentToggleStates.
  destruct (currentMode st) eqn:E; simpl; rewrite E; reflexivity.
Qed.

Lemma currentToggleStates_setCurrentRecords (f : list AccountRecord -> list AccountRecord)
    (st : State) :
  currentToggleStates (setCurrentRecords f st) = currentToggleStates st.
Proof.
  unfold currentToggleStates, setCurrentRecords.
  destruct (currentMode st) eqn:E; simpl; rewrite E; reflexivity.
Qed.

(** [editRecords] rewrites the field on the records of the active mode
    whose status shares a flag with the category, and on no other. *)
Lemma lookup_editRecords (status : Z) (field : Field) (value : bool) (st : State) (i : nat) :
  currentRecords (editRecords status field value st) !! i
  = (fun r => if truthy_num (js_and (ar_status r) status)
              then setField field value r else r)
    <$> currentRecords st !! i.
Proof.
  unfold editRecords. rewrite currentRecords_setCurrentRecords, lookup_setAt.
  destruct (currentRecords st !! i) as [r|] eqn:Hr; simpl.
  - destruct (truthy_num (js_and (ar_status r) status)) eqn:Ht.
    + rewrite decide_True; [reflexivity|].
      apply elem_of_editRange. exists r. split; [exact Hr|exact Ht].
    + rewrite decide_False; [reflexivity|].
      intros (r' & Hr' & Ht')%elem_of_editRange. congruence.
  - destruct (decide _); reflexivity.
Qed.

(** C9: turning the toggle of a category off records the choice, and sets
    [visible] and [toDelete] to false on every record of the active mode
    whose status matches the category, whatever they were, leaving the rest
    of the record as it was; the records whose status is the category itself
    are among them, and the other records are left as they were. *)
Theorem toggle_off_hides_and_deselects (status : Z) (st : State) (i : nat)
    (record : AccountRecord) :
  status ∈ [RepoStatus.BLOCKEDBY; RepoStatus.BLOCKING; RepoStatus.DELETED;
            RepoStatus.DEACTIVATED; RepoStatus.SUSPENDED; RepoStatus.HIDDEN;
            RepoStatus.YOURSELF; RepoStatus.UNKNOWN] ->
  currentRecords st !! i = Some record ->
  currentToggleStates (updateToggleState status false st) !! status = Some false
  /\ (ar_status record = status -> hasFlag (ar_status record) status)
  /\ (hasFlag (ar_status record) status ->
      exists record',
        currentRecords (updateToggleState status false st) !! i = Some record'
        /\ ar_visible record' = false /\ ar_toDelete record' = false
        /\ ar_did record' = ar_did record /\ ar_handle record' = ar_handle record
        /\ ar_uri record' = ar_uri record /\ ar_status record' = ar_status record
        /\ ar_status_label record' = ar_status_label record)
  /\ (~ hasFlag (ar_status record) status ->
      currentRecords (updateToggleState status false st) !! i = Some record).
Proof.
  intros Hcat Hrec. unfold updateToggleState. cbn [negb].
  split; [|split; [|split]].
  - unfold editRecords.
    rewrite !currentToggleStates_setCurrentRecords, currentToggleStates_setCurrentToggleStates.
    apply lookup_insert_eq.
  - intros ->. unfold hasFlag.
    repeat (apply elem_of_cons in Hcat as [->|Hcat]; [vm_compute; discriminate|]).
    inversion Hcat.
  - intros Hflag. apply truthy_num_hasFlag in Hflag.
    exists (setField toDelete false (setField visible false record)).
    split; [|repeat split].
    rewrite !lookup_editRecords, currentRecords_setCurrentToggleStates, Hrec.
    cbn [fmap option_fmap option_map].
    rewrite Hflag, setField_status, Hflag. reflexivity.
  - intros Hflag.
    assert (Ht : truthy_num (js_and (ar_status record) status) = false).
    { destruct (truthy_num _) eqn:E; [|reflexivity].
      apply truthy_num_hasFlag in E. contradiction. }
    rewrite !lookup_editRecords, currentRecords_setCurrentToggleStates, Hrec.
    cbn [fmap option_fmap option_map].
    rewrite Ht, Ht. reflexivity.
Qed.

Lemma toggle_off_hides_and_deselects_witness :
  ar_toDelete selectedDeleted = true
  /\ exists record',
       currentRecords (updateToggleState RepoStatus.DELETED false selectedState) !! 0
       = Some record'
       /\ ar_visible record' = false /\ ar_toDelete record' = false.
Proof.
  split; [reflexivity|].
  destruct (proj1 (proj2 (proj2
              (toggle_off_hides_and_deselects RepoStatus.DELETED selectedState 0
                 selectedDeleted
                 (list_elem_of_further _ _ _
                    (list_elem_of_further _ _ _ (list_elem_of_here _ _)))
                 eq_refl)))) as (record' & Hlook & Hv & Hd & _).
  - unfold hasFlag. vm_compute. discriminate.
  - exists record'. split; [exact Hlook|]. split; [exact Hv|exact Hd].
Defined.

(** ** Requests *)

Lemma send_nil (st : State) : send [] st = st.
Proof. destruct st. unfold send. simpl. rewrite app_nil_r. reflexivity. Qed.

Lemma send_send (a b : list Request) (st : State) : send b (send a st) = send (a ++ b) st.
Proof. unfold send. simpl. rewrite app_assoc. reflexivity. Qed.

(** ** Record keys *)

Lemma append_cons (a : ascii) (s t : string) : String a s +:+ t = String a (s +:+ t).
Proof. reflexivity. Qed.

Lemma append_snoc (cur : string) (c : ascii) (t : string) :
  (cur +:+ String c EmptyString) +:+ t = cur +:+ String c t.
Proof.
  induction cur as [|a cur IH]; [reflexivity|].
  rewrite !append_cons, IH. reflexivity.
Qed.

Lemma append_empty_r (s : string) : s +:+ "" = s.
Proof. induction s as [|a s IH]; [reflexivity|]. rewrite append_cons, IH. reflexivity. Qed.

Lemma last_cons_last {A : Type} (x : A) (l : list A) (y : A) :
  last l = Some y -> last (x :: l) = Some y.
Proof. destruct l; [discriminate|]. intros H. exact H. Qed.

(** The last piece of a split at slashes: the text read so far followed by
    the rest when no slash is left, and otherwise what follows the last
    slash. *)
Lemma split_go_slash_last (s cur : string) :
  exists seg,
    last (split_go "/" 0 cur s) = Some seg
    /\ ((includes "/" s = false /\ seg = cur +:+ s)
        \/ (includes "/" seg = false /\ exists pre, s = pre +:+ "/" +:+ seg)).
Proof.
  revert cur. induction s as [|c t IH]; intros cur.
  - exists cur. split; [reflexivity|]. left. split; [reflexivity|].
    symmetry. apply append_empty_r.
  - cbn [split_go startsWith includes].
    destruct (Ascii.eqb "/" c) eqn:Hc.
    + apply Ascii.eqb_eq in Hc. subst c.
      destruct (IH EmptyString) as (seg & Hlast & Hseg).
      exists seg. split.
      * apply last_cons_last. exact Hlast.
      * right. destruct Hseg as [[Hno ->]|[Hno [pre ->]]].
        -- split; [exact Hno|]. exists EmptyString. reflexivity.
        -- split; [exact Hno|]. exists (String "/" pre). reflexivity.
    + destruct (IH (cur +:+ String c EmptyString)) as (seg & Hlast & Hseg).
      exists seg. split; [exact Hlast|].
      destruct Hseg as [[Hno ->]|[Hno [pre ->]]].
      * left. split; [|apply append_snoc]. destruct t; exact Hno.
      * right. split; [exact Hno|]. exists (String c pre). reflexivity.
Qed.

(** The key of a delete operation is the trailing segment of the locator. *)
Lemma rkey_trailing (uri : string) :
  exists seg, pop (split "/" uri) = Some seg /\ TrailingSegment uri seg.
Proof.
  destruct (split_go_slash_last uri EmptyString) as (seg & Hlast & Hseg).
  exists seg. split; [exact Hlast|]. unfold TrailingSegment.
  destruct Hseg as [[Hno ->]|[Hno Hpre]].
  - split; [exact Hno|]. left. reflexivity.
  - split; [exact Hno|]. right. exact Hpre.
Qed.

(** ** Batched deletion *)

(** One more batch is needed for what is left after a batch of [P]. *)
Lemma ceil_step (M P : nat) :
  0 < P -> 0 < M -> (M + (P - 1)) / P = S ((M - P + (P - 1)) / P).
Proof.
  intros HP HM. destruct (Nat.le_gt_cases P M) as [Hle|Hlt].
  - replace (M + (P - 1)) with ((M - P + (P - 1)) + 1 * P) by lia.
    rewrite Nat.div_add by lia. lia.
  - replace (M - P) with 0 by lia.
    rewrite (Nat.div_small (0 + (P - 1)) P) by lia.
    symmetry. apply (Nat.div_unique _ _ 1 (M - 1)); lia.
Qed.

Section Deletion.
Context (post : list Delete -> Async unit) (ok : list Delete -> bool).
Context (repo msg : string).
Hypothesis post_spec : forall writes st,
  post writes st
  = (if ok writes then Returns tt else Throws msg, send [ApplyWrites repo writes] st).

(** The loop sends the batches one after the other until one of them
    fails; when none fails they cover the operations from [i] on. *)
Lemma removeItems_loop_spec (writes : list Delete) (fuel i : nat) (st : State) :
  length writes - i <= fuel ->
  exists o batches,
    removeItems_loop post fuel i writes st
    = (o, send (ApplyWrites repo <$> batches) st)
    /\ (forall j b, batches !! j = Some b -> S j < length batches -> ok b = true)
    /\ ((forall b, b ∈ batches -> ok b = true) ->
        o = Returns tt
        /\ concat batches = drop i writes
        /\ length batches = (length writes - i + 199) / 200
        /\ Forall (fun b => length b <= 200) batches).
Proof.
  revert i st. induction fuel as [|fuel IH]; intros i st Hfuel.
  - exists (Returns tt), []. cbn [removeItems_loop].
    destruct (Nat.ltb_spec i (length writes)) as [Hlt|Hge]; [lia|].
    split; [rewrite send_nil; reflexivity|]. split; [intros j b [=]|].
    intros _. split; [reflexivity|]. split; [rewrite drop_ge by lia; reflexivity|].
    split; [|constructor].
    replace (length writes - i) with 0 by lia. reflexivity.
  - cbn [removeItems_loop].
    destruct (Nat.ltb_spec i (length writes)) as [Hlt|Hge].
    + unfold mbind at 1, Async_bind. rewrite post_spec.
      destruct (ok (slice i (i + BATCHSIZE) writes)) eqn:Hok.
      * destruct (IH (i + BATCHSIZE) (send [ApplyWrites repo (slice i (i + BATCHSIZE) writes)] st))
          as (o & batches & Hrun & Hseq & Hall); [unfold BATCHSIZE; lia|].
        exists o, (slice i (i + BATCHSIZE) writes :: batches).
        split; [rewrite Hrun, send_send; reflexivity|]. split.
        -- intros [|j] b Hb Hj.
           ++ injection Hb as <-. exact Hok.
           ++ apply (Hseq j b Hb). simpl in Hj. lia.
        -- intros Hoks.
           destruct Hall as (Ho & Hcat & Hlen & Hsz).
           { intros b Hb. apply Hoks, list_elem_of_further, Hb. }
           split; [exact Ho|]. split; [|split].
           ++ cbn [concat]. rewrite Hcat. unfold slice, BATCHSIZE.
              replace (i + 200 - i) with 200 by lia.
              rewrite <- (take_drop 200 (drop i writes)) at 2.
              rewrite drop_drop. reflexivity.
           ++ cbn [length]. rewrite Hlen. unfold BATCHSIZE.
              replace (length writes - (i + 200)) with (length writes - i - 200) by lia.
              symmetry. apply (ceil_step (length writes - i) 200); lia.
           ++ constructor; [|exact Hsz]. unfold slice, BATCHSIZE.
              rewrite length_take. lia.
      * exists (Throws msg), [slice i (i + BATCHSIZE) writes].
        split; [reflexivity|]. split.
        -- intros [|j] b Hb Hj; simpl in Hj; lia.
        -- intros Hoks. rewrite Hoks in Hok by apply list_elem_of_here. discriminate.
    + exists (Returns tt), [].
      split; [rewrite send_nil; reflexivity|]. split; [intros j b [=]|].
      intros _. split; [reflexivity|]. split; [rewrite drop_ge by lia; reflexivity|].
      split; [|constructor].
      replace (length writes - i) with 0 by lia. reflexivity.
Qed.

Lemma deleteOf_keyed (collection : string) (marked : list AccountRecord) :
  Forall2 (fun record d =>
             del_collection d = collection
             /\ exists seg, del_rkey d = Some seg /\ TrailingSegment (ar_uri record) seg)
    marked (deleteOf collection <$> marked).
Proof.
  apply Forall2_fmap_r, Forall_Forall2_diag, Forall_forall.
  intros record _. split; [reflexivity|]. apply rkey_trailing.
Qed.

(** [removeItems] sends the batches of its loop and nothing else; when no
    batch fails, these are the batches that delete the marked records. *)
Lemma removeItems_spec (st : State) :
  exists o st' batches,
    removeItems post st = (o, st')
    /\ sent st' = sent st ++ (ApplyWrites repo <$> batches)
    /\ (forall j b, batches !! j = Some b -> S j < length batches -> ok b = true)
    /\ ((forall b, b ∈ batches -> ok b = true) ->
        o = Returns tt
        /\ BatchPlan (collectionOf (currentMode st))
             (filter (fun record => ar_toDelete record = true) (currentRecords st))
             batches).
Proof.
  unfold removeItems, currentRecords. run.
  destruct (currentMode st) eqn:Hmode; cbn [collectionOf];
    match goal with
    | |- context [removeItems_loop post (length ?ws) 0 ?ws st] =>
        destruct (removeItems_loop_spec ws (length ws) 0 st) as
          (o & batches & Hrun & Hseq & Hall); [lia|]; rewrite Hrun
    end.
  all: destruct o as [[]|m|].
  all: cbn [currentMode send]; try rewrite Hmode.
  all: eexists _, _, batches; (split; [reflexivity|]).
  all: (split; [reflexivity|]); (split; [exact Hseq|]).
  all: intros Hoks; destruct (Hall Hoks) as (Ho & Hcat & Hlen & Hsz); try discriminate Ho.
  all: split; [reflexivity|]; rewrite drop_0 in Hcat; unfold BatchPlan; rewrite Hcat.
  all: rewrite length_fmap, Nat.sub_0_r in Hlen.
  all: split; [exact Hlen|]; (split; [exact Hsz|]); split;
    [apply length_fmap | apply deleteOf_keyed].
Qed.
End Deletion.

Lemma AppEngine_post_spec (w : World ClientResponse) (writes : list Delete) (st : State) :
  AppEngine.post w writes st
  = (if (fun _ : list Delete => true) writes then Returns tt else Throws "",
     send [ApplyWrites (agentDID w) writes] st).
Proof. reflexivity. Qed.

Lemma Part000Engine_post_spec (w : World XrpcResponse) (writes : list Delete) (st : State) :
  Part000Engine.post w writes st
  = (if applyWrites w (agentDID w) writes then Returns tt
     else Throws "com.atproto.repo.applyWrites: request failed",
     send [ApplyWrites (agentDID w) writes] st).
Proof.
  unfold Part000Engine.post. run. destruct (applyWrites w (agentDID w) writes); reflexivity.
Qed.

(** C7: with [K] records marked for deletion, [removeItems] sends
    [ceil(K/200)] [applyWrites] requests one after the other, none when
    [K = 0], each with at most 200 operations; the operations of the
    requests, in order, are one delete per marked record, keyed by the
    trailing segment of its locator, [K] in all. In [src/src/App.tsx] this
    holds whatever the responses are. In [src/unnamed/part_000] a failing
    request throws: every request but the last one sent was answered with
    success, and when all succeed the requests are the same as above. *)
Theorem removeItems_batches :
  (forall (w : World ClientResponse) (st : State),
      exists st' batches,
        AppEngine.removeItems w st = (Returns tt, st')
        /\ sent st' = sent st ++ (ApplyWrites (agentDID w) <$> batches)
        /\ BatchPlan (collectionOf (currentMode st))
             (filter (fun record => ar_toDelete record = true) (currentRecords st))
             batches)
  /\ (forall (w : World XrpcResponse) (st : State),
         exists o st' batches,
           Part000Engine.removeItems w st = (o, st')
           /\ sent st' = sent st ++ (ApplyWrites (agentDID w) <$> batches)
           /\ (forall j b, batches !! j = Some b -> S j < length batches ->
                           applyWrites w (agentDID w) b = true)
           /\ ((forall b, b ∈ batches -> applyWrites w (agentDID w) b = true) ->
               o = Returns tt
               /\ BatchPlan (collectionOf (currentMode st))
                    (filter (fun record => ar_toDelete record = true) (currentRecords st))
                    batches)).
Proof.
  split.
  - intros w st.
    destruct (removeItems_spec (AppEngine.post w) (fun _ => true) (agentDID w) ""
                (AppEngine_post_spec w) st)
      as (o & st' & batches & Hrun & Hsent & _ & Hall).
    destruct (Hall (fun _ _ => eq_refl)) as [-> Hplan].
    exists st', batches. split; [exact Hrun|]. split; [exact Hsent|exact Hplan].
  - intros w st.
    exact (removeItems_spec (Part000Engine.post w) (applyWrites w (agentDID w))
             (agentDID w) _ (Part000Engine_post_spec w) st).
Qed.

Lemma removeItems_batches_witness :
  exists st' batches,
    Part000Engine.removeItems (smallWorld (fun _ => XrpcResolves None) [] [] []) selectedState
    = (Returns tt, st')
    /\ BatchPlan "app.bsky.graph.follow" [selectedDeleted] batches.
Proof.
  destruct (proj2 removeItems_batches
              (smallWorld (fun _ => XrpcResolves None) [] [] []) selectedState)
    as (o & st' & batches & Hrun & _ & _ & Hall).
  destruct (Hall (fun _ _ => eq_refl)) as [Ho Hplan].
  exists st', batches. split; [rewrite <- Ho; exact Hrun|exact Hplan].
Defined.

(** Deleting 450 marked records takes three requests of 200, 200 and 50
    operations. *)
Example removeItems_450 :
  let marked := replicate 450 selectedDeleted in
  let st := setFollowRecords (fun _ => marked) initialState in
  exists st',
    AppEngine.removeItems (smallWorld (fun _ => Rejected) [] [] []) st = (Returns tt, st')
    /\ (fun req => match req with ApplyWrites _ writes => length writes | _ => 0 end)
       <$> sent st' = [200; 200; 50].
Proof. eexists. split; [vm_compute; reflexivity|]. vm_compute. reflexivity. Qed.

(** ** Paginated listings *)

Lemma truthy_str_Some (s : string) : s <> "" -> truthy_str (Some s) = true.
Proof. destruct s; [contradiction|reflexivity]. Qed.

Lemma pages_left_none (N o P : nat) : 0 < P -> N <= o + P -> (N - (o + P) + (P - 1)) / P = 0.
Proof. intros HP Hge. apply Nat.div_small. lia. Qed.

Lemma pages_left_step (N o P : nat) :
  0 < P -> o + P < N ->
  (N - (o + P) + (P - 1)) / P = S ((N - (o + P + P) + (P - 1)) / P).
Proof.
  intros HP Hlt. rewrite (ceil_step (N - (o + P)) P) by lia.
  do 3 f_equal. lia.
Qed.

Lemma pagesNeeded_first (N P : nat) :
  0 < P -> pagesNeeded N P = S ((N - (0 + P) + (P - 1)) / P).
Proof.
  intros HP. unfold pagesNeeded. destruct (Nat.eqb_spec N 0) as [->|HN].
  - rewrite pages_left_none by lia. reflexivity.
  - rewrite (ceil_step N P) by lia. reflexivity.
Qed.

Section Pagination.
Context {P : Type} (w : World P) (PAGE_LIMIT : nat) (cur : nat -> string).
Hypothesis limit_pos : 0 < PAGE_LIMIT.

(** The loop of [fetchBlocks] from the page at offset [o] on. *)
Lemma fetchBlocks_pages_complete (L : list BlockView) (fuel o : nat) (st : State) :
  servesPages (getBlocks w PAGE_LIMIT) cur L PAGE_LIMIT ->
  length L - (o + PAGE_LIMIT) <= fuel ->
  exists cursors,
    fetchBlocks_pages w PAGE_LIMIT fuel
      {| items := take PAGE_LIMIT (drop o L);
         cursor := if o + PAGE_LIMIT <? length L
                   then Some (cur (o + PAGE_LIMIT)) else None |}
      (take (o + PAGE_LIMIT) L) st
    = (Returns L, send (GetBlocks PAGE_LIMIT <$> cursors) st)
    /\ length cursors = (length L - (o + PAGE_LIMIT) + (PAGE_LIMIT - 1)) / PAGE_LIMIT.
Proof.
  intros (Hcur & _ & Hnext). revert o st.
  induction fuel as [|fuel IH]; intros o st Hfuel;
    cbn [fetchBlocks_pages cursor items];
    destruct (Nat.ltb_spec (o + PAGE_LIMIT) (length L)) as [Hlt|Hge];
    try lia.
  - exists []. rewrite send_nil, take_ge by lia. run.
    split; [reflexivity|]. symmetry. apply pages_left_none; lia.
  - rewrite truthy_str_Some by apply Hcur. run.
    rewrite Hnext. unfold pageAt. cbn [items].
    rewrite take_take_drop.
    destruct (IH (o + PAGE_LIMIT)
                (send [GetBlocks PAGE_LIMIT (Some (cur (o + PAGE_LIMIT)))] st))
      as (cursors & Hrun & Hlen); [lia|].
    exists (Some (cur (o + PAGE_LIMIT)) :: cursors).
    rewrite Hrun, send_send. split; [reflexivity|].
    cbn [length]. rewrite Hlen. symmetry. apply pages_left_step; lia.
  - exists []. rewrite send_nil, take_ge by lia. run.
    split; [reflexivity|]. symmetry. apply pages_left_none; lia.
Qed.

(** Termination policy "no cursor": the live block list. *)
Lemma fetchBlocks_active_complete (L : list BlockView) (fuel : nat) (st : State) :
  servesPages (getBlocks w PAGE_LIMIT) cur L PAGE_LIMIT ->
  length L <= fuel ->
  exists cursors,
    fetchBlocks_active w PAGE_LIMIT fuel st
    = (Returns L, send (GetBlocks PAGE_LIMIT <$> cursors) st)
    /\ length cursors = pagesNeeded (length L) PAGE_LIMIT.
Proof.
  intros Hserve Hfuel.
  destruct (fetchBlocks_pages_complete L fuel 0
              (send [GetBlocks PAGE_LIMIT None] st) Hserve)
    as (cursors & Hrun & Hlen); [lia|].
  exists (None :: cursors). unfold fetchBlocks_active, mbind, Async_bind, await.
  destruct Hserve as (_ & Hfirst & _). rewrite Hfirst. unfold pageAt. cbn [items].
  rewrite send_send in Hrun. split; [exact Hrun|].
  cbn [length]. rewrite Hlen. symmetry. apply pagesNeeded_first, limit_pos.
Qed.

(** The loop of [fetchFollows] from the page at offset [o] on. *)
Lemma fetchFollows_pages_complete (L : list RepoRecord) (fuel o : nat) (st : State) :
  servesPages (listRecords w (agentDID w) "app.bsky.graph.follow" PAGE_LIMIT)
    cur L PAGE_LIMIT ->
  length L - (o + PAGE_LIMIT) <= fuel ->
  exists cursors,
    fetchFollows_pages w PAGE_LIMIT fuel
      {| items := take PAGE_LIMIT (drop o L);
         cursor := if o + PAGE_LIMIT <? length L
                   then Some (cur (o + PAGE_LIMIT)) else None |}
      (take (o + PAGE_LIMIT) L) st
    = (Returns L,
       send (ListRecords (agentDID w) "app.bsky.graph.follow" PAGE_LIMIT <$> cursors) st)
    /\ length cursors = (length L - (o + PAGE_LIMIT) + (PAGE_LIMIT - 1)) / PAGE_LIMIT.
Proof.
  intros (Hcur & _ & Hnext). revert o st.
  induction fuel as [|fuel IH]; intros o st Hfuel;
    cbn [fetchFollows_pages cursor items];
    destruct (Nat.ltb_spec (o + PAGE_LIMIT) (length L)) as [Hlt|Hge];
    try lia.
  - exists []. rewrite send_nil, (take_ge L) by lia. run.
    split; [reflexivity|]. symmetry. apply pages_left_none; lia.
  - rewrite truthy_str_Some by apply Hcur.
    rewrite (proj2 (Nat.leb_le _ _)) by (rewrite length_take, length_drop; lia).
    run. rewrite Hnext. unfold pageAt. cbn [items].
    rewrite take_take_drop.
    destruct (IH (o + PAGE_LIMIT)
                (send [ListRecords (agentDID w) "app.bsky.graph.follow" PAGE_LIMIT
                         (Some (cur (o + PAGE_LIMIT)))] st))
      as (cursors & Hrun & Hlen); [lia|].
    exists (Some (cur (o + PAGE_LIMIT)) :: cursors).
    rewrite Hrun, send_send. split; [reflexivity|].
    cbn [length]. rewrite Hlen. symmetry. apply pages_left_step; lia.
  - exists []. rewrite send_nil, (take_ge L) by lia. run.
    split; [reflexivity|]. symmetry. apply pages_left_none; lia.
Qed.

(** Termination policy "no cursor or short page": the follow records. *)
Lemma fetchFollows_limit_complete (L : list RepoRecord) (fuel : nat) (st : State) :
  servesPages (listRecords w (agentDID w) "app.bsky.graph.follow" PAGE_LIMIT)
    cur L PAGE_LIMIT ->
  length L <= fuel ->
  exists cursors,
    fetchFollows_limit w PAGE_LIMIT fuel st
    = (Returns L,
       send (ListRecords (agentDID w) "app.bsky.graph.follow" PAGE_LIMIT <$> cursors) st)
    /\ length cursors = pagesNeeded (length L) PAGE_LIMIT.
Proof.
  intros Hserve Hfuel.
  destruct (fetchFollows_pages_complete L fuel 0
              (send [ListRecords (agentDID w) "app.bsky.graph.follow" PAGE_LIMIT None] st)
              Hserve)
    as (cursors & Hrun & Hlen); [lia|].
  exists (None :: cursors). unfold fetchFollows_limit, mbind, Async_bind, await.
  destruct Hserve as (_ & Hfirst & _). rewrite Hfirst. unfold pageAt. cbn [items].
  rewrite send_send in Hrun. split; [exact Hrun|].
  cbn [length]. rewrite Hlen. symmetry. apply pagesNeeded_first, limit_pos.
Qed.

End Pagination.

(** [fetchFollows] and the first loop of [fetchBlocks] with the limits of
    the source, 100 and 50. *)
Corollary fetchFollows_complete {P : Type} (w : World P) (cur : nat -> string)
    (L : list RepoRecord) (fuel : nat) (st : State) :
  servesPages (listRecords w (agentDID w) "app.bsky.graph.follow" 100) cur L 100 ->
  length L <= fuel ->
  exists cursors,
    fetchFollows w fuel st
    = (Returns L, send (ListRecords (agentDID w) "app.bsky.graph.follow" 100 <$> cursors) st)
    /\ length cursors = pagesNeeded (length L) 100.
Proof. apply fetchFollows_limit_complete. lia. Qed.

Lemma offsetOf_cursorOf (o : nat) : offsetOf (Some (cursorOf o)) = o.
Proof.
  unfold offsetOf, cursorOf. cbn [String.length]. rewrite Nat.sub_1_r. cbn [Nat.pred].
  induction o as [|o IH]; [reflexivity|]. cbn [dots String.length]. rewrite IH. reflexivity.
Qed.

Lemma pagedWorld_serves {P : Type} (profiles : string -> P)
    (blocks : list RepoRecord) (active : list BlockView) (follows : list RepoRecord)
    (limit : nat) :
  let w := pagedWorld profiles blocks active follows in
  servesPages (getBlocks w limit) cursorOf active limit
  /\ servesPages (listRecords w (agentDID w) "app.bsky.graph.follow" limit)
       cursorOf follows limit.
Proof.
  split; (split; [discriminate|]); (split; [reflexivity|]); intros o; cbn;
    rewrite Nat.sub_0_r;
    replace (String.length (dots o)) with (offsetOf (Some (cursorOf o)))
      by (unfold offsetOf, cursorOf; cbn [String.length]; lia);
    rewrite offsetOf_cursorOf; reflexivity.
Qed.

(** C6: against an endpoint that exposes [N] items in pages of the
    requested size [P] and leaves the cursor out on the final page, both
    fetchers return the [N] items in the order of the server after
    [ceil(N/P)] requests, one request when [N = 0]: the first loop of
    [fetchBlocks], which stops when no cursor comes back, and
    [fetchFollows], which also stops on a page shorter than the limit. *)
Theorem pagination_complete {P : Type} (w : World P) (PAGE_LIMIT : nat)
    (cur : nat -> string) (fuel : nat) (st : State) :
  0 < PAGE_LIMIT ->
  (forall blocks : list BlockView,
      servesPages (getBlocks w PAGE_LIMIT) cur blocks PAGE_LIMIT ->
      length blocks <= fuel ->
      exists cursors,
        fetchBlocks_active w PAGE_LIMIT fuel st
        = (Returns blocks, send (GetBlocks PAGE_LIMIT <$> cursors) st)
        /\ length cursors = pagesNeeded (length blocks) PAGE_LIMIT)
  /\ (forall follows : list RepoRecord,
         servesPages (listRecords w (agentDID w) "app.bsky.graph.follow" PAGE_LIMIT)
           cur follows PAGE_LIMIT ->
         length follows <= fuel ->
         exists cursors,
           fetchFollows_limit w PAGE_LIMIT fuel st
           = (Returns follows,
              send (ListRecords (agentDID w) "app.bsky.graph.follow" PAGE_LIMIT <$> cursors)
                st)
           /\ length cursors = pagesNeeded (length follows) PAGE_LIMIT).
Proof.
  intros Hpos. split.
  - intros blocks. apply fetchBlocks_active_complete, Hpos.
  - intros follows. apply fetchFollows_limit_complete, Hpos.
Qed.

Lemma pagination_complete_witness :
  let w := pagedWorld (fun _ => Rejected) [] threeActive threeFollows in
  (exists cursors,
      fetchBlocks_active w 2 3 initialState
      = (Returns threeActive, send (GetBlocks 2 <$> cursors) initialState)
      /\ length cursors = 2)
  /\ (exists cursors,
         fetchFollows_limit w 2 3 initialState
         = (Returns threeFollows,
            send (ListRecords (agentDID w) "app.bsky.graph.follow" 2 <$> cursors)
              initialState)
         /\ length cursors = 2).
Proof.
  intros w.
  pose proof (pagination_complete w 2 cursorOf 3 initialState (Nat.lt_0_succ 1)) as [Hb Hf].
  split.
  - apply (Hb threeActive).
    + apply (pagedWorld_serves (fun _ => Rejected) [] threeActive threeFollows 2).
    + apply Nat.le_refl.
  - apply (Hf threeFollows).
    + apply (pagedWorld_serves (fun _ => Rejected) [] threeActive threeFollows 2).
    + apply Nat.le_refl.
Defined.

(** Nothing to read: one request and an empty result. *)
Example fetchFollows_empty :
  fetchFollows (pagedWorld (fun _ => Rejected) [] [] []) 0 initialState
  = (Returns [],
     send [ListRecords "did:plc:me" "app.bsky.graph.follow" 100 None] initialState).
Proof. reflexivity. Qed.

(** ** Block set reconciliation *)











(** ** Statuses of the classifier *)

Ltac in_list := repeat first [apply list_elem_of_here | apply list_elem_of_further].

Lemma Part000_checkProfileStatus_status (w : World XrpcResponse) (did : string)
    (st st' : State) (r : ProfileCheckResult) :
  Part000.checkProfileStatus w did st = (Returns r, st') ->
  res_status r = None \/ exists s, res_status r = Some s /\ classifierStatus s.
Proof.
  unfold Part000.checkProfileStatus, classifierStatus. run.
  destruct (getProfile w did) as [e|[data|]].
  - destruct (Part000_resolveDid_returns w did (send [GetProfile did] st)) as [h ->].
    intros [= <- <-]. right. eexists. split; [reflexivity|].
    destruct (Part000.isDeactivated _ _); [in_list|].
    destruct (Part000.isSuspended _ _); [in_list|].
    destruct (Part000.isDeleted _ _); in_list.
  - destruct (negb (truthy_str (pv_did data)) || negb (truthy_str (pv_handle data))).
    + intros [= <- <-]. right. eexists. split; [reflexivity|]. in_list.
    + intros [= <- <-]. cbn [res_status].
      destruct (pv_viewer data) as [viewer|]; [|left; reflexivity].
      destruct (hasHideLabel (pv_labels data));
        [right; eexists; split; [reflexivity|in_list]|].
      destruct (truthy_bool (blockedBy viewer)).
      { right. eexists. split; [reflexivity|]. destruct (viewerBlocks viewer); in_list. }
      destruct (bool_decide (pv_did data = Some (agentDID w)));
        [right; eexists; split; [reflexivity|in_list]|].
      destruct (viewerBlocks viewer);
        [right; eexists; split; [reflexivity|in_list]|left; reflexivity].
  - intros [= <- <-]. right. eexists. split; [reflexivity|]. in_list.
Qed.

Lemma App_checkProfileStatus_status (w : World ClientResponse) (did : string)
    (st st' : State) (r : ProfileCheckResult) :
  App.checkProfileStatus w did st = (Returns r, st') ->
  res_status r = None \/ exists s, res_status r = Some s /\ classifierStatus s.
Proof.
  unfold App.checkProfileStatus, classifierStatus. run.
  destruct (getProfile w did) as [|httpStatus e|data].
  - discriminate.
  - destruct (App_resolveDid_returns w did (send [GetProfile did] st)) as [h ->].
    intros [= <- <-]. right. eexists. split; [reflexivity|].
    destruct (App.messageIncludes "not found" e); [in_list|].
    destruct (App.messageIncludes "deactivated" e); [in_list|].
    destruct (App.messageIncludes "suspended" e); in_list.
  - destruct (hasHideLabel (pv_labels data)).
    { intros [= <- <-]. right. eexists. split; [reflexivity|in_list]. }
    destruct (pv_viewer data) as [viewer|]; [|discriminate].
    destruct (truthy_bool (blockedBy viewer)).
    { intros [= <- <-]. right. eexists. split; [reflexivity|].
      cbn [res_status]. destruct (viewerBlocks viewer); in_list. }
    destruct (pv_did data) as [d|]; [|discriminate].
    destruct (includes (agentDID w) d).
    { intros [= <- <-]. right. eexists. split; [reflexivity|in_list]. }
    destruct (viewerBlocks viewer); intros [= <- <-];
      [right; eexists; split; [reflexivity|in_list]|left; reflexivity].
Qed.

(** Among the statuses of the classifier, one contains both block flags. *)
Lemma classifierStatus_both_flags (s : Z) :
  classifierStatus s -> hasFlag s RepoStatus.BLOCKEDBY -> hasFlag s RepoStatus.BLOCKING ->
  s = js_or RepoStatus.BLOCKEDBY RepoStatus.BLOCKING.
Proof.
  unfold classifierStatus, hasFlag. intros Hs H1 H2.
  repeat (apply elem_of_cons in Hs as [->|Hs];
          [first [reflexivity | exfalso; apply H1; reflexivity
                 | exfalso; apply H2; reflexivity]|]).
  inversion Hs.
Qed.

(** C8: every status with both block flags that the label chain of follow
    mode receives, that is, that the classifier of either version returns,
    is labelled "Mutual Block", and the record pushed for it carries that
    label; such a status is never labelled "Blocked by" or "Blocking", and
    no value with both flags is. *)
Theorem mutual_block_label :
  (forall (w : World XrpcResponse) did st st' r s (T : gmap Z bool) (record : RepoRecord),
      Part000.checkProfileStatus w did st = (Returns r, st') ->
      res_status r = Some s ->
      hasFlag s RepoStatus.BLOCKEDBY -> hasFlag s RepoStatus.BLOCKING ->
      followStatusLabel (res_status r) = "Mutual Block"
      /\ exists a, followRecordOf T record r = Some a
                   /\ ar_status_label a = "Mutual Block")
  /\ (forall (w : World ClientResponse) did st st' r s (T : gmap Z bool)
             (record : RepoRecord),
         App.checkProfileStatus w did st = (Returns r, st') ->
         res_status r = Some s ->
         hasFlag s RepoStatus.BLOCKEDBY -> hasFlag s RepoStatus.BLOCKING ->
         followStatusLabel (res_status r) = "Mutual Block"
         /\ exists a, followRecordOf T record r = Some a
                      /\ ar_status_label a = "Mutual Block")
  /\ (forall s : Z,
         hasFlag s RepoStatus.BLOCKEDBY -> hasFlag s RepoStatus.BLOCKING ->
         followStatusLabel (Some s) <> "Blocked by"
         /\ followStatusLabel (Some s) <> "Blocking").
Proof.
  assert (Hlabel : forall r s (T : gmap Z bool) (record : RepoRecord),
             res_status r = Some s -> classifierStatus s ->
             hasFlag s RepoStatus.BLOCKEDBY -> hasFlag s RepoStatus.BLOCKING ->
             followStatusLabel (res_status r) = "Mutual Block"
             /\ exists a, followRecordOf T record r = Some a
                          /\ ar_status_label a = "Mutual Block").
  { intros r s T record Hs Hc H1 H2.
    pose proof (classifierStatus_both_flags s Hc H1 H2) as ->.
    unfold followRecordOf. rewrite Hs. split; [reflexivity|].
    eexists. split; reflexivity. }
  split; [|split].
  - intros w did st st' r s T record Hrun Hs H1 H2.
    destruct (Part000_checkProfileStatus_status w did st st' r Hrun)
      as [Hnone|(s' & Hs' & Hc)]; [congruence|].
    assert (s' = s) as -> by congruence.
    apply (Hlabel r s T record Hs Hc H1 H2).
  - intros w did st st' r s T record Hrun Hs H1 H2.
    destruct (App_checkProfileStatus_status w did st st' r Hrun)
      as [Hnone|(s' & Hs' & Hc)]; [congruence|].
    assert (s' = s) as -> by congruence.
    apply (Hlabel r s T record Hs Hc H1 H2).
  - intros s H1 H2.
    destruct (both_flags_not_single s H1 H2) as (N1 & N2 & N3 & N4 & N5 & N6 & N7 & N8).
    unfold followStatusLabel, loose_eq.
    rewrite (proj2 (Z.eqb_neq _ _) N1), (proj2 (Z.eqb_neq _ _) N2),
      (proj2 (Z.eqb_neq _ _) N3), (proj2 (Z.eqb_neq _ _) N4),
      (proj2 (Z.eqb_neq _ _) N5), (proj2 (Z.eqb_neq _ _) N6),
      (proj2 (Z.eqb_neq _ _) N7), (proj2 (Z.eqb_neq _ _) N8).
    destruct (Z.eqb_spec s (js_or RepoStatus.BLOCKEDBY RepoStatus.BLOCKING)) as [E|E].
    + split; discriminate.
    + destruct (s =? RepoStatus.UNKNOWN)%Z; split; discriminate.
Qed.

Lemma mutual_block_label_witness :
  (exists r st' a,
      Part000.checkProfileStatus
        (smallWorld (fun _ => XrpcResolves (Some profileMutual)) [] [] [])
        "did:plc:bob" initialState = (Returns r, st')
      /\ followRecordOf (followToggleStates initialState) (followOf "bob") r = Some a
      /\ ar_status_label a = "Mutual Block")
  /\ (exists r st' a,
         App.checkProfileStatus (smallWorld (fun _ => Ok profileMutual) [] [] [])
           "did:plc:bob" initialState = (Returns r, st')
         /\ followRecordOf (followToggleStates initialState) (followOf "bob") r = Some a
         /\ ar_status_label a = "Mutual Block").
Proof.
  assert (H1 : hasFlag 3 RepoStatus.BLOCKEDBY) by (unfold hasFlag; vm_compute; discriminate).
  assert (H2 : hasFlag 3 RepoStatus.BLOCKING) by (unfold hasFlag; vm_compute; discriminate).
  split.
  - destruct (proj1 mutual_block_label
                (smallWorld (fun _ => XrpcResolves (Some profileMutual)) [] [] [])
                "did:plc:bob" initialState _ _ 3%Z (followToggleStates initialState)
                (followOf "bob") eq_refl eq_refl H1 H2) as (_ & a & Ha & Hl).
    eexists _, _, a. split; [reflexivity|]. split; [exact Ha|exact Hl].
  - destruct (proj1 (proj2 mutual_block_label)
                (smallWorld (fun _ => Ok profileMutual) [] [] [])
                "did:plc:bob" initialState _ _ 3%Z (followToggleStates initialState)
                (followOf "bob") eq_refl eq_refl H1 H2) as (_ & a & Ha & Hl).
    eexists _, _, a. split; [reflexivity|]. split; [exact Ha|exact Hl].
Defined.

(** ** Probes and the state *)

(** A probe only adds to the requests sent, and what it gives does not
    depend on the state. *)
Lemma Part000_resolveDid_pure {P : Type} (w : World P) (did : string) :
  exists h, forall st,
    Part000.resolveDid w did st = (Returns h, send [FetchDidDoc (didDocUrl did)] st).
Proof.
  unfold Part000.resolveDid. run.
  destruct (fetchDidDoc w (didDocUrl did)) as [| |[aliases|]]; try (eexists; reflexivity).
  destruct (firstAtAlias aliases); eexists; reflexivity.
Qed.

Lemma App_resolveDid_pure {P : Type} (w : World P) (did : string) :
  exists h, forall st,
    App.resolveDid w did st = (Returns h, send [FetchDidDoc (didDocUrl did)] st).
Proof.
  unfold App.resolveDid. run.
  destruct (fetchDidDoc w (didDocUrl did)) as [| |[aliases|]]; try (eexists; reflexivity).
  destruct (firstAtAlias aliases); eexists; reflexivity.
Qed.

Lemma Part000_checkProfileStatus_pure (w : World XrpcResponse) (did : string) :
  exists res reqs, forall st,
    Part000.checkProfileStatus w did st = (Returns res, send reqs st).
Proof.
  unfold Part000.checkProfileStatus. run.
  destruct (getProfile w did) as [e|[data|]].
  - destruct (Part000_resolveDid_pure w did) as [h Hh].
    eexists _, _. intros st. rewrite Hh, send_send. reflexivity.
  - destruct (negb (truthy_str (pv_did data)) || negb (truthy_str (pv_handle data)));
      eexists _, _; intros st; reflexivity.
  - eexists _, _. intros st. reflexivity.
Qed.

Lemma App_checkProfileStatus_pure (w : World ClientResponse) (did : string) :
  exists o reqs, forall st, App.checkProfileStatus w did st = (o, send reqs st).
Proof.
  unfold App.checkProfileStatus. run.
  destruct (getProfile w did) as [|httpStatus e|data].
  - eexists _, _. intros st. reflexivity.
  - destruct (App_resolveDid_pure w did) as [h Hh].
    eexists _, _. intros st. rewrite Hh, send_send. reflexivity.
  - destruct (hasHideLabel (pv_labels data)); [eexists _, _; intros st; reflexivity|].
    destruct (pv_viewer data) as [viewer|]; [|eexists _, _; intros st; reflexivity].
    destruct (truthy_bool (blockedBy viewer)); [eexists _, _; intros st; reflexivity|].
    destruct (pv_did data) as [d|]; [|eexists _, _; intros st; reflexivity].
    destruct (includes (agentDID w) d); [eexists _, _; intros st; reflexivity|].
    destruct (viewerBlocks viewer); eexists _, _; intros st; reflexivity.
Qed.

Lemma pure_probed (check : string -> Async ProfileCheckResult) (did : string)
    (res : ProfileCheckResult) (st1 st2 : State) :
  (exists o reqs, forall st, check did st = (o, send reqs st)) ->
  check did st1 = (Returns res, st2) -> probed check did res.
Proof.
  intros (o & reqs & Hpure) Hrun st. rewrite Hpure in Hrun. injection Hrun as -> _.
  eexists. apply Hpure.
Qed.

Lemma probed_inj (check : string -> Async ProfileCheckResult) (did : string)
    (res res' : ProfileCheckResult) :
  probed check did res -> probed check did res' -> res = res'.
Proof.
  intros H H'. destruct (H initialState) as [st1 H1], (H' initialState) as [st2 H2].
  congruence.
Qed.

(** The listing of the follow records only adds to the requests sent. *)
Lemma fetchFollows_pages_frame {P : Type} (w : World P) (PAGE_LIMIT fuel : nat)
    (res : Page RepoRecord) (follows : list RepoRecord) (st : State) :
  exists o reqs, fetchFollows_pages w PAGE_LIMIT fuel res follows st = (o, send reqs st).
Proof.
  revert res follows st. induction fuel as [|fuel IH]; intros res follows st;
    cbn [fetchFollows_pages];
    destruct (truthy_str (cursor res) && (PAGE_LIMIT <=? length (items res))).
  - exists OutOfFuel, []. rewrite send_nil. reflexivity.
  - exists (Returns follows), []. rewrite send_nil. reflexivity.
  - run.
    destruct (listRecords w (agentDID w) "app.bsky.graph.follow" PAGE_LIMIT (cursor res))
      as [res'|error].
    + destruct (IH res' (follows ++ items res')
                  (send [ListRecords (agentDID w) "app.bsky.graph.follow" PAGE_LIMIT
                           (cursor res)] st)) as (o & reqs & ->).
      eexists _, _. rewrite send_send. reflexivity.
    + eexists _, _. reflexivity.
  - exists (Returns follows), []. rewrite send_nil. reflexivity.
Qed.

Lemma fetchFollows_frame {P : Type} (w : World P) (fuel : nat) (st : State) :
  exists o reqs, fetchFollows w fuel st = (o, send reqs st).
Proof.
  unfold fetchFollows, fetchFollows_limit. run.
  destruct (listRecords w (agentDID w) "app.bsky.graph.follow" 100 None) as [res|error].
  - destruct (fetchFollows_pages_frame w 100 fuel res (items res)
                (send [ListRecords (agentDID w) "app.bsky.graph.follow" 100 None] st))
      as (o & reqs & ->).
    eexists _, _. rewrite send_send. reflexivity.
  - eexists _, _. reflexivity.
Qed.

(** Follow mode starts its probes with the progress at zero, the item count
    at the number of follow records, and the stores as they were. *)
Lemma fetchHiddenAccounts_follows_start {P : Type} (w : World P) (fuel : nat)
    (st st0 : State) (follows : list RepoRecord) :
  fetchHiddenAccounts_follows w fuel st = (Returns follows, st0) ->
  progress st0 = 0 /\ itemCount st0 = length follows
  /\ followRecords st0 = followRecords st
  /\ followToggleStates st0 = followToggleStates st.
Proof.
  unfold fetchHiddenAccounts_follows. run.
  destruct (fetchFollows_frame w fuel
              (setGlobalNotice "Fetching followed accounts..." (setProgress 0 st)))
    as (o & reqs & ->).
  destruct o as [l|m|]; [|discriminate|discriminate].
  intros [= <- <-]. repeat split.
Qed.

(** ** Follow mode *)

Lemma Forall2_zip_elem {A B : Type} (Q : A -> B -> Prop) (l : list A) (k : list B)
    (x : A) (y : B) :
  Forall2 Q l k -> (x, y) ∈ zip l k -> Q x y.
Proof.
  induction 1 as [|a b l k Hab _ IH]; cbn; intros Hin.
  - inversion Hin.
  - apply elem_of_cons in Hin as [[= -> ->]|Hin]; [exact Hab|apply IH, Hin].
Qed.

Lemma Forall2_zip_left {A B : Type} (Q : A -> B -> Prop) (l : list A) (k : list B) (x : A) :
  Forall2 Q l k -> x ∈ l -> exists y, (x, y) ∈ zip l k /\ Q x y.
Proof.
  induction 1 as [|a b l k Hab _ IH]; cbn; intros Hin.
  - inversion Hin.
  - apply elem_of_cons in Hin as [->|Hin].
    + exists b. split; [apply list_elem_of_here|exact Hab].
    + destruct (IH Hin) as (y & Hy & HQ). exists y.
      split; [apply list_elem_of_further, Hy|exact HQ].
Qed.

Lemma followRecordOf_Some (T : gmap Z bool) (record : RepoRecord)
    (res : ProfileCheckResult) (a : AccountRecord) :
  followRecordOf T record res = Some a ->
  is_Some (res_status res) /\ ar_did a = rec_subject record /\ ar_uri a = rec_uri record.
Proof.
  unfold followRecordOf. destruct (res_status res) as [s|]; [|discriminate].
  intros [= <-]. split; [eexists; reflexivity|]. split; reflexivity.
Qed.

Lemma followRecordOf_defined (T : gmap Z bool) (record : RepoRecord)
    (res : ProfileCheckResult) :
  is_Some (res_status res) -> is_Some (followRecordOf T record res).
Proof.
  intros [s Hs]. unfold followRecordOf. rewrite Hs. eexists. reflexivity.
Qed.

Section FollowMode.
Context (check : string -> Async ProfileCheckResult).
Hypothesis check_pure : forall did, exists o reqs, forall st, check did st = (o, send reqs st).
Context (follows : list RepoRecord) (T0 : gmap Z bool) (F0 : list AccountRecord).
Hypothesis check_returns : forall record, record ∈ follows ->
  exists res, probed check (rec_subject record) res.

(** The callback of an answered probe: it pushes the record of a defined
    status, counts the answer, and publishes the array when the count
    reaches the item count. *)
Lemma followCallback_answered (record : RepoRecord) (res : ProfileCheckResult)
    (tmpFollows : list AccountRecord) (st : State) :
  probed check (rec_subject record) res ->
  exists st',
    followCallback check record tmpFollows st
    = (Returns (tmpFollows
                ++ option_list (followRecordOf (followToggleStates st) record res)), st')
    /\ followToggleStates st' = followToggleStates st
    /\ (if progress st + 1 =? itemCount st
        then followRecords st'
             = tmpFollows ++ option_list (followRecordOf (followToggleStates st) record res)
        else followRecords st' = followRecords st
             /\ progress st' = progress st + 1
             /\ itemCount st' = itemCount st).
Proof.
  intros Hres.
  destruct (check_pure (rec_subject record)) as (o & reqs & Hpure).
  destruct (Hres st) as [st1 Hrun]. rewrite Hpure in Hrun. injection Hrun as -> _.
  unfold followCallback. run. rewrite Hpure. cbn.
  destruct (followRecordOf (followToggleStates st) record res) as [a|];
    cbn [option_list]; rewrite ?app_nil_r;
    destruct (progress st + 1 =? itemCount st);
    eexists; (split; [reflexivity|]); cbn; auto.
Qed.

Lemma FollowInv_step (c : Choice) (run run' : FollowRun) (st st' : State) :
  FollowInv check follows T0 F0 run st ->
  followStep check follows c run st = Some (run', st') ->
  FollowInv check follows T0 F0 run' st'.
Proof.
  intros (completed & results & Hperm & Hres & Htmp & HT & Hphase) Hstep.
  destruct c as [|k]; cbn [followStep] in Hstep.
  - destruct (Nat.ltb_spec (fr_i run) (length follows)) as [Hlt|Hge]; [|discriminate].
    injection Hstep as <- <-. exists completed, results. cbn.
    split; [|auto].
    unfold slice. replace (fr_i run + 10 - fr_i run) with 10 by lia.
    rewrite app_assoc, Hperm, take_take_drop. reflexivity.
  - destruct (fr_pending run !! k) as [record|] eqn:Hk; [|discriminate].
    assert (Hin : record ∈ follows).
    { apply (subseteq_take (fr_i run)). rewrite <- Hperm.
      apply elem_of_app. right. eapply list_elem_of_lookup_2, Hk. }
    destruct (check_returns record Hin) as [res Hprobed].
    destruct (followCallback_answered record res (fr_tmpFollows run) st Hprobed)
      as (st1 & Hcb & HT1 & Hcount).
    rewrite Hcb in Hstep. injection Hstep as <- <-.
    assert (Hperm' : (completed ++ [record]) ++ delete k (fr_pending run)
                     ≡ₚ take (fr_i run) follows).
    { rewrite <- Hperm, <- app_assoc. apply Permutation_app_head. cbn.
      symmetry. apply delete_Permutation, Hk. }
    assert (Hlen : length completed < length follows).
    { pose proof (Permutation_length Hperm) as Hl.
      rewrite length_app, length_take in Hl.
      pose proof (lookup_lt_Some _ _ _ Hk). lia. }
    exists (completed ++ [record]), (results ++ [res]). cbn.
    split; [exact Hperm'|]. split.
    { apply Forall2_app; [exact Hres|]. constructor; [exact Hprobed|constructor]. }
    split.
    { rewrite zip_with_app by (eapply Forall2_length, Hres).
      rewrite omap_app, Htmp, HT. reflexivity. }
    split; [congruence|].
    destruct Hphase as [(_ & Hp & Hn & HF)|[(Hall & _)|Hzero]]; [|lia|lia].
    rewrite Hp, Hn in Hcount. rewrite length_app. cbn [length].
    destruct (Nat.eqb_spec (length completed + 1) (length follows)) as [Heq|Hne].
    + right. left. split; [exact Heq|]. split; [lia|]. rewrite HT in Hcount |- *. exact Hcount.
    + left. destruct Hcount as (HF1 & Hp1 & Hn1).
      split; [lia|]. split; [lia|]. split; [lia|]. congruence.
Qed.

Lemma FollowInv_steps (schedule : list Choice) (run run' : FollowRun) (st st' : State) :
  FollowInv check follows T0 F0 run st ->
  followSteps check follows schedule run st = Some (run', st') ->
  FollowInv check follows T0 F0 run' st'.
Proof.
  revert run st. induction schedule as [|c schedule IH]; intros run st Hinv; cbn.
  - intros [= <- <-]. exact Hinv.
  - destruct (followStep check follows c run st) as [[run1 st1]|] eqn:Hstep; [|discriminate].
    apply IH. eapply FollowInv_step; eassumption.
Qed.

Lemma FollowInv_start (st0 : State) :
  progress st0 = 0 -> itemCount st0 = length follows ->
  followRecords st0 = F0 -> followToggleStates st0 = T0 ->
  FollowInv check follows T0 F0 {| fr_i := 0; fr_pending := []; fr_tmpFollows := [] |} st0.
Proof.
  intros Hp Hn HF HT. exists [], []. cbn.
  split; [reflexivity|]. split; [constructor|]. split; [reflexivity|].
  split; [exact HT|]. destruct (length follows) eqn:E; [right; right; reflexivity|].
  left. split; [lia|]. auto.
Qed.

(** When every probe was launched and answered, the published records are
    those of the follow records whose probe gave a status. *)
Lemma FollowInv_done (run : FollowRun) (st : State) (record : RepoRecord) :
  FollowInv check follows T0 F0 run st ->
  followDone follows run ->
  record ∈ follows ->
  presentIn record (followRecords st)
  <-> exists res, probed check (rec_subject record) res /\ is_Some (res_status res).
Proof.
  intros (completed & results & Hperm & Hres & Htmp & HT & Hphase) [Hi Hpending] Hin.
  rewrite Hpending, app_nil_r, take_ge in Hperm by exact Hi.
  pose proof (Permutation_length Hperm) as Hlen.
  assert (Hpos : 0 < length follows).
  { destruct follows; [inversion Hin|cbn; lia]. }
  destruct Hphase as [(Hlt & _)|[(_ & _ & HF)|Hzero]]; [lia| |lia].
  rewrite HF, Htmp. unfold presentIn. split.
  - intros (a & Ha & Hdid & Huri).
    apply list_elem_of_omap in Ha as ([r' res'] & Hzip & Hrec). cbn in Hrec.
    apply followRecordOf_Some in Hrec as (Hs & Hdid' & _).
    exists res'. split; [|exact Hs].
    pose proof (Forall2_zip_elem _ _ _ _ _ Hres Hzip) as Hp. cbn in Hp.
    rewrite <- Hdid, Hdid'. exact Hp.
  - intros (res & Hp & Hs).
    assert (Hc : record ∈ completed) by (rewrite Hperm; exact Hin).
    destruct (Forall2_zip_left _ _ _ _ Hres Hc) as (res' & Hzip & Hp').
    rewrite (probed_inj _ _ _ _ Hp' Hp) in Hzip.
    destruct (followRecordOf_defined T0 record res Hs) as [a Ha].
    exists a. split.
    + apply list_elem_of_omap. exists (record, res). split; [exact Hzip|exact Ha].
    + apply followRecordOf_Some in Ha as (_ & Hdid & Huri). split; assumption.
Qed.

End FollowMode.

Lemma follow_run_output (check : string -> Async ProfileCheckResult)
    {P : Type} (w : World P) (fuel : nat) (st st0 st' : State)
    (follows : list RepoRecord) (schedule : list Choice) (run : FollowRun)
    (record : RepoRecord) :
  (forall did, exists o reqs, forall st, check did st = (o, send reqs st)) ->
  (forall r, r ∈ follows ->
             exists res st1 st2, check (rec_subject r) st1 = (Returns res, st2)) ->
  fetchHiddenAccounts_follows w fuel st = (Returns follows, st0) ->
  followSteps check follows schedule noRun st0 = Some (run, st') ->
  followDone follows run ->
  record ∈ follows ->
  presentIn record (followRecords st')
  <-> exists res st1 st2,
        check (rec_subject record) st1 = (Returns res, st2) /\ is_Some (res_status res).
Proof.
  intros Hpure Hret Hstart Hsteps Hdone Hin.
  apply fetchHiddenAccounts_follows_start in Hstart as (Hp & Hn & _ & _).
  assert (Hret' : forall r, r ∈ follows -> exists res, probed check (rec_subject r) res).
  { intros r Hr. destruct (Hret r Hr) as (res & st1 & st2 & Hrun).
    exists res. eapply pure_probed; [apply Hpure|exact Hrun]. }
  pose proof (FollowInv_start check follows (followToggleStates st0) (followRecords st0)
                st0 Hp Hn eq_refl eq_refl) as Hinv.
  pose proof (FollowInv_steps check Hpure follows _ _ Hret' schedule _ _ _ _ Hinv Hsteps)
    as Hinv'.
  rewrite (FollowInv_done check follows _ _ Hret' run st' record Hinv' Hdone Hin).
  split.
  - intros (res & Hprobed & Hs). destruct (Hprobed initialState) as [st2 Hrun].
    exists res, initialState, st2. split; [exact Hrun|exact Hs].
  - intros (res & st1 & st2 & Hrun & Hs). exists res. split; [|exact Hs].
    eapply pure_probed; [apply Hpure|exact Hrun].
Qed.

(** Scenario A: the output holds the second and the third account,
    deactivated and deleted, and not the first. *)
Example scenario_A :
  exists run st',
    Part000Engine.followSteps worldA threeFollows scheduleA noRun
      (fetchHiddenAccounts_follows worldA 0 initialState).2 = Some (run, st')
    /\ (fun a => (ar_did a, ar_status_label a)) <$> followRecords st'
       = [("did:plc:z", "Deleted"); ("did:plc:y", "Deactivated")].
Proof. eexists _, _. split; [vm_compute; reflexivity|]. vm_compute. reflexivity. Qed.

(** Every follow-mode run can finish: launching all probes and answering
    them in turn is a schedule. *)
Lemma followSteps_app (check : string -> Async ProfileCheckResult)
    (follows : list RepoRecord) (s1 s2 : list Choice) (run : FollowRun) (st : State) :
  followSteps check follows (s1 ++ s2) run st
  = match followSteps check follows s1 run st with
    | Some (run', st') => followSteps check follows s2 run' st'
    | None => None
    end.
Proof.
  revert run st. induction s1 as [|c s1 IH]; intros run st; cbn; [reflexivity|].
  destruct (followStep check follows c run st) as [[run1 st1]|]; [apply IH|reflexivity].
Qed.

Lemma follow_launch_all (check : string -> Async ProfileCheckResult)
    (follows : list RepoRecord) (m : nat) (run : FollowRun) (st : State) :
  length follows - fr_i run <= m ->
  exists schedule run',
    followSteps check follows schedule run st = Some (run', st)
    /\ length follows <= fr_i run'.
Proof.
  revert run. induction m as [|m IH]; intros run Hm.
  - exists [], run. split; [reflexivity|lia].
  - destruct (Nat.ltb_spec (fr_i run) (length follows)) as [Hlt|Hge].
    + destruct (IH {| fr_i := fr_i run + 10;
                      fr_pending := fr_pending run
                                    ++ slice (fr_i run) (fr_i run + 10) follows;
                      fr_tmpFollows := fr_tmpFollows run |})
        as (schedule & run' & Hrun & Hi); [cbn; lia|].
      exists (Launch :: schedule), run'. split; [|exact Hi].
      cbn [followSteps followStep]. rewrite (proj2 (Nat.ltb_lt _ _) Hlt). exact Hrun.
    + exists [], run. split; [reflexivity|exact Hge].
Qed.

Lemma follow_answer_all (check : string -> Async ProfileCheckResult)
    (follows : list RepoRecord) (m : nat) (run : FollowRun) (st : State) :
  length (fr_pending run) = m ->
  exists schedule run' st',
    followSteps check follows schedule run st = Some (run', st')
    /\ fr_i run' = fr_i run /\ fr_pending run' = [].
Proof.
  revert run st. induction m as [|m IH]; intros run st Hm.
  - exists [], run, st. split; [reflexivity|]. split; [reflexivity|].
    destruct (fr_pending run); [reflexivity|discriminate].
  - destruct (fr_pending run) as [|record rest] eqn:Hp; [discriminate|].
    assert (Hstep : exists run1 st1,
               followStep check follows (Complete 0) run st = Some (run1, st1)
               /\ fr_i run1 = fr_i run /\ fr_pending run1 = rest).
    { cbn [followStep]. rewrite Hp. cbn [lookup list_lookup delete list_delete].
      destruct (followCallback check record (fr_tmpFollows run) st) as [[tmp|msg|] st1];
        eexists _, _; (split; [reflexivity|]); split; reflexivity. }
    destruct Hstep as (run1 & st1 & Hstep & Hi1 & Hp1).
    destruct (IH run1 st1) as (schedule & run' & st' & Hrun & Hi & Hnil).
    { rewrite Hp1. cbn in Hm. lia. }
    exists (Complete 0 :: schedule), run', st'. cbn [followSteps]. rewrite Hstep.
    split; [exact Hrun|]. split; [congruence|exact Hnil].
Qed.

Lemma follow_run_can_finish (check : string -> Async ProfileCheckResult)
    (follows : list RepoRecord) (st0 : State) :
  exists schedule run st',
    followSteps check follows schedule noRun st0 = Some (run, st')
    /\ followDone follows run.
Proof.
  destruct (follow_launch_all check follows (length follows) noRun st0)
    as (s1 & run1 & H1 & Hi1); [lia|].
  destruct (follow_answer_all check follows (length (fr_pending run1)) run1 st0 eq_refl)
    as (s2 & run2 & st2 & H2 & Hi2 & Hnil).
  exists (s1 ++ s2), run2, st2. rewrite followSteps_app, H1.
  split; [exact H2|]. split; [lia|exact Hnil].
Qed.

(** X25: in [src/unnamed/part_000], every follow-mode run can be brought to
    its end, and in a run in which every probe was launched and answered, in
    whatever order, a follow record is present in the published output
    exactly when the classifier returned a defined status for its subject:
    a healthy account never appears. *)
Theorem Part000_follow_output_iff_status (w : World XrpcResponse) (fuel : nat)
    (st st0 : State) (follows : list RepoRecord) :
  fetchHiddenAccounts_follows w fuel st = (Returns follows, st0) ->
  (exists schedule run st',
      Part000Engine.followSteps w follows schedule noRun st0 = Some (run, st')
      /\ followDone follows run)
  /\ forall (schedule : list Choice) (run : FollowRun) (st' : State) (record : RepoRecord),
       Part000Engine.followSteps w follows schedule noRun st0 = Some (run, st') ->
       followDone follows run ->
       record ∈ follows ->
       presentIn record (followRecords st')
       <-> exists res st1 st2,
             Part000.checkProfileStatus w (rec_subject record) st1 = (Returns res, st2)
             /\ is_Some (res_status res).
Proof.
  intros Hstart. split.
  - apply (follow_run_can_finish (Part000.checkProfileStatus w) follows st0).
  - intros schedule run st' record Hsteps Hdone Hin.
    apply (follow_run_output (Part000.checkProfileStatus w) w fuel st st0 st' follows
             schedule run record); try assumption.
    + intros did. destruct (Part000_checkProfileStatus_pure w did) as (res & reqs & H).
      exists (Returns res), reqs. exact H.
    + intros r _. destruct (Part000_checkProfileStatus_pure w (rec_subject r))
        as (res & reqs & H).
      exists res, initialState, (send reqs initialState). apply H.
Qed.

Lemma Part000_follow_output_iff_status_witness :
  exists run st',
    Part000Engine.followSteps worldA threeFollows scheduleA noRun
      (fetchHiddenAccounts_follows worldA 0 initialState).2 = Some (run, st')
    /\ presentIn (followOf "y") (followRecords st')
    /\ ~ presentIn (followOf "x") (followRecords st').
Proof.
  set (st0 := (fetchHiddenAccounts_follows worldA 0 initialState).2).
  assert (Hstart : fetchHiddenAccounts_follows worldA 0 initialState
                   = (Returns threeFollows, st0)) by (vm_compute; reflexivity).
  destruct (Part000Engine.followSteps worldA threeFollows scheduleA noRun st0)
    as [[run st']|] eqn:Hsteps; [|vm_compute in Hsteps; discriminate].
  assert (Hdone : followDone threeFollows run).
  { pose proof Hsteps as Hrun. vm_compute in Hrun. injection Hrun as <- _.
    split; [cbn; lia|reflexivity]. }
  exists run, st'. split; [reflexivity|]. split.
  - apply (proj2 (Part000_follow_output_iff_status worldA 0 initialState st0 threeFollows
                    Hstart) scheduleA run st' (followOf "y") Hsteps Hdone).
    + in_list.
    + eexists _, initialState, _. split; [vm_compute; reflexivity|].
      eexists. reflexivity.
  - intros Hx.
    apply (proj2 (Part000_follow_output_iff_status worldA 0 initialState st0 threeFollows
                    Hstart) scheduleA run st' (followOf "x") Hsteps Hdone) in Hx
      as (res & st1 & st2 & Hrun & [s Hs]); [|in_list].
    rewrite (Part000_checkProfileStatus_ok worldA (rec_subject (followOf "x")) st1
               (healthyProfile "did:plc:x" "x.test") noViewer
               eq_refl eq_refl eq_refl eq_refl) in Hrun.
    injection Hrun as <- _. discriminate Hs.
Defined.

(** ** Block mode *)

(** The probing loop of block mode keeps one record per candidate, in
    order, when every probe returns. *)
Lemma analyzeBlocks_all (check : string -> Async ProfileCheckResult)
    (mk : gmap Z bool -> BlockRef -> ProfileCheckResult -> AccountRecord)
    (blocks : list BlockRef) (i : nat) (tmpBlocks : list AccountRecord) (st : State) :
  (forall did, exists res reqs, forall st, check did st = (Returns res, send reqs st)) ->
  exists records st',
    analyzeBlocks check mk i blocks tmpBlocks st = (Returns (tmpBlocks ++ records), st')
    /\ Forall2 (fun block a => exists toggles res, a = mk toggles block res) blocks records.
Proof.
  intros Hcheck. revert i tmpBlocks st.
  induction blocks as [|block rest IH]; intros i tmpBlocks st; cbn [analyzeBlocks].
  - exists [], st. rewrite app_nil_r. split; [reflexivity|constructor].
  - destruct (Hcheck (br_did block)) as (res & reqs & Hres). run. rewrite Hres.
    destruct (IH (S i) (tmpBlocks ++ [mk (blockToggleStates st) block res])
                (send reqs (setProgress (i + 1) st))) as (records & st' & Hrun & Hall).
    exists (mk (blockToggleStates st) block res :: records), st'. split.
    + cbn. rewrite Hrun, <- app_assoc. reflexivity.
    + constructor; [eexists _, res; reflexivity|exact Hall].
Qed.

(** In [src/unnamed/part_000], block mode keeps every candidate, whatever
    its classification, with one of the four statuses of block mode. *)
Lemma Part000_block_mode_output (w : World XrpcResponse) (fuel : nat) (st st1 : State)
    (candidates : list BlockRef) :
  Part000Engine.blockCandidates w fuel (setProgress 0 st) = (Returns candidates, st1) ->
  exists st',
    Part000Engine.fetchHiddenAccounts_blocks w fuel st = (Returns tt, st')
    /\ Forall2 (fun block a =>
                  ar_did a = br_did block /\ ar_uri a = br_uri block
                  /\ blockModeStatus (ar_status a))
         candidates (blockRecords st').
Proof.
  intros Hc. unfold Part000Engine.fetchHiddenAccounts_blocks, fetchHiddenAccounts_blocks.
  unfold Part000Engine.blockCandidates in Hc. run. rewrite Hc.
  destruct (analyzeBlocks_all (Part000.checkProfileStatus w) Part000Records.blockRecordOf
              candidates 0 []
              (setGlobalNotice "Analyzing blocked accounts..."
                 (setItemCount (length candidates) st1))
              (Part000_checkProfileStatus_pure w))
    as (records & st' & Hrun & Hall).
  rewrite Hrun. eexists. split; [reflexivity|]. cbn.
  eapply Forall2_impl; [exact Hall|].
  intros block a (toggles & res & ->). cbn. repeat split. apply blockModeStatus_Part000.
Qed.

(** Two block records for the same subject are both kept out of the
    candidates when the subject is in the live block list, although the
    private set of [fetchBlocks] forgets the subject after the first. *)
Example duplicate_block_records :
  exists st3,
    blockCandidates
      (smallWorld (fun _ => Rejected) [blockOf "b"; blockOf "b"; blockOf "a"]
         [ {| bv_did := "did:plc:b" |} ] [])
      true 1 initialState
    = (Returns [ {| br_did := "did:plc:a";
                    br_uri := "at://did:plc:me/app.bsky.graph.block/a" |} ], st3).
Proof. eexists. vm_compute. reflexivity. Qed.

(** * Further properties *)

(** ** Identity documents *)

Lemma split_single_none (c : ascii) (s cur : string) :
  includes (String c EmptyString) s = false ->
  split_go (String c EmptyString) 0 cur s = [cur +:+ s].
Proof.
  revert cur. induction s as [|a t IH]; intros cur Hno.
  - cbn. rewrite append_empty_r. reflexivity.
  - cbn [includes startsWith] in Hno. cbn [split_go startsWith].
    destruct (Ascii.eqb c a); [discriminate|].
    rewrite IH, append_snoc; [reflexivity|]. destruct t; exact Hno.
Qed.

Lemma split_single_app (c : ascii) (a b cur : string) :
  includes (String c EmptyString) a = false ->
  split_go (String c EmptyString) 0 cur (a +:+ String c b)
  = (cur +:+ a) :: split_go (String c EmptyString) 0 EmptyString b.
Proof.
  revert cur. induction a as [|x a IH]; intros cur Hno.
  - change (EmptyString +:+ String c b) with (String c b).
    cbn [split_go startsWith]. rewrite Ascii.eqb_refl, append_empty_r.
    reflexivity.
  - cbn [includes startsWith] in Hno. rewrite append_cons. cbn [split_go startsWith].
    destruct (Ascii.eqb c x); [discriminate|].
    rewrite IH, append_snoc; [reflexivity|]. destruct a; exact Hno.
Qed.

Lemma split_slashes_none (s cur : string) :
  includes "/" s = false -> split_go "//" 0 cur s = [cur +:+ s].
Proof.
  revert cur. induction s as [|a t IH]; intros cur Hno.
  - cbn. rewrite append_empty_r. reflexivity.
  - cbn [includes startsWith] in Hno. cbn [split_go startsWith].
    destruct (Ascii.eqb "/" a); [discriminate|].
    rewrite IH, append_snoc; [reflexivity|]. destruct t; exact Hno.
Qed.

Lemma firstAtAlias_first (pre post : list string) (alias : string) :
  Forall (fun a => includes "at://" a = false) pre ->
  includes "at://" alias = true ->
  firstAtAlias (pre ++ alias :: post) = Some (split "//" alias !! 1).
Proof.
  intros Hpre Ha. induction Hpre as [|a pre Hno _ IH]; cbn.
  - rewrite Ha. reflexivity.
  - rewrite Hno. exact IH.
Qed.

Lemma firstAtAlias_none (aliases : list string) :
  Forall (fun a => includes "at://" a = false) aliases -> firstAtAlias aliases = None.
Proof.
  induction 1 as [|a l Hno _ IH]; cbn; [reflexivity|]. rewrite Hno. exact IH.
Qed.

Lemma at_alias_handle (h : string) :
  includes "/" h = false -> split "//" ("at://" +:+ h) !! 1 = Some h.
Proof.
  intros Hno. change (split "//" ("at://" +:+ h)) with ("at:" :: split_go "//" 0 "" h).
  rewrite split_slashes_none by exact Hno. reflexivity.
Qed.

(** X1: the handle is read from the first alias of the identity document that
    contains [at://]: for an alias [at://h] where [h] has no slash, both
    versions of [resolveDid] give [h], after one request for the document. *)
Theorem resolveDid_handle {P : Type} (w : World P) (did : string) (st : State)
    (pre post : list string) (h : string) :
  fetchDidDoc w (didDocUrl did) = DidDoc (Some (pre ++ ("at://" +:+ h) :: post)) ->
  Forall (fun a => includes "at://" a = false) pre ->
  includes "/" h = false ->
  App.resolveDid w did st = (Returns (Some h), send [FetchDidDoc (didDocUrl did)] st)
  /\ Part000.resolveDid w did st
     = (Returns (Some h), send [FetchDidDoc (didDocUrl did)] st).
Proof.
  intros Hdoc Hpre Hno.
  assert (Hfirst : firstAtAlias (pre ++ ("at://" +:+ h) :: post) = Some (Some h)).
  { rewrite firstAtAlias_first by (exact Hpre || reflexivity).
    rewrite at_alias_handle by exact Hno. reflexivity. }
  unfold App.resolveDid, Part000.resolveDid. run. rewrite Hdoc, Hfirst. split; reflexivity.
Qed.

Lemma resolveDid_handle_witness :
  let w := {| agentDID := "did:plc:me";
              getProfile := fun _ => Rejected;
              getBlocks := fun _ _ => onePage [];
              listRecords := fun _ _ _ _ => onePage [];
              fetchDidDoc := fun _ =>
                DidDoc (Some ["https://alice.example"; "at://alice.test"]);
              applyWrites := fun _ _ => true |} in
  App.resolveDid w "did:plc:alice" initialState
  = (Returns (Some "alice.test"),
     send [FetchDidDoc "https://plc.directory/did:plc:alice"] initialState).
Proof.
  intros w.
  refine (proj1 (resolveDid_handle w "did:plc:alice" initialState
                   ["https://alice.example"] [] "alice.test" eq_refl _ eq_refl)).
  constructor; [reflexivity|constructor].
Defined.

(** X2: when the identity document cannot be fetched or parsed, or has no alias
    with [at://], [resolveDid] of [src/src/App.tsx] gives a falsy handle, so
    that a record falls back to the handle [[Unknown Handle]], while
    [resolveDid] of [src/unnamed/part_000] gives a placeholder in brackets
    that is kept as the handle. *)
Theorem resolveDid_unresolved {P : Type} (w : World P) (did : string) (st : State) :
  fetchDidDoc w (didDocUrl did) = FetchRejected
  \/ fetchDidDoc w (didDocUrl did) = JsonRejected
  \/ fetchDidDoc w (didDocUrl did) = DidDoc None
  \/ (exists aliases,
         fetchDidDoc w (didDocUrl did) = DidDoc (Some aliases)
         /\ Forall (fun a => includes "at://" a = false) aliases) ->
  (exists h st',
      App.resolveDid w did st = (Returns h, st')
      /\ or_str h "[Unknown Handle]" = "[Unknown Handle]")
  /\ (exists p st',
         Part000.resolveDid w did st = (Returns (Some p), st')
         /\ or_str (Some p) "[Unknown Handle]" = p
         /\ (p = "[Failed to resolve: " +:+ substring0 15 did +:+ "...]"
             \/ p = "[Parse error: " +:+ substring0 15 did +:+ "...]"
             \/ p = "[No handle found]")).
Proof.
  unfold App.resolveDid, Part000.resolveDid. run.
  intros [H|[H|[H|(aliases & H & Hno)]]]; rewrite H;
    try rewrite (firstAtAlias_none aliases Hno);
    (split; [eexists _, _; split; reflexivity|]);
    eexists _, _; (split; [reflexivity|]); (split; [reflexivity|]); auto.
Qed.

Lemma resolveDid_unresolved_witness :
  exists p st',
    Part000.resolveDid (smallWorld (fun _ => Rejected) [] [] []) "did:plc:abcdefghijklmnop"
      initialState = (Returns (Some p), st')
    /\ p = "[Failed to resolve: did:plc:abcdefg...]".
Proof.
  destruct (proj2 (resolveDid_unresolved (smallWorld (fun _ => Rejected) [] [] [])
                     "did:plc:abcdefghijklmnop" initialState (or_introl eq_refl)))
    as (p & st' & Hrun & _ & _).
  exists p, st'. split; [exact Hrun|].
  vm_compute in Hrun. injection Hrun as <- _. reflexivity.
Defined.

Lemma didDocUrl_host (host : string) :
  includes ":" host = false ->
  didDocUrl ("did:web:" +:+ host) = "https://" +:+ host +:+ "/.well-known/did.json".
Proof.
  intros Hhost. unfold didDocUrl.
  change (startsWith "did:web" ("did:web:" +:+ host)) with true. cbv iota.
  change (split ":" ("did:web:" +:+ host))
    with ("did" :: "web" :: split_go ":" 0 "" host).
  rewrite (split_single_none ":" host) by exact Hhost. reflexivity.
Qed.

(** X3: where the identity document is read: for [did:web] the host is the
    third segment of the identifier, whatever follows it; an identifier that
    starts with [did:web] and has no third segment is looked up on the host
    [undefined]; any other identifier is looked up in the PLC directory. *)
Theorem didDocUrl_cases (host rest x did : string) :
  includes ":" host = false ->
  includes ":" x = false ->
  startsWith "did:web" did = false ->
  didDocUrl ("did:web:" +:+ host) = "https://" +:+ host +:+ "/.well-known/did.json"
  /\ didDocUrl ("did:web:" +:+ host +:+ ":" +:+ rest)
     = "https://" +:+ host +:+ "/.well-known/did.json"
  /\ didDocUrl ("did:web" +:+ x) = "https://undefined/.well-known/did.json"
  /\ didDocUrl did = "https://plc.directory/" +:+ did.
Proof.
  intros Hhost Hx Hdid. unfold didDocUrl. rewrite Hdid.
  change (startsWith "did:web" ("did:web:" +:+ host)) with true.
  change (startsWith "did:web" ("did:web:" +:+ host +:+ ":" +:+ rest)) with true.
  change (startsWith "did:web" ("did:web" +:+ x)) with true.
  cbv iota.
  change (split ":" ("did:web:" +:+ host))
    with ("did" :: "web" :: split_go ":" 0 "" host).
  change (split ":" ("did:web:" +:+ host +:+ ":" +:+ rest))
    with ("did" :: "web" :: split_go ":" 0 "" (host +:+ String ":" rest)).
  change (split ":" ("did:web" +:+ x)) with ("did" :: split_go ":" 0 "web" x).
  rewrite (split_single_none ":" host) by exact Hhost.
  rewrite (split_single_app ":" host rest) by exact Hhost.
  rewrite (split_single_none ":" x) by exact Hx.
  repeat split.
Qed.

Lemma didDocUrl_cases_witness :
  didDocUrl "did:web:example.com:user:alice" = "https://example.com/.well-known/did.json"
  /\ didDocUrl "did:plc:alice" = "https://plc.directory/did:plc:alice".
Proof.
  destruct (didDocUrl_cases "example.com" "user:alice" "" "did:plc:alice"
              eq_refl eq_refl eq_refl) as (_ & H2 & _ & H4).
  split; [exact H2|exact H4].
Defined.

(** X4: the link shown with a record opens the document that [resolveDid]
    reads when the identifier is [did:web] with a host only; with further
    segments the link keeps them in the host, where [resolveDid] drops them.
    For [did:plc] the link goes to the web view of the directory. *)
Theorem didDocLink_cases (host rest : string) :
  includes ":" host = false ->
  didDocLink ("did:web:" +:+ host) = didDocUrl ("did:web:" +:+ host)
  /\ didDocLink ("did:web:" +:+ host +:+ ":" +:+ rest)
     = "https://" +:+ (host +:+ ":" +:+ rest) +:+ "/.well-known/did.json"
  /\ didDocLink ("did:plc:" +:+ rest) = "https://web.plc.directory/did/did:plc:" +:+ rest.
Proof.
  intros Hhost.
  rewrite (didDocUrl_host host Hhost).
  repeat split.
Qed.

Lemma didDocLink_cases_witness :
  didDocLink "did:web:example.com" = didDocUrl "did:web:example.com".
Proof.
  exact (proj1 (didDocLink_cases "example.com" "" eq_refl)).
Defined.

(** ** Classifier: requests and exceptions *)

(** X5: the classifier of [src/unnamed/part_000] returns in every case, after
    the profile request alone when that request was answered, and after the
    profile request and the request for the identity document when it
    threw. *)
Theorem Part000_classifier_returns (w : World XrpcResponse) (did : string) (st : State) :
  exists res,
    Part000.checkProfileStatus w did st
    = (Returns res,
       send (GetProfile did
             :: match getProfile w did with
                | XrpcThrows _ => [FetchDidDoc (didDocUrl did)]
                | XrpcResolves _ => []
                end) st).
Proof.
  unfold Part000.checkProfileStatus. run.
  destruct (getProfile w did) as [e|[data|]].
  - destruct (Part000_resolveDid_pure w did) as [h Hh].
    rewrite Hh, send_send. eexists. reflexivity.
  - destruct (negb (truthy_str (pv_did data)) || negb (truthy_str (pv_handle data)));
      eexists; reflexivity.
  - eexists. reflexivity.
Qed.

(** X6: the classifier of [src/src/App.tsx] throws exactly when the profile
    request is rejected, or the profile has no [!hide] label and either no
    viewer, or a viewer that is not blocked by the subject and no
    identifier; in every other case it returns. *)
Theorem App_classifier_throws (w : World ClientResponse) (did : string) (st : State) :
  ((exists msg st', App.checkProfileStatus w did st = (Throws msg, st'))
   <-> getProfile w did = Rejected
       \/ exists data,
            getProfile w did = Ok data
            /\ ~ labelled "!hide" data
            /\ (pv_viewer data = None
                \/ exists viewer,
                     pv_viewer data = Some viewer
                     /\ ~ viewerBlockedBy viewer /\ pv_did data = None))
  /\ ((exists res st', App.checkProfileStatus w did st = (Returns res, st'))
      \/ exists msg st', App.checkProfileStatus w did st = (Throws msg, st')).
Proof.
  unfold App.checkProfileStatus. run.
  destruct (getProfile w did) as [|httpStatus e|data] eqn:Hp.
  - split; [|right; eexists _, _; reflexivity].
    split; [intros _; left; reflexivity|intros _; eexists _, _; reflexivity].
  - destruct (App_resolveDid_pure w did) as [h Hh]. rewrite Hh.
    split; [|left; eexists _, _; reflexivity].
    split; [intros (msg & st' & [=])|].
    intros [[=]|(data & [=] & _)].
  - pose proof (hasHideLabel_spec data) as Hhide.
    destruct (hasHideLabel (pv_labels data)).
    { split; [|left; eexists _, _; reflexivity].
      split; [intros (msg & st' & [=])|].
      intros [[=]|(data' & [= <-] & Hno & _)]. exfalso. apply Hno, Hhide. reflexivity. }
    assert (Hnohide : ~ labelled "!hide" data) by (intros H; apply Hhide in H; discriminate).
    destruct (pv_viewer data) as [viewer|] eqn:Hv.
    2:{ split; [|right; eexists _, _; reflexivity].
        split; [|intros _; eexists _, _; reflexivity].
        intros _. right. exists data. auto. }
    pose proof (truthy_bool_spec viewer) as Hblocked.
    destruct (truthy_bool (blockedBy viewer)).
    { split; [|left; eexists _, _; reflexivity].
      split; [intros (msg & st' & [=])|].
      intros [[=]|(data' & [= <-] & _ & [Hv'|(viewer' & Hv' & Hnb & _)])];
        [congruence|].
      assert (viewer' = viewer) as -> by congruence.
      exfalso. apply Hnb, Hblocked. reflexivity. }
    assert (Hnb : ~ viewerBlockedBy viewer) by (intros H; apply Hblocked in H; discriminate).
    destruct (pv_did data) as [d|] eqn:Hd.
    2:{ split; [|right; eexists _, _; reflexivity].
        split; [|intros _; eexists _, _; reflexivity].
        intros _. right. exists data. split; [reflexivity|]. split; [exact Hnohide|].
        right. exists viewer. auto. }
    destruct (includes (agentDID w) d); [|destruct (viewerBlocks viewer)];
      (split; [|left; eexists _, _; reflexivity]);
      (split; [intros (msg & st' & [=])|]);
      intros [[=]|(data' & [= <-] & _ & [Hv'|(viewer' & _ & _ & Hd')])]; congruence.
Qed.

(** X7: a profile without a viewer object: [src/unnamed/part_000] skips every
    test and classifies the account as healthy, even with a [!hide] label;
    [src/src/App.tsx] gives [HIDDEN] when the label is there and throws
    otherwise. *)
Theorem missing_viewer (w : World XrpcResponse) (w' : World ClientResponse)
    (did : string) (st : State) (data : ProfileViewDetailed) :
  getProfile w did = XrpcResolves (Some data) ->
  getProfile w' did = Ok data ->
  truthy_str (pv_did data) = true -> truthy_str (pv_handle data) = true ->
  pv_viewer data = None ->
  Part000.checkProfileStatus w did st
  = (Returns {| res_handle := pv_handle data; res_status := None; res_error := None |},
     send [GetProfile did] st)
  /\ (labelled "!hide" data ->
      App.checkProfileStatus w' did st
      = (Returns {| res_handle := pv_handle data;
                    res_status := Some RepoStatus.HIDDEN;
                    res_error := None |},
         send [GetProfile did] st))
  /\ (~ labelled "!hide" data ->
      exists msg, App.checkProfileStatus w' did st = (Throws msg, send [GetProfile did] st)).
Proof.
  intros Hp Hp' Hd Hh Hv. unfold Part000.checkProfileStatus, App.checkProfileStatus. run.
  rewrite Hp, Hp', Hd, Hh, Hv. cbn.
  pose proof (hasHideLabel_spec data) as Hhide.
  split; [reflexivity|]. split.
  - intros H. apply Hhide in H. rewrite H. reflexivity.
  - intros H. destruct (hasHideLabel (pv_labels data)).
    + exfalso. apply H, Hhide. reflexivity.
    + eexists. reflexivity.
Qed.

Lemma missing_viewer_witness :
  Part000.checkProfileStatus (smallWorld (fun _ => XrpcResolves (Some profileNoViewer)) [] [] [])
    "did:plc:carol" initialState
  = (Returns {| res_handle := Some "carol.test"; res_status := None; res_error := None |},
     send [GetProfile "did:plc:carol"] initialState).
Proof.
  exact (proj1 (missing_viewer
                  (smallWorld (fun _ => XrpcResolves (Some profileNoViewer)) [] [] [])
                  (smallWorld (fun _ => Ok profileNoViewer) [] [] [])
                  "did:plc:carol" initialState profileNoViewer
                  eq_refl eq_refl eq_refl eq_refl eq_refl)).
Defined.

(** ** Follow mode: what is published, and when *)

Lemma filter_take_length {A : Type} (Q : A -> Prop) `{!forall x, Decision (Q x)}
    (i : nat) (l : list A) :
  length (filter Q (take i l)) <= length (filter Q l).
Proof.
  rewrite <- (take_drop i l) at 2. rewrite filter_app, length_app. lia.
Qed.

Section FollowRuns.
Context (check : string -> Async ProfileCheckResult).
Hypothesis check_pure : forall did, exists o reqs, forall st, check did st = (o, send reqs st).
Context (follows : list RepoRecord) (st0 : State).

Lemma probe_spec (did : string) (st : State) :
  exists reqs, check did st = (probe check did, send reqs st).
Proof.
  destruct (check_pure did) as (o & reqs & Hpure). exists reqs.
  unfold probe. rewrite !Hpure. reflexivity.
Qed.

(** The callback of a probe that returned counts one more answer and
    publishes when the count reaches the item count; the callback of a
    probe that threw ends there, with nothing pushed or counted. *)
Lemma followCallback_run (record : RepoRecord) (tmpFollows : list AccountRecord)
    (st : State) :
  exists reqs,
    followCallback check record tmpFollows st
    = match probe check (rec_subject record) with
      | Returns res =>
          let tmpFollows' :=
            tmpFollows ++ option_list (followRecordOf (followToggleStates st) record res) in
          (Returns tmpFollows',
           if progress st + 1 =? itemCount st
           then setItemCount 0
                  (setProgress 0
                     (setFollowRecords (fun _ => tmpFollows')
                        (setGlobalNotice (followNotice tmpFollows')
                           (setProgress (progress st + 1) (send reqs st)))))
           else setProgress (progress st + 1) (send reqs st))
      | Throws msg => (Throws msg, send reqs st)
      | OutOfFuel => (OutOfFuel, send reqs st)
      end.
Proof.
  destruct (probe_spec (rec_subject record) st) as [reqs Hrun]. exists reqs.
  unfold followCallback. run. rewrite Hrun.
  destruct (probe check (rec_subject record)) as [res|msg|]; [|reflexivity|reflexivity].
  cbn. unfold followNotice.
  destruct (followRecordOf (followToggleStates st) record res) as [a|];
    cbn [option_list]; rewrite ?app_nil_r;
    destruct (progress st + 1 =? itemCount st); reflexivity.
Qed.

Lemma answered_le (completed pending : list RepoRecord) (i : nat) :
  completed ++ pending ≡ₚ take i follows ->
  length (filter (fun r => answers check r = true) completed) + length pending
  <= length follows
  /\ length (filter (fun r => answers check r = true) completed)
     <= length (filter (fun r => answers check r = true) follows).
Proof.
  intros Hperm. split.
  - pose proof (Permutation_length Hperm) as Hl.
    rewrite length_app, length_take in Hl.
    pose proof (length_filter (fun r => answers check r = true) completed). lia.
  - pose proof (filter_take_length (fun r => answers check r = true) i follows) as Hle.
    rewrite <- Hperm, filter_app, length_app in Hle. lia.
Qed.

Lemma FollowTrace_step (c : Choice) (run run' : FollowRun) (st st' : State) :
  FollowTrace check follows st0 run st ->
  followStep check follows c run st = Some (run', st') ->
  FollowTrace check follows st0 run' st'.
Proof.
  intros (completed & Hperm & Htmp & HT & HBT & HB & Hmode & Hphase) Hstep.
  destruct c as [|k]; cbn [followStep] in Hstep.
  - destruct (Nat.ltb_spec (fr_i run) (length follows)) as [Hlt|Hge]; [|discriminate].
    injection Hstep as <- <-. exists completed. cbn.
    split; [|auto 10].
    unfold slice. replace (fr_i run + 10 - fr_i run) with 10 by lia.
    rewrite app_assoc, Hperm, take_take_drop. reflexivity.
  - destruct (fr_pending run !! k) as [record|] eqn:Hk; [|discriminate].
    pose proof (lookup_lt_Some _ _ _ Hk) as Hpending.
    destruct (answered_le _ _ _ Hperm) as [Hbound _].
    assert (Hperm' : (completed ++ [record]) ++ delete k (fr_pending run)
                     ≡ₚ take (fr_i run) follows).
    { rewrite <- Hperm, <- app_assoc. apply Permutation_app_head. cbn.
      symmetry. apply delete_Permutation, Hk. }
    destruct Hphase as [(_ & Hp & Hn & HF & HN)|(Hall & _)]; [|lia].
    destruct (followCallback_run record (fr_tmpFollows run) st) as [reqs Hcb].
    rewrite Hcb in Hstep. clear Hcb.
    assert (Hans : answers check record
                   = match probe check (rec_subject record) with
                     | Returns _ => true | _ => false end) by reflexivity.
    assert (Hpush : pushed check (followToggleStates st0) record
                    = match probe check (rec_subject record) with
                      | Returns res => followRecordOf (followToggleStates st0) record res
                      | _ => None end) by reflexivity.
    exists (completed ++ [record]).
    rewrite filter_app, length_app, omap_app. cbn [omap list_omap filter list_filter].
    rewrite Hpush. clear Hpush.
    destruct (probe check (rec_subject record)) as [res|msg|];
      injection Hstep as <- <-; cbn [fr_i fr_pending fr_tmpFollows];
      (case_decide as Hd; [|try congruence]); try congruence; cbn [length].
    + rewrite Hp, Hn, HT.
      assert (Hlist : match followRecordOf (followToggleStates st0) record res with
                      | Some y => [y] | None => [] end
                      = option_list (followRecordOf (followToggleStates st0) record res)).
      { destruct (followRecordOf _ record res); reflexivity. }
      rewrite Hlist.
      destruct (Nat.eqb_spec
                  (length (filter (fun r => answers check r = true) completed) + 1)
                  (length follows)) as [Heq|Hne]; cbn.
      * split; [exact Hperm'|]. split; [rewrite Htmp; reflexivity|].
        split; [exact HT|]. split; [exact HBT|]. split; [exact HB|]. split; [exact Hmode|].
        right. split; [exact Heq|]. split; [lia|]. rewrite Htmp. auto.
      * split; [exact Hperm'|]. split; [rewrite Htmp; reflexivity|].
        split; [exact HT|]. split; [exact HBT|]. split; [exact HB|]. split; [exact Hmode|].
        left. split; [lia|]. split; [reflexivity|]. auto.
    + rewrite Nat.add_0_r, app_nil_r.
      cbn. split; [exact Hperm'|]. split; [exact Htmp|].
      split; [exact HT|]. split; [exact HBT|]. split; [exact HB|]. split; [exact Hmode|].
      left. split; [lia|]. auto.
    + rewrite Nat.add_0_r, app_nil_r.
      cbn. split; [exact Hperm'|]. split; [exact Htmp|].
      split; [exact HT|]. split; [exact HBT|]. split; [exact HB|]. split; [exact Hmode|].
      left. split; [lia|]. auto.
Qed.

Lemma FollowTrace_steps (schedule : list Choice) (run run' : FollowRun) (st st' : State) :
  FollowTrace check follows st0 run st ->
  followSteps check follows schedule run st = Some (run', st') ->
  FollowTrace check follows st0 run' st'.
Proof.
  revert run st. induction schedule as [|c schedule IH]; intros run st Hinv; cbn.
  - intros [= <- <-]. exact Hinv.
  - destruct (followStep check follows c run st) as [[run1 st1]|] eqn:Hstep; [|discriminate].
    apply IH. eapply FollowTrace_step; eassumption.
Qed.

Lemma FollowTrace_start :
  progress st0 = 0 -> itemCount st0 = length follows ->
  FollowTrace check follows st0 noRun st0.
Proof.
  intros Hp Hn. exists []. cbn.
  split; [reflexivity|]. do 5 (split; [reflexivity|]).
  left. split; [lia|]. auto.
Qed.

End FollowRuns.

(** Follow mode hands over to its probes with the notice on the analysis,
    the progress at zero, the item count at the number of follow records,
    and everything else as it was. *)
Lemma fetchHiddenAccounts_follows_state {P : Type} (w : World P) (fuel : nat)
    (st st0 : State) (follows : list RepoRecord) :
  fetchHiddenAccounts_follows w fuel st = (Returns follows, st0) ->
  progress st0 = 0 /\ itemCount st0 = length follows
  /\ globalNotice st0 = "Analyzing followed accounts..."
  /\ followRecords st0 = followRecords st
  /\ followToggleStates st0 = followToggleStates st
  /\ blockRecords st0 = blockRecords st
  /\ blockToggleStates st0 = blockToggleStates st
  /\ currentMode st0 = currentMode st.
Proof.
  unfold fetchHiddenAccounts_follows. run.
  destruct (fetchFollows_frame w fuel
              (setGlobalNotice "Fetching followed accounts..." (setProgress 0 st)))
    as (o & reqs & ->).
  destruct o as [l|m|]; [|discriminate|discriminate].
  intros [= <- <-]. repeat split.
Qed.

Lemma follow_run_trace (check : string -> Async ProfileCheckResult)
    {P : Type} (w : World P) (fuel : nat) (st st0 st' : State)
    (follows : list RepoRecord) (schedule : list Choice) (run : FollowRun) :
  (forall did, exists o reqs, forall st, check did st = (o, send reqs st)) ->
  fetchHiddenAccounts_follows w fuel st = (Returns follows, st0) ->
  followSteps check follows schedule noRun st0 = Some (run, st') ->
  FollowTrace check follows st0 run st'.
Proof.
  intros Hpure Hstart Hsteps.
  apply fetchHiddenAccounts_follows_state in Hstart as (Hp & Hn & _).
  eapply FollowTrace_steps; [exact Hpure| |exact Hsteps].
  apply FollowTrace_start; assumption.
Qed.

(** While a probe is still to be launched or to be answered, nothing of the
    run is visible in the stores. *)
Lemma follow_run_unpublished (check : string -> Async ProfileCheckResult)
    (follows : list RepoRecord) (st0 st' : State) (run : FollowRun) :
  FollowTrace check follows st0 run st' ->
  ~ followDone follows run ->
  followRecords st' = followRecords st0
  /\ globalNotice st' = globalNotice st0
  /\ itemCount st' = length follows
  /\ progress st' < length follows.
Proof.
  intros (completed & Hperm & _ & _ & _ & _ & _ & Hphase) Hnot.
  destruct (answered_le check follows _ _ _ Hperm) as [Hbound _].
  pose proof (Permutation_length Hperm) as Hl.
  rewrite length_app, length_take in Hl.
  pose proof (length_filter (fun r => answers check r = true) completed) as Hc.
  assert (Hlt : length (filter (fun r => answers check r = true) completed)
                < length follows).
  { destruct (Nat.lt_ge_cases (fr_i run) (length follows)) as [Hi|Hi]; [lia|].
    destruct (fr_pending run) as [|r pending] eqn:Hpending.
    - exfalso. apply Hnot. split; [exact Hi|exact Hpending].
    - cbn in Hl. lia. }
  destruct Hphase as [(_ & Hp & Hn & HF & HN)|(Hall & _)]; [|lia].
  rewrite Hp. auto.
Qed.

(** When every probe of a non-empty follow list was answered and returned,
    the shared array is published as it stands. *)
Lemma follow_run_published (check : string -> Async ProfileCheckResult)
    (follows : list RepoRecord) (st0 st' : State) (run : FollowRun) :
  FollowTrace check follows st0 run st' ->
  followDone follows run ->
  0 < length follows ->
  (forall r, r ∈ follows -> answers check r = true) ->
  exists completed,
    completed ≡ₚ follows
    /\ followRecords st' = omap (pushed check (followToggleStates st0)) completed
    /\ globalNotice st' = followNotice (followRecords st')
    /\ progress st' = 0 /\ itemCount st' = 0.
Proof.
  intros (completed & Hperm & Htmp & _ & _ & _ & _ & Hphase) [Hi Hpending] Hpos Hall.
  rewrite Hpending, app_nil_r, take_ge in Hperm by exact Hi.
  exists completed. split; [exact Hperm|].
  assert (Hc : filter (fun r => answers check r = true) completed = completed).
  { induction completed as [|r completed IH]; [reflexivity|].
    rewrite filter_cons_True.
    - f_equal. clear -Hperm Hall.
      assert (Hsub : forall x, x ∈ completed -> answers check x = true).
      { intros x Hx. apply Hall. rewrite <- Hperm. apply list_elem_of_further, Hx. }
      clear Hperm. induction completed as [|x completed IH]; [reflexivity|].
      rewrite filter_cons_True by apply Hsub, list_elem_of_here. f_equal.
      apply IH. intros y Hy. apply Hsub, list_elem_of_further, Hy.
    - apply Hall. rewrite <- Hperm. apply list_elem_of_here. }
  rewrite Hc in Hphase. pose proof (Permutation_length Hperm) as Hl.
  destruct Hphase as [([Hlt|Hz] & _)|(_ & _ & HF & Hp & Hn & HN)]; [lia|lia|].
  rewrite HF, <- Htmp. auto.
Qed.

Lemma Part000_answers (w : World XrpcResponse) (record : RepoRecord) :
  answers (Part000.checkProfileStatus w) record = true.
Proof.
  unfold answers, probe.
  destruct (Part000_checkProfileStatus_pure w (rec_subject record)) as (res & reqs & ->).
  reflexivity.
Qed.

Lemma Part000_checkProfileStatus_pure' (w : World XrpcResponse) (did : string) :
  exists o reqs, forall st, Part000.checkProfileStatus w did st = (o, send reqs st).
Proof.
  destruct (Part000_checkProfileStatus_pure w did) as (res & reqs & H).
  exists (Returns res), reqs. exact H.
Qed.

Section AnswerOrder.
Context (check : string -> Async ProfileCheckResult).
Hypothesis check_pure : forall did, exists o reqs, forall st, check did st = (o, send reqs st).
Context (follows : list RepoRecord).

(** The shared array grows by what the callbacks push, in the order in
    which the schedule answers the probes, and the answered probes are with
    the pending ones the probes launched. *)
Lemma followSteps_answered (schedule : list Choice) (run run' : FollowRun) (st st' : State)
    (completed : list RepoRecord) :
  followSteps check follows schedule run st = Some (run', st') ->
  completed ++ fr_pending run ≡ₚ take (fr_i run) follows ->
  fr_tmpFollows run'
  = fr_tmpFollows run
    ++ omap (pushed check (followToggleStates st))
         (answered follows schedule (fr_i run) (fr_pending run))
  /\ (completed ++ answered follows schedule (fr_i run) (fr_pending run))
       ++ fr_pending run' ≡ₚ take (fr_i run') follows
  /\ followToggleStates st' = followToggleStates st.
Proof.
  revert run st completed.
  induction schedule as [|c schedule IH]; intros run st completed Hsteps Hperm.
  - cbn in Hsteps. injection Hsteps as <- <-. cbn [answered omap list_omap].
    rewrite !app_nil_r. auto.
  - cbn [followSteps] in Hsteps.
    destruct (followStep check follows c run st) as [[run1 st1]|] eqn:Hstep;
      [|discriminate].
    destruct c as [|k]; cbn [followStep] in Hstep; cbn [answered].
    + destruct (Nat.ltb_spec (fr_i run) (length follows)) as [Hlt|Hge]; [|discriminate].
      injection Hstep as <- <-.
      apply (IH _ _ completed Hsteps). cbn [fr_i fr_pending].
      unfold slice. replace (fr_i run + 10 - fr_i run) with 10 by lia.
      rewrite app_assoc, Hperm, take_take_drop. reflexivity.
    + destruct (fr_pending run !! k) as [record|] eqn:Hk; [|discriminate].
      destruct (followCallback_run check check_pure record (fr_tmpFollows run) st)
        as [reqs Hcb].
      rewrite Hcb in Hstep. clear Hcb.
      assert (Hperm' : (completed ++ [record]) ++ delete k (fr_pending run)
                       ≡ₚ take (fr_i run) follows).
      { rewrite <- Hperm, <- app_assoc. apply Permutation_app_head. cbn.
        symmetry. apply delete_Permutation, Hk. }
      assert (Hpush : pushed check (followToggleStates st) record
                      = match probe check (rec_subject record) with
                        | Returns res => followRecordOf (followToggleStates st) record res
                        | _ => None end) by reflexivity.
      cbn [omap list_omap]. rewrite Hpush. clear Hpush.
      destruct (probe check (rec_subject record)) as [res|msg|];
        injection Hstep as <- <-.
      * destruct (IH _ _ (completed ++ [record]) Hsteps Hperm') as (Htmp & Hp & HT).
        cbn [fr_i fr_pending fr_tmpFollows] in Htmp, Hp.
        assert (HT1 : followToggleStates
                        (if progress st + 1 =? itemCount st
                         then setItemCount 0
                                (setProgress 0
                                   (setFollowRecords
                                      (fun _ => fr_tmpFollows run
                                                ++ option_list
                                                     (followRecordOf (followToggleStates st)
                                                        record res))
                                      (setGlobalNotice
                                         (followNotice
                                            (fr_tmpFollows run
                                             ++ option_list
                                                  (followRecordOf (followToggleStates st)
                                                     record res)))
                                         (setProgress (progress st + 1) (send reqs st)))))
                         else setProgress (progress st + 1) (send reqs st))
                      = followToggleStates st).
        { destruct (progress st + 1 =? itemCount st); reflexivity. }
        rewrite HT1 in Htmp, HT. split; [|split; [|exact HT]].
        -- rewrite Htmp, <- app_assoc. f_equal.
           destruct (followRecordOf (followToggleStates st) record res); reflexivity.
        -- rewrite <- Hp, <- !app_assoc. reflexivity.
      * destruct (IH _ _ (completed ++ [record]) Hsteps Hperm') as (Htmp & Hp & HT).
        cbn [fr_i fr_pending fr_tmpFollows followToggleStates send] in Htmp, Hp, HT.
        split; [exact Htmp|]. split; [|exact HT].
        rewrite <- Hp, <- !app_assoc. reflexivity.
      * destruct (IH _ _ (completed ++ [record]) Hsteps Hperm') as (Htmp & Hp & HT).
        cbn [fr_i fr_pending fr_tmpFollows followToggleStates send] in Htmp, Hp, HT.
        split; [exact Htmp|]. split; [|exact HT].
        rewrite <- Hp, <- !app_assoc. reflexivity.
Qed.

End AnswerOrder.

(** X8: in [src/unnamed/part_000], a follow-mode run over a non-empty follow
    list in which every probe was launched and answered ends with the
    records of the probes that gave a status, in the order in which the
    probes were answered, which need not be the order of the follow list;
    with the progress and the item count back at zero; with the notice
    [All accounts you follow are active] when no record was pushed and no
    notice otherwise; and with the block store, the toggles and the mode as
    they were. *)
Theorem Part000_follow_mode_final_state (w : World XrpcResponse) (fuel : nat)
    (st st0 st' : State) (follows : list RepoRecord) (schedule : list Choice)
    (run : FollowRun) :
  fetchHiddenAccounts_follows w fuel st = (Returns follows, st0) ->
  Part000Engine.followSteps w follows schedule noRun st0 = Some (run, st') ->
  followDone follows run ->
  0 < length follows ->
  followRecords st'
  = omap (pushed (Part000.checkProfileStatus w) (followToggleStates st))
      (answered follows schedule 0 [])
  /\ answered follows schedule 0 [] ≡ₚ follows
  /\ globalNotice st' = followNotice (followRecords st')
  /\ progress st' = 0 /\ itemCount st' = 0
  /\ blockRecords st' = blockRecords st
  /\ followToggleStates st' = followToggleStates st
  /\ blockToggleStates st' = blockToggleStates st
  /\ currentMode st' = currentMode st.
Proof.
  intros Hstart Hsteps Hdone Hpos.
  pose proof (follow_run_trace _ w fuel st st0 st' follows schedule run
                (Part000_checkProfileStatus_pure' w) Hstart Hsteps) as Htrace.
  apply fetchHiddenAccounts_follows_state in Hstart
    as (_ & _ & _ & _ & HT & HB & HBT & Hmode).
  destruct (followSteps_answered _ (Part000_checkProfileStatus_pure' w) follows schedule
              noRun run st0 st' [] Hsteps) as (Htmp & Hperm & _); [reflexivity|].
  cbn [fr_i fr_pending fr_tmpFollows noRun app] in Htmp, Hperm.
  destruct Hdone as [Hi Hpending].
  rewrite Hpending, app_nil_r, take_ge in Hperm by exact Hi.
  destruct (follow_run_published _ follows st0 st' run Htrace (conj Hi Hpending) Hpos)
    as (completed & _ & _ & HN & Hp & Hn).
  { intros r _. apply Part000_answers. }
  destruct Htrace as (completed' & Hperm' & _ & HT' & HBT' & HB' & Hmode' & Hphase).
  assert (HF : followRecords st' = fr_tmpFollows run).
  { rewrite Hpending, app_nil_r, take_ge in Hperm' by exact Hi.
    destruct Hphase as [(_ & Hprog & Hcount & _)|(_ & _ & HF & _)]; [|exact HF].
    rewrite Hn in Hcount. lia. }
  rewrite HF, Htmp, HT.
  repeat split; try assumption; try congruence.
Qed.

Lemma Part000_follow_mode_final_state_witness :
  answered threeFollows scheduleA 0 [] = [followOf "z"; followOf "y"; followOf "x"]
  /\ followRecords
       (default (noRun, initialState)
          (Part000Engine.followSteps worldA threeFollows scheduleA noRun
             (fetchHiddenAccounts_follows worldA 0 initialState).2)).2
     = omap (pushed (Part000.checkProfileStatus worldA)
               (followToggleStates initialState))
         (answered threeFollows scheduleA 0 []).
Proof.
  split; [reflexivity|].
  refine (proj1 (Part000_follow_mode_final_state worldA 0 initialState
                   (fetchHiddenAccounts_follows worldA 0 initialState).2
                   _ threeFollows scheduleA
                   (default (noRun, initialState)
                      (Part000Engine.followSteps worldA threeFollows scheduleA noRun
                         (fetchHiddenAccounts_follows worldA 0 initialState).2)).1
                   _ _ _ _)).
  - vm_compute. reflexivity.
  - vm_compute. reflexivity.
  - split; [vm_compute; lia|vm_compute; reflexivity].
  - vm_compute. lia.
Defined.

(** X9: in both versions, as long as a probe of the run is still to be launched
    or to be answered, the run shows nothing of its result: the follow store
    and the notice are as the run found them, the item count is the number
    of follow records and the progress is below it, so that the progress
    line is shown and the Preview button is not. *)
Theorem follow_mode_no_partial_output :
  (forall (w : World XrpcResponse) (fuel : nat) (st st0 st' : State)
          (follows : list RepoRecord) (schedule : list Choice) (run : FollowRun),
      fetchHiddenAccounts_follows w fuel st = (Returns follows, st0) ->
      Part000Engine.followSteps w follows schedule noRun st0 = Some (run, st') ->
      ~ followDone follows run ->
      followRecords st' = followRecords st
      /\ globalNotice st' = "Analyzing followed accounts..."
      /\ progress st' < itemCount st' /\ itemCount st' = length follows
      /\ progressShown st' = true /\ previewShown st' = false)
  /\ (forall (w : World ClientResponse) (fuel : nat) (st st0 st' : State)
             (follows : list RepoRecord) (schedule : list Choice) (run : FollowRun),
         fetchHiddenAccounts_follows w fuel st = (Returns follows, st0) ->
         AppEngine.followSteps w follows schedule noRun st0 = Some (run, st') ->
         ~ followDone follows run ->
         followRecords st' = followRecords st
         /\ globalNotice st' = "Analyzing followed accounts..."
         /\ progress st' < itemCount st' /\ itemCount st' = length follows
         /\ progressShown st' = true /\ previewShown st' = false).
Proof.
  split; intros w fuel st st0 st' follows schedule run Hstart Hsteps Hnot.
  - pose proof (follow_run_trace _ w fuel st st0 st' follows schedule run
                  (Part000_checkProfileStatus_pure' w) Hstart Hsteps) as Htrace.
    apply fetchHiddenAccounts_follows_state in Hstart as (_ & _ & HN0 & HF0 & _).
    destruct (follow_run_unpublished _ follows st0 st' run Htrace Hnot)
      as (HF & HN & Hn & Hp).
    unfold progressShown, previewShown. rewrite Hn.
    destruct (Nat.eqb_spec (length follows) 0) as [Hz|Hz]; [lia|].
    destruct (Nat.eqb_spec (progress st') (length follows)) as [He|He]; [lia|].
    repeat split; congruence || lia.
  - pose proof (follow_run_trace _ w fuel st st0 st' follows schedule run
                  (App_checkProfileStatus_pure w) Hstart Hsteps) as Htrace.
    apply fetchHiddenAccounts_follows_state in Hstart as (_ & _ & HN0 & HF0 & _).
    destruct (follow_run_unpublished _ follows st0 st' run Htrace Hnot)
      as (HF & HN & Hn & Hp).
    unfold progressShown, previewShown. rewrite Hn.
    destruct (Nat.eqb_spec (length follows) 0) as [Hz|Hz]; [lia|].
    destruct (Nat.eqb_spec (progress st') (length follows)) as [He|He]; [lia|].
    repeat split; congruence || lia.
Qed.

Lemma follow_mode_no_partial_output_witness :
  followRecords
    (default (noRun, initialState)
       (Part000Engine.followSteps worldA threeFollows scheduleOne noRun
          (fetchHiddenAccounts_follows worldA 0 initialState).2)).2
  = followRecords initialState.
Proof.
  refine (proj1 (proj1 follow_mode_no_partial_output worldA 0 initialState
                   (fetchHiddenAccounts_follows worldA 0 initialState).2
                   _ threeFollows scheduleOne
                   (default (noRun, initialState)
                      (Part000Engine.followSteps worldA threeFollows scheduleOne noRun
                         (fetchHiddenAccounts_follows worldA 0 initialState).2)).1
                   _ _ _)).
  - vm_compute. reflexivity.
  - vm_compute. reflexivity.
  - intros [_ Hpending]. vm_compute in Hpending. discriminate Hpending.
Defined.

(** X10: in [src/src/App.tsx], when the probe of one follow record throws, the
    run never comes to its end: whatever is launched and answered, the
    follow store stays as it was, the notice stays on the analysis, and the
    progress stays below the item count, so that the progress line is shown
    for good and neither the result nor the Preview button appears. *)
Theorem App_follow_mode_stuck (w : World ClientResponse) (fuel : nat)
    (st st0 st' : State) (follows : list RepoRecord) (schedule : list Choice)
    (run : FollowRun) (record : RepoRecord) (msg : string) (st1 st2 : State) :
  fetchHiddenAccounts_follows w fuel st = (Returns follows, st0) ->
  record ∈ follows ->
  App.checkProfileStatus w (rec_subject record) st1 = (Throws msg, st2) ->
  AppEngine.followSteps w follows schedule noRun st0 = Some (run, st') ->
  followRecords st' = followRecords st
  /\ globalNotice st' = "Analyzing followed accounts..."
  /\ progress st' < itemCount st' /\ itemCount st' = length follows
  /\ progressShown st' = true /\ previewShown st' = false.
Proof.
  intros Hstart Hin Hthrows Hsteps.
  pose proof (follow_run_trace _ w fuel st st0 st' follows schedule run
                (App_checkProfileStatus_pure w) Hstart Hsteps) as Htrace.
  apply fetchHiddenAccounts_follows_state in Hstart as (_ & _ & HN0 & HF0 & _).
  assert (Hno : answers (App.checkProfileStatus w) record <> true).
  { unfold answers, probe.
    destruct (App_checkProfileStatus_pure w (rec_subject record)) as (o & reqs & Hpure).
    rewrite Hpure in Hthrows |- *. injection Hthrows as -> _. cbn. discriminate. }
  destruct Htrace as (completed & Hperm & _ & _ & _ & _ & _ & Hphase).
  destruct (answered_le (App.checkProfileStatus w) follows _ _ _ Hperm) as [_ Hle].
  pose proof (length_filter_lt (fun r => answers (App.checkProfileStatus w) r = true)
                follows record Hin Hno) as Hlt.
  destruct Hphase as [(_ & Hp & Hn & HF & HN)|(Hall & _)]; [|lia].
  unfold progressShown, previewShown. rewrite Hn.
  destruct (Nat.eqb_spec (length follows) 0) as [Hz|Hz]; [lia|].
  destruct (Nat.eqb_spec (progress st') (length follows)) as [He|He]; [lia|].
  repeat split; congruence || lia.
Qed.

Lemma App_follow_mode_stuck_witness :
  progressShown
    (default (noRun, initialState)
       (AppEngine.followSteps worldR threeFollows scheduleA noRun
          (fetchHiddenAccounts_follows worldR 0 initialState).2)).2 = true.
Proof.
  refine (proj1 (proj2 (proj2 (proj2 (proj2
            (App_follow_mode_stuck worldR 0 initialState
               (fetchHiddenAccounts_follows worldR 0 initialState).2
               _ threeFollows scheduleA
               (default (noRun, initialState)
                  (AppEngine.followSteps worldR threeFollows scheduleA noRun
                     (fetchHiddenAccounts_follows worldR 0 initialState).2)).1
               (followOf "y") "app.bsky.actor.getProfile: request failed" initialState
               (send [GetProfile "did:plc:y"] initialState) _ _ _ _)))))).
  - vm_compute. reflexivity.
  - vm_compute. apply list_elem_of_further, list_elem_of_here.
  - vm_compute. reflexivity.
  - vm_compute. reflexivity.
Defined.

(** A run in which the probe of a follow record did not return publishes
    nothing. *)
Lemma follow_trace_stuck (check : string -> Async ProfileCheckResult)
    (follows : list RepoRecord) (st0 st' : State) (run : FollowRun) (record : RepoRecord) :
  FollowTrace check follows st0 run st' ->
  record ∈ follows ->
  answers check record <> true ->
  followRecords st' = followRecords st0.
Proof.
  intros (completed & Hperm & _ & _ & _ & _ & _ & Hphase) Hin Hno.
  destruct (answered_le check follows _ _ _ Hperm) as [_ Hle].
  pose proof (length_filter_lt (fun r => answers check r = true) follows record Hin Hno)
    as Hlt.
  destruct Hphase as [(_ & _ & _ & HF & _)|(Hall & _)]; [exact HF|lia].
Qed.

(** C2 at the failing input: in [src/src/App.tsx], with three follows of
    which the first is healthy, the profile request for the second is
    rejected and the third is not found, the classifier returns [DELETED]
    for the third, and yet no run holds a record for it: the run in which the
    three probes are launched and answered comes to its end with an empty
    output, and so does every other. In [src/unnamed/part_000] the run over
    the same three accounts, with the request for the second failing, ends
    with the records of the second and the third. *)
Theorem follow_output_lost_in_App :
  fetchHiddenAccounts_follows worldF 0 initialState
  = (Returns threeFollows, (fetchHiddenAccounts_follows worldF 0 initialState).2)
  /\ followOf "z" ∈ threeFollows
  /\ (exists res st2,
         App.checkProfileStatus worldF (rec_subject (followOf "z"))
           (fetchHiddenAccounts_follows worldF 0 initialState).2 = (Returns res, st2)
         /\ res_status res = Some RepoStatus.DELETED)
  /\ (exists run st',
         AppEngine.followSteps worldF threeFollows scheduleA noRun
           (fetchHiddenAccounts_follows worldF 0 initialState).2 = Some (run, st')
         /\ followDone threeFollows run
         /\ followRecords st' = []
         /\ ~ presentIn (followOf "z") (followRecords st'))
  /\ (forall schedule run st',
         AppEngine.followSteps worldF threeFollows schedule noRun
           (fetchHiddenAccounts_follows worldF 0 initialState).2 = Some (run, st') ->
         ~ presentIn (followOf "z") (followRecords st'))
  /\ (exists run st',
         Part000Engine.followSteps worldA threeFollows scheduleA noRun
           (fetchHiddenAccounts_follows worldA 0 initialState).2 = Some (run, st')
         /\ followDone threeFollows run
         /\ presentIn (followOf "z") (followRecords st')).
Proof.
  assert (Hempty : forall l : list AccountRecord, l = [] -> ~ presentIn (followOf "z") l).
  { intros l -> (a & Ha & _). inversion Ha. }
  split; [vm_compute; reflexivity|]. split; [in_list|]. split.
  { eexists _, _. split; vm_compute; reflexivity. }
  split.
  { eexists _, _. split; [vm_compute; reflexivity|]. split.
    - split; [vm_compute; lia|reflexivity].
    - split; [reflexivity|]. apply Hempty. reflexivity. }
  split.
  { intros schedule run st' Hsteps. apply Hempty.
    assert (Hstart : fetchHiddenAccounts_follows worldF 0 initialState
                     = (Returns threeFollows,
                        (fetchHiddenAccounts_follows worldF 0 initialState).2))
      by (vm_compute; reflexivity).
    pose proof (follow_run_trace _ worldF 0 initialState _ st' threeFollows schedule run
                  (App_checkProfileStatus_pure worldF) Hstart Hsteps) as Htrace.
    rewrite (follow_trace_stuck _ threeFollows _ st' run (followOf "y") Htrace).
    - reflexivity.
    - in_list.
    - vm_compute. discriminate. }
  eexists _, _. split; [vm_compute; reflexivity|]. split.
  - split; [vm_compute; lia|reflexivity].
  - eexists. split; [apply list_elem_of_here|]. split; reflexivity.
Qed.

(** ** Actions of the account list *)

Lemma currentRecords_editRecords (status : Z) (field : Field) (value : bool) (st : State) :
  currentRecords (editRecords status field value st)
  = edited status field value <$> currentRecords st.
Proof.
  apply list_eq. intros i. rewrite lookup_editRecords, list_lookup_fmap. reflexivity.
Qed.

Lemma currentMode_setCurrentRecords (f : list AccountRecord -> list AccountRecord)
    (st : State) :
  currentMode (setCurrentRecords f st) = currentMode st.
Proof. unfold setCurrentRecords. destruct (currentMode st) eqn:E; cbn; exact E. Qed.

Lemma currentMode_setCurrentToggleStates (f : gmap Z bool -> gmap Z bool) (st : State) :
  currentMode (setCurrentToggleStates f st) = currentMode st.
Proof. unfold setCurrentToggleStates. destruct (currentMode st) eqn:E; cbn; exact E. Qed.

Lemma otherRecords_setCurrentRecords (f : list AccountRecord -> list AccountRecord)
    (st : State) :
  otherRecords (setCurrentRecords f st) = otherRecords st.
Proof.
  unfold otherRecords, setCurrentRecords. destruct (currentMode st) eqn:E; cbn; rewrite E;
    reflexivity.
Qed.

Lemma otherRecords_setCurrentToggleStates (f : gmap Z bool -> gmap Z bool) (st : State) :
  otherRecords (setCurrentToggleStates f st) = otherRecords st.
Proof.
  unfold otherRecords, setCurrentToggleStates. destruct (currentMode st) eqn:E; cbn;
    rewrite E; reflexivity.
Qed.

Lemma currentRecords_updateToggleState (status : Z) (value : bool) (st : State) :
  currentRecords (updateToggleState status value st)
  = (if value then edited status visible true
     else fun r => edited status toDelete false (edited status visible false r))
    <$> currentRecords st.
Proof.
  unfold updateToggleState. destruct value; cbn [negb].
  - rewrite currentRecords_editRecords, currentRecords_setCurrentToggleStates. reflexivity.
  - rewrite !currentRecords_editRecords, currentRecords_setCurrentToggleStates.
    rewrite <- list_fmap_compose. reflexivity.
Qed.

Lemma edited_flag (status : Z) (field : Field) (value : bool) (r : AccountRecord) :
  truthy_num (js_and (ar_status r) status) = true ->
  edited status field value r = setField field value r.
Proof. unfold edited. intros ->. reflexivity. Qed.

Lemma edited_noflag (status : Z) (field : Field) (value : bool) (r : AccountRecord) :
  truthy_num (js_and (ar_status r) status) = false ->
  edited status field value r = r.
Proof. unfold edited. intros ->. reflexivity. Qed.

Lemma edited_status (status : Z) (field : Field) (value : bool) (r : AccountRecord) :
  ar_status (edited status field value r) = ar_status r.
Proof.
  unfold edited. destruct (truthy_num _); [apply setField_status|reflexivity].
Qed.

Lemma edited_identity (status : Z) (field : Field) (value : bool) (r : AccountRecord) :
  identity (edited status field value r) = identity r.
Proof.
  unfold edited. destruct (truthy_num _); [|reflexivity]. destruct field; reflexivity.
Qed.

(** The records of an action are those before it, each rewritten in
    place. *)
Lemma currentRecords_act (a : Action) (st : State) :
  exists g : nat -> AccountRecord -> AccountRecord,
    currentRecords (act a st) = imap g (currentRecords st)
    /\ forall i r, identity (g i r) = identity r.
Proof.
  destruct a as [status checked|status checked|index checked]; cbn [act].
  - rewrite currentRecords_updateToggleState.
    exists (fun _ => if checked then edited status visible true
                     else fun r => edited status toDelete false
                                     (edited status visible false r)).
    split; [symmetry; apply imap_const|].
    intros i r. destruct checked; rewrite ?edited_identity; reflexivity.
  - rewrite currentRecords_editRecords.
    exists (fun _ => edited status toDelete checked).
    split; [symmetry; apply imap_const|].
    intros i r. apply edited_identity.
  - rewrite currentRecords_setCurrentRecords.
    exists (fun i r => if decide (i = index) then setField toDelete checked r else r).
    split.
    + apply list_eq. intros i. rewrite list_lookup_imap.
      destruct (decide (i = index)) as [->|Hne].
      * rewrite list_lookup_alter_eq. destruct (currentRecords st !! index); reflexivity.
      * rewrite list_lookup_alter_ne by congruence.
        destruct (currentRecords st !! i); reflexivity.
    + intros i r. destruct (decide (i = index)); reflexivity.
Qed.

Lemma act_frame (a : Action) (st : State) :
  currentMode (act a st) = currentMode st /\ otherRecords (act a st) = otherRecords st.
Proof.
  destruct a as [status checked|status checked|index checked]; cbn [act].
  - unfold updateToggleState, editRecords. destruct checked; cbn [negb];
      rewrite ?currentMode_setCurrentRecords, ?otherRecords_setCurrentRecords,
        ?currentMode_setCurrentToggleStates, ?otherRecords_setCurrentToggleStates;
      split; reflexivity.
  - unfold editRecords.
    rewrite currentMode_setCurrentRecords, otherRecords_setCurrentRecords. split; reflexivity.
  - rewrite currentMode_setCurrentRecords, otherRecords_setCurrentRecords. split; reflexivity.
Qed.

(** X11: whatever is done in the account list, in whatever order, the records
    of the active mode stay the same accounts in the same order, each with
    its identifier, handle, locator, status and label, and the mode and the
    records of the other mode are untouched: the actions only write the two
    boolean fields. *)
Theorem actions_keep_records (actions : list Action) (st : State) :
  identity <$> currentRecords (foldl (fun s a => act a s) st actions)
  = identity <$> currentRecords st
  /\ currentMode (foldl (fun s a => act a s) st actions) = currentMode st
  /\ otherRecords (foldl (fun s a => act a s) st actions) = otherRecords st.
Proof.
  revert st. induction actions as [|a actions IH]; intros st; cbn [foldl].
  - repeat split.
  - destruct (IH (act a st)) as (Hid & Hmode & Hother).
    destruct (act_frame a st) as [Hm Ho].
    destruct (currentRecords_act a st) as (g & Hg & Hgid).
    split; [|split; congruence].
    rewrite Hid, Hg. apply list_eq. intros i.
    rewrite !list_lookup_fmap, list_lookup_imap.
    destruct (currentRecords st !! i) as [r|]; cbn; [rewrite Hgid|]; reflexivity.
Qed.

(** X12: switching a category off and on again shows its records again but
    does not bring their selection back: after the two actions every record
    of the category is visible and not marked for deletion, and every other
    record is as it was. *)
Theorem toggle_off_then_on (status : Z) (st : State) (i : nat) (record : AccountRecord) :
  currentRecords st !! i = Some record ->
  currentToggleStates (act (Toggle status true) (act (Toggle status false) st)) !! status
  = Some true
  /\ exists record',
       currentRecords (act (Toggle status true) (act (Toggle status false) st)) !! i
       = Some record'
       /\ identity record' = identity record
       /\ (hasFlag (ar_status record) status ->
           ar_visible record' = true /\ ar_toDelete record' = false)
       /\ (~ hasFlag (ar_status record) status -> record' = record).
Proof.
  intros Hi. cbn [act]. split.
  - unfold updateToggleState at 1. cbn [negb]. unfold editRecords at 1.
    rewrite currentToggleStates_setCurrentRecords,
      currentToggleStates_setCurrentToggleStates.
    apply lookup_insert_eq.
  - rewrite !currentRecords_updateToggleState, <- list_fmap_compose, list_lookup_fmap, Hi.
    cbn. eexists. split; [reflexivity|].
    pose proof (truthy_num_hasFlag (ar_status record) status) as Hflag.
    destruct (truthy_num (js_and (ar_status record) status)) eqn:E.
    + rewrite !edited_flag by (rewrite ?edited_status, ?setField_status; exact E).
      split; [reflexivity|]. split; [intros _; split; reflexivity|].
      intros Hno. exfalso. apply Hno, Hflag. reflexivity.
    + rewrite !edited_noflag by (rewrite ?edited_status; exact E).
      split; [reflexivity|]. split; [|reflexivity].
      intros H. apply Hflag in H. discriminate.
Qed.

Lemma toggle_off_then_on_witness :
  exists record',
    currentRecords (act (Toggle RepoStatus.DELETED true)
                      (act (Toggle RepoStatus.DELETED false) selectedState)) !! 0
    = Some record'
    /\ ar_toDelete record' = false.
Proof.
  destruct (toggle_off_then_on RepoStatus.DELETED selectedState 0 selectedDeleted eq_refl)
    as (_ & record' & Hr & _ & Hflag & _).
  exists record'. split; [exact Hr|].
  apply Hflag. vm_compute. discriminate.
Defined.

(** X13: Select All works on the hidden records too: after a category is
    switched off and its Select All box is ticked, every record of the
    category is hidden and marked for deletion, so that [removeItems]
    deletes at least as many records more than the selection counter shows
    as the category has records. *)
Theorem select_all_marks_hidden (status : Z) (st : State) :
  (forall record,
      record ∈ currentRecords (act (SelectAll status true) (act (Toggle status false) st)) ->
      hasFlag (ar_status record) status ->
      ar_visible record = false /\ ar_toDelete record = true)
  /\ selectedCount (act (SelectAll status true) (act (Toggle status false) st))
     + length (filter (fun record => hasFlag (ar_status record) status) (currentRecords st))
     <= length (marked (act (SelectAll status true) (act (Toggle status false) st))).
Proof.
  unfold selectedCount, marked. cbn [act].
  rewrite currentRecords_editRecords, currentRecords_updateToggleState,
    <- list_fmap_compose.
  set (g := edited status toDelete true
            ∘ (fun r => edited status toDelete false (edited status visible false r))).
  assert (Hg : forall r,
             (hasFlag (ar_status r) status ->
              ar_visible (g r) = false /\ ar_toDelete (g r) = true)
             /\ (~ hasFlag (ar_status r) status -> g r = r)
             /\ ar_status (g r) = ar_status r).
  { intros r. unfold g. cbn.
    pose proof (truthy_num_hasFlag (ar_status r) status) as Hflag.
    destruct (truthy_num (js_and (ar_status r) status)) eqn:E.
    - rewrite !edited_flag by (rewrite ?edited_status, ?setField_status; exact E).
      split; [intros _; split; reflexivity|]. split; [|reflexivity].
      intros Hno. exfalso. apply Hno, Hflag. reflexivity.
    - rewrite !edited_noflag by (rewrite ?edited_status; exact E).
      split; [|split; reflexivity]. intros H. apply Hflag in H. discriminate. }
  clearbody g. split.
  - intros record (r & -> & _)%list_elem_of_fmap Hflag.
    destruct (Hg r) as (Hyes & _ & Hs). rewrite Hs in Hflag. apply Hyes, Hflag.
  - induction (currentRecords st) as [|r l IH]; [cbn; lia|].
    rewrite fmap_cons, !filter_cons.
    destruct (Hg r) as (Hyes & Hno & _).
    destruct (decide (hasFlag (ar_status r) status)) as [Hflag|Hflag].
    + destruct (Hyes Hflag) as [Hv Hd]. rewrite Hv, Hd. cbn [andb].
      rewrite decide_False by discriminate. rewrite decide_True by reflexivity.
      cbn [length]. lia.
    + rewrite (Hno Hflag).
      destruct (ar_toDelete r), (ar_visible r); cbn [andb];
        repeat case_decide; try discriminate; try congruence; cbn [length]; lia.
Qed.

(** X14: the categories of a mode do not reach every status: no toggle and no
    Select All box that the account list offers changes a record whose
    status is [YOURSELF] or [UNKNOWN] in follow mode, or one of the block
    statuses, [HIDDEN] or [YOURSELF] in block mode. *)
Theorem options_miss_statuses (a : Action) (st : State) (i : nat) (record : AccountRecord) :
  offered a st ->
  (forall index checked, a <> Tick index checked) ->
  currentRecords st !! i = Some record ->
  ar_status record ∈ uncovered (currentMode st) ->
  currentRecords (act a st) !! i = Some record.
Proof.
  intros Hoff Hkind Hi Hstatus.
  assert (Hmiss : forall status, status ∈ (options st).*1 ->
                                 truthy_num (js_and (ar_status record) status) = false).
  { intros status Hs. unfold options, uncovered in *.
    destruct (currentMode st); cbn in Hs, Hstatus;
      repeat (apply elem_of_cons in Hstatus as [->|Hstatus]);
      try (inversion Hstatus; fail);
      repeat (apply elem_of_cons in Hs as [->|Hs]);
      try (inversion Hs; fail); reflexivity. }
  destruct a as [status checked|status checked|index checked]; cbn [act offered] in *.
  - rewrite currentRecords_updateToggleState, list_lookup_fmap, Hi. cbn. f_equal.
    destruct checked; rewrite !edited_noflag by (rewrite ?edited_status; apply Hmiss, Hoff);
      reflexivity.
  - rewrite currentRecords_editRecords, list_lookup_fmap, Hi. cbn. f_equal.
    apply edited_noflag, Hmiss, Hoff.
  - exfalso. eapply Hkind. reflexivity.
Qed.

Lemma options_miss_statuses_witness :
  currentRecords
    (act (Toggle RepoStatus.DELETED false)
       (setFollowRecords (fun _ => [followedSelf]) initialState)) !! 0
  = Some followedSelf.
Proof.
  apply (options_miss_statuses (Toggle RepoStatus.DELETED false)
           (setFollowRecords (fun _ => [followedSelf]) initialState) 0 followedSelf).
  - vm_compute. apply list_elem_of_here.
  - intros index checked. discriminate.
  - reflexivity.
  - vm_compute. apply list_elem_of_here.
Defined.

(** ** Deletion: what is left behind *)

Section DeletionOutcome.
Context (post : list Delete -> Async unit) (ok : list Delete -> bool).
Context (repo msg : string).
Hypothesis post_spec : forall writes st,
  post writes st
  = (if ok writes then Returns tt else Throws msg, send [ApplyWrites repo writes] st).

(** The loop stops at the first batch that fails. *)
Lemma removeItems_loop_fails (writes : list Delete) (j fuel a : nat) (st : State) :
  length writes - a * BATCHSIZE <= fuel ->
  (a + j) * BATCHSIZE < length writes ->
  (forall k, a <= k < a + j -> ok (batch writes k) = true) ->
  ok (batch writes (a + j)) = false ->
  removeItems_loop post fuel (a * BATCHSIZE) writes st
  = (Throws msg, send (ApplyWrites repo <$> (batch writes <$> seq a (S j))) st).
Proof.
  revert fuel a st. induction j as [|j IH]; intros fuel a st Hfuel Hlt Hok Hfail.
  - rewrite Nat.add_0_r in Hlt, Hfail.
    destruct fuel as [|fuel]; [lia|]. cbn [removeItems_loop].
    destruct (Nat.ltb_spec (a * BATCHSIZE) (length writes)) as [_|Hge]; [|lia].
    unfold mbind at 1, Async_bind. rewrite post_spec.
    fold (batch writes a). rewrite Hfail. reflexivity.
  - assert (Hlt' : a * BATCHSIZE < length writes) by (unfold BATCHSIZE in *; lia).
    destruct fuel as [|fuel]; [lia|]. cbn [removeItems_loop].
    destruct (Nat.ltb_spec (a * BATCHSIZE) (length writes)) as [_|Hge]; [|lia].
    unfold mbind at 1, Async_bind. rewrite post_spec.
    fold (batch writes a). rewrite (Hok a) by lia.
    replace (a * BATCHSIZE + BATCHSIZE) with (S a * BATCHSIZE) by (unfold BATCHSIZE; lia).
    rewrite (IH fuel (S a)).
    + rewrite send_send. reflexivity.
    + unfold BATCHSIZE in *. lia.
    + replace (S a + j) with (a + S j) by lia. exact Hlt.
    + intros k Hk. apply Hok. lia.
    + replace (S a + j) with (a + S j) by lia. exact Hfail.
Qed.

Lemma removeItems_fails (st : State) (j : nat) :
  j * BATCHSIZE < length (writesOf st) ->
  (forall k, k < j -> ok (batch (writesOf st) k) = true) ->
  ok (batch (writesOf st) j) = false ->
  removeItems post st
  = (Throws msg, send (ApplyWrites repo <$> (batch (writesOf st) <$> seq 0 (S j))) st).
Proof.
  intros Hlt Hok Hfail. unfold removeItems. run.
  unfold writesOf, marked, currentRecords, collectionOf in *.
  destruct (currentMode st) eqn:Hmode.
  - rewrite (removeItems_loop_fails _ j _ 0 st); [reflexivity|cbn; lia|exact Hlt| |exact Hfail].
    intros k Hk. apply Hok. lia.
  - rewrite (removeItems_loop_fails _ j _ 0 st); [reflexivity|cbn; lia|exact Hlt| |exact Hfail].
    intros k Hk. apply Hok. lia.
Qed.

(** When no batch fails, the records of the active mode are cleared and
    the notice reports the number of deletions. *)
Lemma removeItems_succeeds (st : State) :
  (forall writes, ok writes = true) ->
  exists batches,
    removeItems post st
    = (Returns tt,
       setGlobalNotice (successNotice (currentMode st) (length (marked st)))
         (setCurrentRecords (fun _ => [])
            (send (ApplyWrites repo <$> batches) st))).
Proof.
  intros Hok. unfold removeItems. run.
  unfold successNotice, setCurrentRecords, marked, currentRecords.
  destruct (currentMode st) eqn:Hmode;
    match goal with
    | |- context [removeItems_loop post (length ?ws) 0 ?ws st] =>
        destruct (removeItems_loop_spec post ok repo msg post_spec ws (length ws) 0 st)
          as (o & batches & Hrun & _ & Hall); [lia|]; rewrite Hrun
    end.
  all: destruct Hall as (-> & _); [intros b _; apply Hok|].
  all: exists batches; cbn [currentMode send]; rewrite Hmode, length_fmap; reflexivity.
Qed.

End DeletionOutcome.

(** X15: [removeItems] in [src/src/App.tsx] always comes to its end, whatever
    the server answered to the batches: it empties the records of the
    active mode and reports the number of marked records as deleted. In
    [src/unnamed/part_000] it does so when every batch was accepted. In
    both, the records of the other mode, the toggles and the counters are
    left as they were. *)
Theorem removeItems_final_state :
  (forall (w : World ClientResponse) (st : State),
      exists batches st',
        AppEngine.removeItems w st = (Returns tt, st')
        /\ st' = setGlobalNotice (successNotice (currentMode st) (length (marked st)))
                   (setCurrentRecords (fun _ => [])
                      (send (ApplyWrites (agentDID w) <$> batches) st))
        /\ currentRecords st' = [] /\ otherRecords st' = otherRecords st)
  /\ (forall (w : World XrpcResponse) (st : State),
         (forall writes, applyWrites w (agentDID w) writes = true) ->
         exists batches st',
           Part000Engine.removeItems w st = (Returns tt, st')
           /\ st' = setGlobalNotice (successNotice (currentMode st) (length (marked st)))
                      (setCurrentRecords (fun _ => [])
                         (send (ApplyWrites (agentDID w) <$> batches) st))
           /\ currentRecords st' = [] /\ otherRecords st' = otherRecords st).
Proof.
  assert (Hstate : forall notice reqs st,
             currentRecords
               (setGlobalNotice notice (setCurrentRecords (fun _ => []) (send reqs st))) = []
             /\ otherRecords
                  (setGlobalNotice notice (setCurrentRecords (fun _ => []) (send reqs st)))
                = otherRecords st).
  { intros notice reqs st. unfold currentRecords, otherRecords, setCurrentRecords.
    cbn [currentMode send]. destruct (currentMode st) eqn:E; cbn; rewrite E; split; reflexivity. }
  split.
  - intros w st.
    destruct (removeItems_succeeds (AppEngine.post w) (fun _ => true) (agentDID w) ""
                (AppEngine_post_spec w) st (fun _ => eq_refl)) as [batches Hrun].
    exists batches. eexists. split; [exact Hrun|]. split; [reflexivity|]. apply Hstate.
  - intros w st Hok.
    destruct (removeItems_succeeds (Part000Engine.post w)
                (applyWrites w (agentDID w)) (agentDID w)
                "com.atproto.repo.applyWrites: request failed"
                (Part000Engine_post_spec w) st Hok) as [batches Hrun].
    exists batches. eexists. split; [exact Hrun|]. split; [reflexivity|]. apply Hstate.
Qed.

Lemma removeItems_final_state_witness :
  exists batches st',
    Part000Engine.removeItems worldA selectedState = (Returns tt, st')
    /\ st' = setGlobalNotice (successNotice FOLLOWS 1)
               (setCurrentRecords (fun _ => [])
                  (send (ApplyWrites "did:plc:me" <$> batches) selectedState)).
Proof.
  destruct (proj2 removeItems_final_state worldA selectedState (fun _ => eq_refl))
    as (batches & st' & Hrun & Hst & _).
  exists batches, st'. split; [exact Hrun|exact Hst].
Defined.

(** X16: in [src/unnamed/part_000], a batch that the server refuses ends
    [removeItems] there: the batches before it were sent and accepted, no
    later batch is sent, and the stores and the notice are as before the
    call, with the records of the deleted batches still listed and
    marked. *)
Theorem Part000_removeItems_failure (w : World XrpcResponse) (st : State) (j : nat) :
  j * BATCHSIZE < length (writesOf st) ->
  (forall k, k < j -> applyWrites w (agentDID w) (batch (writesOf st) k) = true) ->
  applyWrites w (agentDID w) (batch (writesOf st) j) = false ->
  Part000Engine.removeItems w st
  = (Throws "com.atproto.repo.applyWrites: request failed",
     send (ApplyWrites (agentDID w) <$> (batch (writesOf st) <$> seq 0 (S j))) st).
Proof.
  apply (removeItems_fails (Part000Engine.post w) (applyWrites w (agentDID w)) (agentDID w)
           "com.atproto.repo.applyWrites: request failed" (Part000Engine_post_spec w)).
Qed.

Lemma Part000_removeItems_failure_witness :
  Part000Engine.removeItems (refusingWorld profilesA) selectedState
  = (Throws "com.atproto.repo.applyWrites: request failed",
     send (ApplyWrites "did:plc:me" <$> (batch (writesOf selectedState) <$> seq 0 1))
       selectedState).
Proof.
  apply (Part000_removeItems_failure (refusingWorld profilesA) selectedState 0).
  - vm_compute. lia.
  - intros k Hk. lia.
  - reflexivity.
Defined.

(** ** Listings: where the loops stop *)

Lemma List_last_cons {A : Type} (l : list A) (a d : A) :
  List.last (a :: l) d = List.last l a.
Proof.
  revert a d. induction l as [|b l IH]; intros a d; [reflexivity|].
  change (List.last (a :: b :: l) d) with (List.last (b :: l) d).
  rewrite !IH. reflexivity.
Qed.

Lemma fetchFollows_pages_chain {P : Type} (w : World P) (PAGE_LIMIT : nat)
    (rest : list (Page RepoRecord)) (res : Page RepoRecord) (follows : list RepoRecord)
    (fuel : nat) (st : State) :
  pageChain (moreFollows PAGE_LIMIT)
    (listRecords w (agentDID w) "app.bsky.graph.follow" PAGE_LIMIT) res rest ->
  (moreFollows PAGE_LIMIT (List.last rest res) = false ->
   length rest <= fuel ->
   fetchFollows_pages w PAGE_LIMIT fuel res follows st
   = (Returns (follows ++ concat (items <$> rest)),
      send (ListRecords (agentDID w) "app.bsky.graph.follow" PAGE_LIMIT
              <$> (cursor <$> removelast (res :: rest))) st))
  /\ (forall error,
         moreFollows PAGE_LIMIT (List.last rest res) = true ->
         listRecords w (agentDID w) "app.bsky.graph.follow" PAGE_LIMIT
           (cursor (List.last rest res)) = ListFails error ->
         length rest < fuel ->
         fetchFollows_pages w PAGE_LIMIT fuel res follows st
         = (Throws error,
            send (ListRecords (agentDID w) "app.bsky.graph.follow" PAGE_LIMIT
                    <$> (cursor <$> res :: rest)) st)).
Proof.
  revert res follows fuel st.
  induction rest as [|q rest IH]; intros res follows fuel st Hchain.
  - cbn [List.last length]. split.
    + intros Hstop _. unfold moreFollows in Hstop.
      destruct fuel; cbn [fetchFollows_pages]; rewrite Hstop, app_nil_r, send_nil;
        reflexivity.
    + intros error Hmore Hfail Hfuel. unfold moreFollows in Hmore.
      destruct fuel as [|fuel]; [lia|]. cbn [fetchFollows_pages]. rewrite Hmore.
      run. rewrite Hfail. reflexivity.
  - destruct Hchain as (Hmore & Hnext & Hchain).
    destruct (IH q (follows ++ items q)) with (fuel := pred fuel)
      (st := send [ListRecords (agentDID w) "app.bsky.graph.follow" PAGE_LIMIT (cursor res)] st)
      as [Hstop Hfail]; [exact Hchain|].
    rewrite (List_last_cons rest q res). unfold moreFollows in Hmore. split.
    + intros Hs Hfuel. cbn [length] in Hfuel.
      destruct fuel as [|fuel]; [lia|]. cbn [fetchFollows_pages]. rewrite Hmore.
      run. rewrite Hnext. cbn [pred] in Hstop. rewrite Hstop by (assumption || lia).
      rewrite send_send, <- app_assoc. reflexivity.
    + intros error Hm Hf Hfuel. cbn [length] in Hfuel.
      destruct fuel as [|fuel]; [lia|]. cbn [fetchFollows_pages]. rewrite Hmore.
      run. rewrite Hnext. cbn [pred] in Hfail.
      rewrite (Hfail error) by (assumption || lia).
      rewrite send_send. reflexivity.
Qed.

(** X17: [fetchFollows] returns the records of the pages up to the first one
    that has no cursor or fewer than 100 records, and asks for nothing
    after it, even when that page carries a cursor. When a page fails, it
    throws the error of that page, and what was read until then is lost. *)
Theorem fetchFollows_first_stop {P : Type} (w : World P) (first : Page RepoRecord)
    (rest : list (Page RepoRecord)) (fuel : nat) (st : State) :
  listRecords w (agentDID w) "app.bsky.graph.follow" 100 None = ListOk first ->
  pageChain (moreFollows 100) (listRecords w (agentDID w) "app.bsky.graph.follow" 100)
    first rest ->
  length rest < fuel ->
  (moreFollows 100 (List.last rest first) = false ->
   fetchFollows w fuel st
   = (Returns (concat (items <$> first :: rest)),
      send (ListRecords (agentDID w) "app.bsky.graph.follow" 100
              <$> None :: (cursor <$> removelast (first :: rest))) st))
  /\ (forall error,
         moreFollows 100 (List.last rest first) = true ->
         listRecords w (agentDID w) "app.bsky.graph.follow" 100
           (cursor (List.last rest first)) = ListFails error ->
         fetchFollows w fuel st
         = (Throws error,
            send (ListRecords (agentDID w) "app.bsky.graph.follow" 100
                    <$> None :: (cursor <$> first :: rest)) st)).
Proof.
  intros Hfirst Hchain Hfuel.
  destruct (fetchFollows_pages_chain w 100 rest first (items first) fuel
              (send [ListRecords (agentDID w) "app.bsky.graph.follow" 100 None] st) Hchain)
    as [Hstop Hfail].
  unfold fetchFollows, fetchFollows_limit. run. rewrite Hfirst. split.
  - intros Hs. rewrite Hstop by (assumption || lia). rewrite send_send. reflexivity.
  - intros error Hm Hf. rewrite (Hfail error) by (assumption || lia).
    rewrite send_send. reflexivity.
Qed.

Lemma fetchFollows_first_stop_witness :
  fetchFollows shortWorld 1 initialState
  = (Returns [followOf "first"],
     send [ListRecords "did:plc:me" "app.bsky.graph.follow" 100 None] initialState)
  /\ fetchFollows failingWorld 1 initialState
     = (Throws "InternalServerError",
        send [ListRecords "did:plc:me" "app.bsky.graph.follow" 100 None;
              ListRecords "did:plc:me" "app.bsky.graph.follow" 100 (Some "c1")]
          initialState).
Proof.
  split.
  - apply (proj1 (fetchFollows_first_stop shortWorld
                    {| items := [followOf "first"]; cursor := Some "next" |} []
                    1 initialState eq_refl I (le_n 1))).
    reflexivity.
  - apply (proj2 (fetchFollows_first_stop failingWorld
                    {| items := replicate 100 (followOf "x"); cursor := Some "c1" |} []
                    1 initialState eq_refl I (le_n 1))
             "InternalServerError").
    + reflexivity.
    + reflexivity.
Defined.

(** X18: the loop over the live block list follows the cursor alone: against a
    server that puts a cursor on every page, empty pages included, it asks
    for one page after the other and does not return, whatever the number
    of requests it is allowed. *)
Theorem cursor_on_every_page {P : Type} (w : World P) (fuel : nat) (st : State) :
  (forall limit c, exists page,
      getBlocks w limit c = ListOk page /\ truthy_str (cursor page) = true) ->
  exists reqs,
    fetchBlocks_active w 50 fuel st = (OutOfFuel, send reqs st)
    /\ length reqs = S fuel.
Proof.
  intros Hserver.
  assert (Hloop : forall fuel res blocks st,
             truthy_str (cursor res) = true ->
             exists reqs,
               fetchBlocks_pages w 50 fuel res blocks st = (OutOfFuel, send reqs st)
               /\ length reqs = fuel).
  { clear fuel st. induction fuel as [|fuel IH]; intros res blocks st Hc;
      cbn [fetchBlocks_pages]; rewrite Hc.
    - exists []. rewrite send_nil. split; reflexivity.
    - destruct (Hserver 50 (cursor res)) as (page & Hpage & Hc').
      run. rewrite Hpage.
      destruct (IH page (blocks ++ items page)
                  (send [GetBlocks 50 (cursor res)] st) Hc') as (reqs & -> & Hlen).
      exists (GetBlocks 50 (cursor res) :: reqs). rewrite send_send.
      split; [reflexivity|]. cbn. rewrite Hlen. reflexivity. }
  destruct (Hserver 50 None) as (page & Hpage & Hc).
  unfold fetchBlocks_active. run. rewrite Hpage.
  destruct (Hloop fuel page (items page) (send [GetBlocks 50 None] st) Hc)
    as (reqs & -> & Hlen).
  exists (GetBlocks 50 None :: reqs). rewrite send_send.
  split; [reflexivity|]. cbn. rewrite Hlen. reflexivity.
Qed.

Lemma cursor_on_every_page_witness :
  exists reqs,
    fetchBlocks_active endlessWorld 50 3 initialState = (OutOfFuel, send reqs initialState)
    /\ length reqs = 4.
Proof.
  apply (cursor_on_every_page endlessWorld 3 initialState).
  intros limit c. eexists. split; reflexivity.
Defined.

(** ** Block mode: a listing that fails *)

Lemma fetchBlocks_pages_pure {P : Type} (w : World P) (PAGE_LIMIT fuel : nat)
    (res : Page BlockView) (blocks : list BlockView) :
  exists o reqs, forall st,
    fetchBlocks_pages w PAGE_LIMIT fuel res blocks st = (o, send reqs st).
Proof.
  revert res blocks. induction fuel as [|fuel IH]; intros res blocks;
    cbn [fetchBlocks_pages]; destruct (truthy_str (cursor res)).
  - exists OutOfFuel, []. intros st. rewrite send_nil. reflexivity.
  - exists (Returns blocks), []. intros st. rewrite send_nil. reflexivity.
  - run. destruct (getBlocks w PAGE_LIMIT (cursor res)) as [res'|error].
    + destruct (IH res' (blocks ++ items res')) as (o & reqs & Hrun).
      eexists _, _. intros st. rewrite Hrun, send_send. reflexivity.
    + eexists _, _. intros st. reflexivity.
  - exists (Returns blocks), []. intros st. rewrite send_nil. reflexivity.
Qed.

Lemma fetchBlocks_active_pure {P : Type} (w : World P) (PAGE_LIMIT fuel : nat) :
  exists o reqs, forall st, fetchBlocks_active w PAGE_LIMIT fuel st = (o, send reqs st).
Proof.
  unfold fetchBlocks_active. run.
  destruct (getBlocks w PAGE_LIMIT None) as [res|error].
  - destruct (fetchBlocks_pages_pure w PAGE_LIMIT fuel res (items res)) as (o & reqs & Hrun).
    eexists _, _. intros st. rewrite Hrun, send_send. reflexivity.
  - eexists _, _. intros st. reflexivity.
Qed.

(** X19: when the first request for the block records fails: block mode of
    [src/src/App.tsx] goes on with no record at all, and, when the live
    block list can be read, ends with an empty result and the notice
    [All your blocked accounts are still active]; block mode of
    [src/unnamed/part_000] throws the error and stays on the notice
    [Fetching blocked accounts...] with its records as they were. *)
Theorem block_mode_listing_failure :
  (forall (w : World ClientResponse) (fuel : nat) (st st1 st2 : State)
          (blocks : list BlockView) (error : string),
      0 < fuel ->
      listRecords w (agentDID w) "app.bsky.graph.block" 100 None = ListFails error ->
      fetchBlocks_active w 50 fuel st1 = (Returns blocks, st2) ->
      exists st',
        AppEngine.fetchHiddenAccounts_blocks w fuel st = (Returns tt, st')
        /\ globalNotice st' = "All your blocked accounts are still active"
        /\ blockRecords st' = [] /\ progress st' = 0 /\ itemCount st' = 0
        /\ followRecords st' = followRecords st)
  /\ (forall (w : World XrpcResponse) (fuel : nat) (st : State) (error : string),
         0 < fuel ->
         listRecords w (agentDID w) "app.bsky.graph.block" 100 None = ListFails error ->
         exists st',
           Part000Engine.fetchHiddenAccounts_blocks w fuel st = (Throws error, st')
           /\ globalNotice st' = "Fetching blocked accounts..."
           /\ blockRecords st' = blockRecords st
           /\ sent st'
              = sent st ++ [ListRecords (agentDID w) "app.bsky.graph.block" 100 None]).
Proof.
  split.
  - intros w fuel st st1 st2 blocks error Hfuel Hfail Hactive.
    destruct (fetchBlocks_active_pure w 50 fuel) as (o & reqs & Hpure).
    rewrite Hpure in Hactive. injection Hactive as -> _.
    destruct fuel as [|fuel]; [lia|].
    unfold AppEngine.fetchHiddenAccounts_blocks, fetchHiddenAccounts_blocks, blockCandidates,
      fetchBlocks.
    cbn [listBlockRecords fetchBlocks_records]. rewrite Hfail.
    unfold mbind, Async_bind, mret, Async_ret, await, update. cbn beta iota.
    rewrite Hpure. cbn beta iota.
    eexists. split; [reflexivity|]. repeat split.
  - intros w fuel st error Hfuel Hfail.
    destruct fuel as [|fuel]; [lia|].
    unfold Part000Engine.fetchHiddenAccounts_blocks, fetchHiddenAccounts_blocks,
      blockCandidates.
    cbn [listBlockRecords]. rewrite Hfail.
    unfold mbind, Async_bind, mret, Async_ret, await, update, throw. cbn beta iota.
    eexists. split; [reflexivity|]. repeat split.
Qed.

Lemma block_mode_listing_failure_witness :
  exists st',
    Part000Engine.fetchHiddenAccounts_blocks brokenWorld 1
      (setBlockRecords (fun _ => [selectedDeleted]) initialState)
    = (Throws "InternalServerError", st')
    /\ blockRecords st' = [selectedDeleted].
Proof.
  destruct (proj2 block_mode_listing_failure brokenWorld 1
              (setBlockRecords (fun _ => [selectedDeleted]) initialState)
              "InternalServerError" (le_n 1) eq_refl) as (st' & Hrun & _ & HB & _).
  exists st'. split; [exact Hrun|exact HB].
Defined.

(** ** Block mode: what is published, and when *)

Lemma send_setProgress (R r : list Request) (p q : nat) (st : State) :
  send R (setProgress p (send r (setProgress q st))) = send (r ++ R) (setProgress p st).
Proof. unfold send, setProgress. cbn. rewrite app_assoc. reflexivity. Qed.

Section BlockRuns.
Context (check : string -> Async ProfileCheckResult).
Hypothesis check_pure : forall did, exists o reqs, forall st, check did st = (o, send reqs st).
Context (mk : gmap Z bool -> BlockRef -> ProfileCheckResult -> AccountRecord).

Lemma probe_run (did : string) (st : State) :
  check did st = (probe check did, send (probeRequests check did) st).
Proof.
  destruct (check_pure did) as (o & reqs & Hpure).
  unfold probe, probeRequests. rewrite !Hpure. reflexivity.
Qed.

(** The probing loop when every probe returns. *)
Lemma analyzeBlocks_returns (blocks : list BlockRef) (i : nat)
    (tmpBlocks : list AccountRecord) (st : State) :
  Forall (fun block => returns check (br_did block) = true) blocks ->
  analyzeBlocks check mk i blocks tmpBlocks st
  = (Returns (tmpBlocks ++ omap (blockPushed check mk (blockToggleStates st)) blocks),
     send (concat ((fun block => probeRequests check (br_did block)) <$> blocks))
       (setProgress (if blocks is [] then progress st else i + length blocks) st))
  /\ length (omap (blockPushed check mk (blockToggleStates st)) blocks) = length blocks.
Proof.
  revert i tmpBlocks st. induction blocks as [|block rest IH]; intros i tmpBlocks st Hall.
  - cbn. rewrite app_nil_r, send_nil. split; [|reflexivity]. destruct st. reflexivity.
  - apply Forall_cons in Hall as [Hret Hall]. unfold returns in Hret.
    destruct (probe check (br_did block)) as [res|msg|] eqn:Hprobe;
      [|discriminate|discriminate].
    assert (Hpush : forall T, blockPushed check mk T block = Some (mk T block res)).
    { intros T. unfold blockPushed. rewrite Hprobe. reflexivity. }
    cbn [analyzeBlocks]. run. rewrite (probe_run (br_did block)), Hprobe.
    cbn [omap list_omap]. rewrite Hpush. cbn.
    destruct (IH (S i) (tmpBlocks ++ [mk (blockToggleStates st) block res])
                (send (probeRequests check (br_did block)) (setProgress (i + 1) st)) Hall)
      as [Hrun Hlen].
    cbn [blockToggleStates send setProgress] in Hrun, Hlen.
    rewrite Hrun. split; [|cbn [length]; f_equal; exact Hlen].
    rewrite <- app_assoc. cbn [app length fmap list_fmap concat]. f_equal.
    rewrite <- send_setProgress with (q := i + 1). f_equal. f_equal.
    destruct rest; cbn [length progress send setProgress]; lia.
Qed.

(** The probing loop ends at the first probe that throws. *)
Lemma analyzeBlocks_throws (before : list BlockRef) (block : BlockRef)
    (after : list BlockRef) (msg : string) (i : nat) (tmpBlocks : list AccountRecord)
    (st : State) :
  Forall (fun block => returns check (br_did block) = true) before ->
  probe check (br_did block) = Throws msg ->
  analyzeBlocks check mk i (before ++ block :: after) tmpBlocks st
  = (Throws msg,
     send (concat ((fun block => probeRequests check (br_did block))
                     <$> before ++ [block]))
       (setProgress (i + length before + 1) st)).
Proof.
  revert i tmpBlocks st. induction before as [|b before IH]; intros i tmpBlocks st Hall Hthrow.
  - cbn [app analyzeBlocks]. run. rewrite (probe_run (br_did block)), Hthrow.
    cbn. rewrite app_nil_r, Nat.add_0_r. reflexivity.
  - apply Forall_cons in Hall as [Hret Hall]. unfold returns in Hret.
    cbn [app analyzeBlocks]. run. rewrite (probe_run (br_did b)).
    destruct (probe check (br_did b)) as [res|m|]; [|discriminate|discriminate].
    cbn.
    rewrite (IH (S i) _ _ Hall Hthrow).
    cbn [length]. replace (S i + length before + 1) with (i + S (length before) + 1) by lia.
    rewrite send_setProgress. reflexivity.
Qed.

End BlockRuns.

Lemma listBlockRecords_pure {P : Type} (w : World P) (breakOnFailure : bool) (fuel : nat)
    (cursor0 : option string) (allBlockRecords : list BlockRef) :
  exists o reqs, forall st,
    listBlockRecords w breakOnFailure fuel cursor0 allBlockRecords st = (o, send reqs st).
Proof.
  revert cursor0 allBlockRecords.
  induction fuel as [|fuel IH]; intros cursor0 allBlockRecords; cbn [listBlockRecords].
  - exists OutOfFuel, []. intros st. rewrite send_nil. reflexivity.
  - run. destruct (listRecords w (agentDID w) "app.bsky.graph.block" 100 cursor0)
      as [page|error].
    + destruct (truthy_str (cursor page)).
      * destruct (IH (cursor page)
                    (allBlockRecords
                     ++ ((fun record => {| br_did := rec_subject record;
                                           br_uri := rec_uri record |}) <$> items page)))
          as (o & reqs & Hrun).
        eexists _, _. intros st. rewrite Hrun, send_send. reflexivity.
      * eexists _, _. intros st. reflexivity.
    + destruct breakOnFailure; eexists _, _; intros st; reflexivity.
Qed.

Lemma fetchBlocks_records_pure {P : Type} (w : World P) (fuel : nat)
    (recordsCursor : option string) (blockedDids : gset string) (blockUris : list BlockRef) :
  exists o reqs, forall st,
    fetchBlocks_records w fuel recordsCursor blockedDids blockUris st = (o, send reqs st).
Proof.
  revert recordsCursor blockedDids blockUris.
  induction fuel as [|fuel IH]; intros recordsCursor blockedDids blockUris;
    cbn [fetchBlocks_records].
  - exists OutOfFuel, []. intros st. rewrite send_nil. reflexivity.
  - run. destruct (listRecords w (agentDID w) "app.bsky.graph.block" 100 recordsCursor)
      as [page|error].
    + destruct (foldl matchBlockRecord (blockedDids, blockUris) (items page))
        as [blockedDids' blockUris'].
      destruct (truthy_str (cursor page)).
      * destruct (IH (cursor page) blockedDids' blockUris') as (o & reqs & Hrun).
        eexists _, _. intros st. rewrite Hrun, send_send. reflexivity.
      * eexists _, _. intros st. reflexivity.
    + eexists _, _. intros st. reflexivity.
Qed.

(** The listings of block mode set the notice and send requests, and touch
    nothing else. *)
Lemma blockCandidates_pure {P : Type} (w : World P) (breakOnFailure : bool) (fuel : nat) :
  exists o reqs, forall st,
    blockCandidates w breakOnFailure fuel st
    = (o, send reqs (setGlobalNotice "Fetching blocked accounts..." st)).
Proof.
  unfold blockCandidates, fetchBlocks.
  destruct (listBlockRecords_pure w breakOnFailure fuel None []) as (o1 & r1 & H1).
  destruct (fetchBlocks_active_pure w 50 fuel) as (o2 & r2 & H2).
  run. destruct o1 as [all|msg|].
  - destruct o2 as [blocks|msg|].
    + destruct (fetchBlocks_records_pure w fuel None (list_to_set (bv_did <$> blocks)) [])
        as (o3 & r3 & H3).
      destruct o3 as [active|msg|]; eexists _, _; intros st;
        rewrite H1, H2, H3, !send_send; reflexivity.
    + eexists _, _. intros st. rewrite H1, H2, !send_send. reflexivity.
    + eexists _, _. intros st. rewrite H1, H2, !send_send. reflexivity.
  - eexists _, _. intros st. rewrite H1. reflexivity.
  - eexists _, _. intros st. rewrite H1. reflexivity.
Qed.

Section BlockMode.
Context {P : Type} (w : World P).
Context (check : string -> Async ProfileCheckResult).
Hypothesis check_pure : forall did, exists o reqs, forall st, check did st = (o, send reqs st).
Context (breakOnFailure : bool).
Context (mk : gmap Z bool -> BlockRef -> ProfileCheckResult -> AccountRecord).

Lemma block_mode_returns (fuel : nat) (st st1 : State) (candidates : list BlockRef) :
  blockCandidates w breakOnFailure fuel (setProgress 0 st) = (Returns candidates, st1) ->
  Forall (fun block => returns check (br_did block) = true) candidates ->
  exists st',
    fetchHiddenAccounts_blocks w check breakOnFailure mk fuel st = (Returns tt, st')
    /\ blockRecords st' = omap (blockPushed check mk (blockToggleStates st)) candidates
    /\ length (blockRecords st') = length candidates
    /\ globalNotice st' = blockNotice (blockRecords st')
    /\ progress st' = 0 /\ itemCount st' = 0
    /\ followRecords st' = followRecords st
    /\ followToggleStates st' = followToggleStates st
    /\ blockToggleStates st' = blockToggleStates st
    /\ currentMode st' = currentMode st
    /\ sent st'
       = sent st1 ++ concat ((fun block => probeRequests check (br_did block)) <$> candidates).
Proof.
  intros Hc Hall.
  destruct (blockCandidates_pure w breakOnFailure fuel) as (o & reqs & Hpure).
  pose proof Hc as Hc'. rewrite Hpure in Hc'. injection Hc' as Ho Hst. subst o st1.
  unfold fetchHiddenAccounts_blocks. run. rewrite Hc.
  destruct (analyzeBlocks_returns check check_pure mk candidates 0 []
              (setGlobalNotice "Analyzing blocked accounts..."
                 (setItemCount (length candidates)
                    (send reqs (setGlobalNotice "Fetching blocked accounts..."
                                  (setProgress 0 st))))) Hall) as [Hrun Hlen].
  cbn [blockToggleStates setGlobalNotice setItemCount send setProgress] in Hrun, Hlen.
  rewrite Hrun. cbn [app]. eexists. split; [reflexivity|].
  cbn. repeat split. exact Hlen.
Qed.

Lemma block_mode_throws (fuel : nat) (st st1 : State) (before : list BlockRef)
    (block : BlockRef) (after : list BlockRef) (msg : string) :
  blockCandidates w breakOnFailure fuel (setProgress 0 st)
  = (Returns (before ++ block :: after), st1) ->
  Forall (fun block => returns check (br_did block) = true) before ->
  probe check (br_did block) = Throws msg ->
  exists st',
    fetchHiddenAccounts_blocks w check breakOnFailure mk fuel st = (Throws msg, st')
    /\ blockRecords st' = blockRecords st
    /\ globalNotice st' = "Analyzing blocked accounts..."
    /\ progress st' = length before + 1
    /\ itemCount st' = length (before ++ block :: after)
    /\ sent st'
       = sent st1
         ++ concat ((fun block => probeRequests check (br_did block)) <$> before ++ [block]).
Proof.
  intros Hc Hall Hthrow.
  destruct (blockCandidates_pure w breakOnFailure fuel) as (o & reqs & Hpure).
  pose proof Hc as Hc'. rewrite Hpure in Hc'. injection Hc' as Ho Hst. subst o st1.
  unfold fetchHiddenAccounts_blocks. run. rewrite Hc.
  rewrite (analyzeBlocks_throws check check_pure mk before block after msg 0 [] _ Hall Hthrow).
  eexists. split; [reflexivity|]. cbn. repeat split.
Qed.

End BlockMode.

Lemma Part000_returns (w : World XrpcResponse) (did : string) :
  returns (Part000.checkProfileStatus w) did = true.
Proof.
  unfold returns, probe.
  destruct (Part000_checkProfileStatus_pure w did) as (res & reqs & ->). reflexivity.
Qed.

(** X20: block mode of [src/unnamed/part_000] always comes to its end once the
    candidates are known: it publishes one record per candidate, in the
    order of the candidates, unmarked and visible as the toggles at the
    start say; it sets the notice [All your blocked accounts are still
    active] when there is no candidate and clears it otherwise; it puts the
    counters back to zero, leaves the follow store, the toggles and the mode
    as they were, and sends no request but those of the probes of the
    candidates, one candidate after the other. *)
Theorem Part000_block_mode_final_state (w : World XrpcResponse) (fuel : nat)
    (st st1 : State) (candidates : list BlockRef) :
  Part000Engine.blockCandidates w fuel (setProgress 0 st) = (Returns candidates, st1) ->
  exists st',
    Part000Engine.fetchHiddenAccounts_blocks w fuel st = (Returns tt, st')
    /\ blockRecords st'
       = omap (blockPushed (Part000.checkProfileStatus w) Part000Records.blockRecordOf
                 (blockToggleStates st)) candidates
    /\ length (blockRecords st') = length candidates
    /\ globalNotice st' = blockNotice (blockRecords st')
    /\ progress st' = 0 /\ itemCount st' = 0
    /\ followRecords st' = followRecords st
    /\ followToggleStates st' = followToggleStates st
    /\ blockToggleStates st' = blockToggleStates st
    /\ currentMode st' = currentMode st
    /\ sent st'
       = sent st1
         ++ concat ((fun block => probeRequests (Part000.checkProfileStatus w) (br_did block))
                      <$> candidates).
Proof.
  intros Hc.
  apply (block_mode_returns w (Part000.checkProfileStatus w)
           (Part000_checkProfileStatus_pure' w) false Part000Records.blockRecordOf
           fuel st st1 candidates Hc).
  apply Forall_forall. intros block _. apply Part000_returns.
Qed.

Lemma Part000_block_mode_final_state_witness :
  exists st',
    Part000Engine.fetchHiddenAccounts_blocks (worldB profilesA) 1 initialState
    = (Returns tt, st')
    /\ length (blockRecords st') = 2.
Proof.
  destruct (Part000_block_mode_final_state (worldB profilesA) 1 initialState
              (Part000Engine.blockCandidates (worldB profilesA) 1
                 (setProgress 0 initialState)).2
              [ {| br_did := "did:plc:a"; br_uri := "at://did:plc:me/app.bsky.graph.block/a" |};
                {| br_did := "did:plc:c"; br_uri := "at://did:plc:me/app.bsky.graph.block/c" |} ])
    as (st' & Hrun & _ & Hlen & _).
  - vm_compute. reflexivity.
  - exists st'. split; [exact Hrun|exact Hlen].
Defined.

(** X21: block mode of [src/src/App.tsx] ends at the first probe that throws:
    the exception leaves [fetchHiddenAccounts], the records of the
    candidates probed before it are dropped, the block store is as it was,
    the notice stays on the analysis with the progress at the failed
    candidate, and the candidates after it are not probed. *)
Theorem App_block_mode_abort (w : World ClientResponse) (fuel : nat) (st st1 sta stb : State)
    (before : list BlockRef) (block : BlockRef) (after : list BlockRef) (msg : string) :
  AppEngine.blockCandidates w fuel (setProgress 0 st)
  = (Returns (before ++ block :: after), st1) ->
  Forall (fun block => returns (App.checkProfileStatus w) (br_did block) = true) before ->
  App.checkProfileStatus w (br_did block) sta = (Throws msg, stb) ->
  exists st',
    AppEngine.fetchHiddenAccounts_blocks w fuel st = (Throws msg, st')
    /\ blockRecords st' = blockRecords st
    /\ globalNotice st' = "Analyzing blocked accounts..."
    /\ progress st' = length before + 1
    /\ itemCount st' = length (before ++ block :: after)
    /\ sent st'
       = sent st1
         ++ concat ((fun block => probeRequests (App.checkProfileStatus w) (br_did block))
                      <$> before ++ [block]).
Proof.
  intros Hc Hall Hthrow.
  apply (block_mode_throws w (App.checkProfileStatus w) (App_checkProfileStatus_pure w)
           true AppRecords.blockRecordOf fuel st st1 before block after msg Hc Hall).
  unfold probe.
  destruct (App_checkProfileStatus_pure w (br_did block)) as (o & reqs & Hpure).
  rewrite Hpure in Hthrow |- *. injection Hthrow as -> _. reflexivity.
Qed.

Lemma App_block_mode_abort_witness :
  exists st',
    AppEngine.fetchHiddenAccounts_blocks worldR' 1 initialState
    = (Throws "app.bsky.actor.getProfile: request failed", st')
    /\ progress st' = 2 /\ itemCount st' = 3.
Proof.
  destruct (App_block_mode_abort worldR' 1 initialState
              (AppEngine.blockCandidates worldR' 1 (setProgress 0 initialState)).2
              initialState (send [GetProfile "did:plc:b"] initialState)
              [ {| br_did := "did:plc:a"; br_uri := "at://did:plc:me/app.bsky.graph.block/a" |} ]
              {| br_did := "did:plc:b"; br_uri := "at://did:plc:me/app.bsky.graph.block/b" |}
              [ {| br_did := "did:plc:c"; br_uri := "at://did:plc:me/app.bsky.graph.block/c" |} ]
              "app.bsky.actor.getProfile: request failed")
    as (st' & Hrun & _ & _ & Hp & Hn & _).
  - vm_compute. reflexivity.
  - constructor; [vm_compute; reflexivity|constructor].
  - vm_compute. reflexivity.
  - exists st'. split; [exact Hrun|]. split; [exact Hp|exact Hn].
Defined.

(** ** Edge cases *)

(** X22: with no follow record at all, follow mode launches no probe and no
    callback ever runs: the notice stays [Analyzing followed accounts...],
    and [All accounts you follow are active] is not shown. *)
Theorem follow_mode_empty {P : Type} (w : World P) (fuel : nat) (st : State)
    (page : Page RepoRecord) :
  listRecords w (agentDID w) "app.bsky.graph.follow" 100 None = ListOk page ->
  items page = [] ->
  exists st0,
    fetchHiddenAccounts_follows w fuel st = (Returns [], st0)
    /\ globalNotice st0 = "Analyzing followed accounts..."
    /\ progress st0 = 0 /\ itemCount st0 = 0
    /\ followRecords st0 = followRecords st
    /\ forall check c, followStep check [] c noRun st0 = None.
Proof.
  intros Hpage Hitems.
  unfold fetchHiddenAccounts_follows, fetchFollows, fetchFollows_limit.
  unfold mbind, Async_bind, mret, Async_ret, await, update. cbn beta iota.
  rewrite Hpage. cbn beta iota.
  assert (Hstop : forall s, fetchFollows_pages w 100 fuel page (items page) s
                            = (Returns [], s)).
  { intros s. destruct fuel; cbn [fetchFollows_pages]; rewrite Hitems; cbn [length];
      rewrite andb_false_r; reflexivity. }
  rewrite Hstop. eexists. split; [reflexivity|]. cbn.
  repeat split. intros check [|k]; reflexivity.
Qed.

Lemma follow_mode_empty_witness :
  exists st0,
    fetchHiddenAccounts_follows (worldB profilesA) 0 initialState = (Returns [], st0)
    /\ globalNotice st0 = "Analyzing followed accounts...".
Proof.
  destruct (follow_mode_empty (worldB profilesA) 0 initialState
              {| items := []; cursor := None |} eq_refl eq_refl)
    as (st0 & Hrun & HN & _).
  exists st0. split; [exact Hrun|exact HN].
Defined.

(** X23: in [src/unnamed/part_000], a profile that comes without identifier or
    without handle is classified [UNKNOWN] with a validation error before
    its labels and its viewer are looked at, after the profile request
    alone; in follow mode it is listed as [Unknown Status], under its handle
    if it has one and under [[Missing Handle]] otherwise. *)
Theorem Part000_malformed_profile (w : World XrpcResponse) (did : string) (st : State)
    (data : ProfileViewDetailed) (T : gmap Z bool) (record : RepoRecord) :
  getProfile w did = XrpcResolves (Some data) ->
  truthy_str (pv_did data) = false \/ truthy_str (pv_handle data) = false ->
  exists res e a,
    Part000.checkProfileStatus w did st = (Returns res, send [GetProfile did] st)
    /\ res_status res = Some RepoStatus.UNKNOWN
    /\ res_error res = Some e /\ err_type e = validation
    /\ followRecordOf T record res = Some a
    /\ ar_status_label a = "Unknown Status"
    /\ ar_handle a = or_str (pv_handle data) "[Missing Handle]".
Proof.
  intros Hp Hmissing. unfold Part000.checkProfileStatus. run. rewrite Hp.
  assert (Hcond : negb (truthy_str (pv_did data)) || negb (truthy_str (pv_handle data))
                  = true).
  { destruct Hmissing as [-> | ->]; [reflexivity|apply orb_true_r]. }
  rewrite Hcond. eexists _, _, _. split; [reflexivity|]. cbn.
  repeat split.
  unfold or_str at 1. cbn.
  destruct (pv_handle data) as [[|c h]|]; reflexivity.
Qed.

Lemma Part000_malformed_profile_witness :
  exists res,
    Part000.checkProfileStatus (smallWorld (fun _ => XrpcResolves (Some profileNoHandle))
                                  [] [] []) "did:plc:x" initialState
    = (Returns res, send [GetProfile "did:plc:x"] initialState)
    /\ res_status res = Some RepoStatus.UNKNOWN.
Proof.
  destruct (Part000_malformed_profile
              (smallWorld (fun _ => XrpcResolves (Some profileNoHandle)) [] [] [])
              "did:plc:x" initialState profileNoHandle ∅ (followOf "x") eq_refl
              (or_intror eq_refl))
    as (res & e & a & Hrun & Hs & _).
  exists res. split; [exact Hrun|exact Hs].
Defined.

(** X24: the theme switch and the reload agree: after a click the theme is the
    other of light and dark, the [dark] class of the document is set exactly
    when the theme is dark, and the theme that the component starts with
    after a reload is the theme of the click, whatever the system prefers.
    Before any click, a stored value other than [dark] gives the light
    theme even when the system prefers dark. *)
Theorem theme_survives_reload (b : Browser) (theme : string) :
  theme = "light" \/ theme = "dark" ->
  initTheme (clickTheme theme b).2 = (clickTheme theme b).1
  /\ (clickTheme theme b).1 <> theme
  /\ (clickTheme (clickTheme theme b).1 (clickTheme theme b).2).1 = theme
  /\ (darkClass (clickTheme theme b).2 = true <-> (clickTheme theme b).1 = "dark")
  /\ (forall other, storedTheme b = Some other -> other <> "dark" -> initTheme b = "light").
Proof.
  intros [-> | ->]; cbn.
  - repeat split; try discriminate; try reflexivity.
    intros other Hs Hne. unfold initTheme. rewrite Hs.
    rewrite bool_decide_eq_false_2 by congruence.
    rewrite (bool_decide_eq_false_2 (Some other = None)) by discriminate. reflexivity.
  - repeat split; try discriminate; try reflexivity.
    intros other Hs Hne. unfold initTheme. rewrite Hs.
    rewrite bool_decide_eq_false_2 by congruence.
    rewrite (bool_decide_eq_false_2 (Some other = None)) by discriminate. reflexivity.
Qed.

Lemma theme_survives_reload_witness :
  initTheme (clickTheme "light"
               {| storedTheme := None; prefersDark := false; darkClass := false |}).2
  = "dark".
Proof.
  exact (proj1 (theme_survives_reload
                  {| storedTheme := None; prefersDark := false; darkClass := false |}
                  "light" (or_introl eq_refl))).
Defined.
